(** * The block-device controller of node-disk-manager

    A shallow embedding of [pkg/controller/blockdevice/controller.go]:
    the change handler [OnBlockDeviceChange] and the stages it drives
    (force format, mount update, provision, unprovision, status refresh),
    followed by the properties of the specification that concern them.

    Go pointers to a block device that a stage mutates in place are
    modelled by passing the device in and returning the mutated device.
    Calls that leave the process (mount, mkfs, the node and block-device
    clients, the block inspector) are fields of a record of externals over
    an abstract world; every such call is also appended to a trace. *)

From Stdlib Require Import ZArith String List Bool Lia.
From stdpp Require Import base option list gmap strings.

Open Scope Z_scope.
Open Scope string_scope.

(** ** Go values *)

(** A Go slice: [None] is the nil slice, [Some l] a non-nil slice holding
    [l]. [reflect.DeepEqual] tells the nil slice from an empty one. *)
Definition GoSlice (A : Type) : Type := option (list A).

Definition elems {A} (s : GoSlice A) : list A := default [] s.

(** [append(s, l...)]: appending nothing gives back [s] itself. *)
Definition go_append {A} (s : GoSlice A) (l : list A) : GoSlice A :=
  match l with
  | [] => s
  | _ => Some (elems s ++ l)%list
  end.

(** [slices.Contains]. *)
Definition slices_Contains (s : GoSlice string) (x : string) : bool :=
  bool_decide (x ∈ elems s).

(** A Go map: [None] is the nil map, which reads as empty and cannot be
    written. *)
Definition GoMap (V : Type) : Type := option (gmap string V).

Definition go_lookup {V} (m : GoMap V) (k : string) : option V :=
  match m with
  | Some g => g !! k
  | None => None
  end.

Definition go_delete {V} (m : GoMap V) (k : string) : GoMap V :=
  match m with
  | Some g => Some (delete k g)
  | None => None
  end.

(** [m[k] = v]; [None] when the map is nil (the Go runtime panics). *)
Definition go_insert {V} (m : GoMap V) (k : string) (v : V) : option (GoMap V) :=
  match m with
  | Some g => Some (Some (<[k := v]> g))
  | None => None
  end.

(** Go errors: the message and how the predicates [apierrors.IsNotFound],
    [utils.IsFSCorrupted] and [errors.Is(_, os.ErrNotExist)] classify it. *)
Inductive ErrClass := ErrNotFound | ErrFSCorrupted | ErrNotExist | ErrOther.

Record error := mkError { err_class : ErrClass; err_Error : string }.

#[global] Instance ErrClass_eq_dec : EqDecision ErrClass.
Proof. solve_decision. Defined.
#[global] Instance error_eq_dec : EqDecision error.
Proof. solve_decision. Defined.

Definition IsNotFound (e : option error) : bool :=
  match e with
  | Some e => bool_decide (err_class e = ErrNotFound)
  | None => false
  end.

Definition IsFSCorrupted (e : error) : bool :=
  bool_decide (err_class e = ErrFSCorrupted).

Definition IsErrNotExist (e : error) : bool :=
  bool_decide (err_class e = ErrNotExist).

(** [fmt.Errorf]: a fresh error carrying the formatted message. *)
Definition Errorf (msg : string) : error := mkError ErrOther msg.

(** [metav1.Time], as a count of seconds. *)
Definition Time : Type := Z.

(** ** The block-device resource *)

(** The resource types are declared in the API package; the fields kept
    here are the ones the controller reads or writes. The string-typed
    enumerations are inductive types, with a constructor for any other
    string where the controller has a default case. *)

Inductive DeviceType :=
| DeviceTypeDisk
| DeviceTypePart
| DeviceTypeOther (s : string).

Inductive BlockDeviceState :=
| BlockDeviceActive
| BlockDeviceInactive.

Inductive ProvisionPhase :=
| ProvisionPhaseProvisioned
| ProvisionPhaseUnprovisioning
| ProvisionPhaseUnprovisioned
| ProvisionPhaseOther (s : string).

Record DeviceDetails := mkDeviceDetails {
  Details_DeviceType : DeviceType;
  Details_WWN : string;
  Details_UUID : string;
  Details_PtUUID : string;
  Details_PartUUID : string;
  Details_StorageController : string
}.

Record FilesystemStatus := mkFilesystemStatus {
  FS_Type : string;
  FS_MountPoint : string;
  FS_IsReadOnly : bool;
  FS_Corrupted : bool;
  FS_LastFormattedAt : option Time
}.

Record DeviceStatus := mkDeviceStatus {
  DS_Details : DeviceDetails;
  DS_FileSystem : FilesystemStatus;
  DS_Partitioned : bool;
  DS_DevPath : string
}.

(** Modelled from the spec: the condition helpers ([SetError],
    [SetStatusBool], [Message], [IsTrue]) come from a library outside the
    repository; a condition carries a boolean, an error message and a human
    message. *)
Inductive CondStatus := CondUnset | CondTrue | CondFalse.

Record Condition := mkCondition {
  cond_Status : CondStatus;
  cond_Error : string;
  cond_Message : string
}.

Inductive CondName := DeviceFormatting | DeviceMounted | DiskAddedToNode.

Record Conditions := mkConditions {
  conds_DeviceFormatting : Condition;
  conds_DeviceMounted : Condition;
  conds_DiskAddedToNode : Condition
}.

Record FilesystemInfo := mkFilesystemInfo {
  SpecFS_MountPoint : string;
  SpecFS_ForceFormatted : bool;
  SpecFS_Repaired : bool;
  SpecFS_Provisioned : bool
}.

Record BlockDeviceSpec := mkBlockDeviceSpec {
  Spec_FileSystem : FilesystemInfo;
  Spec_NodeName : string;
  Spec_Tags : GoSlice string
}.

Record BlockDeviceStatus := mkBlockDeviceStatus {
  Status_ProvisionPhase : ProvisionPhase;
  Status_State : BlockDeviceState;
  Status_DeviceStatus : DeviceStatus;
  Status_Conditions : Conditions
}.

Record BlockDevice := mkBlockDevice {
  Name : string;
  DeletionTimestamp : option Time;
  Spec : BlockDeviceSpec;
  Status : BlockDeviceStatus
}.

(** [block.FileSystemInfo], what the block inspector observes. *)
Record FileSystemInfo := mkFileSystemInfo {
  fsi_Type : string;
  fsi_IsReadOnly : bool;
  fsi_MountPoint : string
}.

#[global] Instance DeviceType_eq_dec : EqDecision DeviceType.
Proof. solve_decision. Defined.
#[global] Instance BlockDeviceState_eq_dec : EqDecision BlockDeviceState.
Proof. solve_decision. Defined.
#[global] Instance ProvisionPhase_eq_dec : EqDecision ProvisionPhase.
Proof. solve_decision. Defined.
#[global] Instance DeviceDetails_eq_dec : EqDecision DeviceDetails.
Proof. solve_decision. Defined.
#[global] Instance FilesystemStatus_eq_dec : EqDecision FilesystemStatus.
Proof. solve_decision. Defined.
#[global] Instance DeviceStatus_eq_dec : EqDecision DeviceStatus.
Proof. solve_decision. Defined.
#[global] Instance CondStatus_eq_dec : EqDecision CondStatus.
Proof. solve_decision. Defined.
#[global] Instance Condition_eq_dec : EqDecision Condition.
Proof. solve_decision. Defined.
#[global] Instance Conditions_eq_dec : EqDecision Conditions.
Proof. solve_decision. Defined.
#[global] Instance FilesystemInfo_eq_dec : EqDecision FilesystemInfo.
Proof. solve_decision. Defined.
#[global] Instance BlockDeviceSpec_eq_dec : EqDecision BlockDeviceSpec.
Proof. solve_decision. Defined.
#[global] Instance BlockDeviceStatus_eq_dec : EqDecision BlockDeviceStatus.
Proof. solve_decision. Defined.
#[global] Instance BlockDevice_eq_dec : EqDecision BlockDevice.
Proof. solve_decision. Defined.

(** [reflect.DeepEqual] on two values of one of the record types above. *)
Definition DeepEqual {A} `{EqDecision A} (x y : A) : bool := bool_decide (x = y).

(** *** Field updates, one per assignment form of the source *)

Definition set_Status (f : BlockDeviceStatus -> BlockDeviceStatus) (d : BlockDevice) : BlockDevice :=
  mkBlockDevice (Name d) (DeletionTimestamp d) (Spec d) (f (Status d)).

Definition set_Spec (f : BlockDeviceSpec -> BlockDeviceSpec) (d : BlockDevice) : BlockDevice :=
  mkBlockDevice (Name d) (DeletionTimestamp d) (f (Spec d)) (Status d).

Definition set_SpecFS (f : FilesystemInfo -> FilesystemInfo) (d : BlockDevice) : BlockDevice :=
  set_Spec (fun s => mkBlockDeviceSpec (f (Spec_FileSystem s)) (Spec_NodeName s) (Spec_Tags s)) d.

Definition set_DeviceStatus (f : DeviceStatus -> DeviceStatus) (d : BlockDevice) : BlockDevice :=
  set_Status (fun s => mkBlockDeviceStatus (Status_ProvisionPhase s) (Status_State s)
                         (f (Status_DeviceStatus s)) (Status_Conditions s)) d.

Definition set_FS (f : FilesystemStatus -> FilesystemStatus) (d : BlockDevice) : BlockDevice :=
  set_DeviceStatus (fun s => mkDeviceStatus (DS_Details s) (f (DS_FileSystem s))
                               (DS_Partitioned s) (DS_DevPath s)) d.

Definition set_Details (f : DeviceDetails -> DeviceDetails) (d : BlockDevice) : BlockDevice :=
  set_DeviceStatus (fun s => mkDeviceStatus (f (DS_Details s)) (DS_FileSystem s)
                               (DS_Partitioned s) (DS_DevPath s)) d.

Definition set_Conditions (f : Conditions -> Conditions) (d : BlockDevice) : BlockDevice :=
  set_Status (fun s => mkBlockDeviceStatus (Status_ProvisionPhase s) (Status_State s)
                         (Status_DeviceStatus s) (f (Status_Conditions s))) d.

Definition set_Corrupted (b : bool) : BlockDevice -> BlockDevice :=
  set_FS (fun f => mkFilesystemStatus (FS_Type f) (FS_MountPoint f) (FS_IsReadOnly f) b
                     (FS_LastFormattedAt f)).

Definition set_LastFormattedAt (t : option Time) : BlockDevice -> BlockDevice :=
  set_FS (fun f => mkFilesystemStatus (FS_Type f) (FS_MountPoint f) (FS_IsReadOnly f)
                     (FS_Corrupted f) t).

Definition set_FSObserved (fs : FileSystemInfo) : BlockDevice -> BlockDevice :=
  set_FS (fun f => mkFilesystemStatus (fsi_Type fs) (fsi_MountPoint fs) (fsi_IsReadOnly fs)
                     (FS_Corrupted f) (FS_LastFormattedAt f)).

Definition set_Partitioned (b : bool) : BlockDevice -> BlockDevice :=
  set_DeviceStatus (fun s => mkDeviceStatus (DS_Details s) (DS_FileSystem s) b (DS_DevPath s)).

Definition set_UUID (u : string) : BlockDevice -> BlockDevice :=
  set_Details (fun x => mkDeviceDetails (Details_DeviceType x) (Details_WWN x) u
                          (Details_PtUUID x) (Details_PartUUID x)
                          (Details_StorageController x)).

Definition set_Repaired (b : bool) : BlockDevice -> BlockDevice :=
  set_SpecFS (fun f => mkFilesystemInfo (SpecFS_MountPoint f) (SpecFS_ForceFormatted f) b
                         (SpecFS_Provisioned f)).

Definition set_AutoProvision : BlockDevice -> BlockDevice :=
  set_SpecFS (fun f => mkFilesystemInfo (SpecFS_MountPoint f) true (SpecFS_Repaired f) true).

Definition set_ProvisionPhase (p : ProvisionPhase) : BlockDevice -> BlockDevice :=
  set_Status (fun s => mkBlockDeviceStatus p (Status_State s) (Status_DeviceStatus s)
                         (Status_Conditions s)).

(** Shorthands for the paths the source reads. *)
Definition dev_FS (d : BlockDevice) : FilesystemStatus :=
  DS_FileSystem (Status_DeviceStatus (Status d)).
Definition dev_Details (d : BlockDevice) : DeviceDetails :=
  DS_Details (Status_DeviceStatus (Status d)).
Definition dev_SpecFS (d : BlockDevice) : FilesystemInfo :=
  Spec_FileSystem (Spec d).
Definition dev_Phase (d : BlockDevice) : ProvisionPhase :=
  Status_ProvisionPhase (Status d).

(** *** Conditions *)

Definition get_cond (c : CondName) (cs : Conditions) : Condition :=
  match c with
  | DeviceFormatting => conds_DeviceFormatting cs
  | DeviceMounted => conds_DeviceMounted cs
  | DiskAddedToNode => conds_DiskAddedToNode cs
  end.

Definition upd_cond (c : CondName) (f : Condition -> Condition) (cs : Conditions) : Conditions :=
  match c with
  | DeviceFormatting =>
      mkConditions (f (conds_DeviceFormatting cs)) (conds_DeviceMounted cs)
        (conds_DiskAddedToNode cs)
  | DeviceMounted =>
      mkConditions (conds_DeviceFormatting cs) (f (conds_DeviceMounted cs))
        (conds_DiskAddedToNode cs)
  | DiskAddedToNode =>
      mkConditions (conds_DeviceFormatting cs) (conds_DeviceMounted cs)
        (f (conds_DiskAddedToNode cs))
  end.

Definition dev_cond (c : CondName) (d : BlockDevice) : Condition :=
  get_cond c (Status_Conditions (Status d)).

Definition SetError (c : CondName) (d : BlockDevice) (err : option error) : BlockDevice :=
  set_Conditions (upd_cond c (fun x =>
    mkCondition (cond_Status x)
      (match err with Some e => err_Error e | None => "" end)
      (cond_Message x))) d.

Definition SetStatusBool (c : CondName) (d : BlockDevice) (b : bool) : BlockDevice :=
  set_Conditions (upd_cond c (fun x =>
    mkCondition (if b then CondTrue else CondFalse) (cond_Error x) (cond_Message x))) d.

Definition Message (c : CondName) (d : BlockDevice) (msg : string) : BlockDevice :=
  set_Conditions (upd_cond c (fun x =>
    mkCondition (cond_Status x) (cond_Error x) msg)) d.

Definition IsTrue (c : CondName) (d : BlockDevice) : bool :=
  match cond_Status (dev_cond c d) with
  | CondTrue => true
  | _ => false
  end.

(** ** The orchestrator node *)

Record DiskSpec := mkDiskSpec {
  Disk_Path : string;
  Disk_AllowScheduling : bool;
  Disk_EvictionRequested : bool;
  Disk_StorageReserved : Z;
  Disk_Tags : GoSlice string
}.

Record DiskStatus := mkDiskStatus {
  ScheduledReplica : GoMap Z
}.

Record Node := mkNode {
  Node_Name : string;
  Node_Disks : GoMap DiskSpec;
  Node_DiskStatus : GoMap DiskStatus
}.

#[global] Instance DiskSpec_eq_dec : EqDecision DiskSpec.
Proof. solve_decision. Defined.

(** [len] of a Go map. *)
Definition go_len {V} (m : GoMap V) : nat :=
  match m with
  | Some g => size g
  | None => 0%nat
  end.

(** ** Pure helpers of the controller *)

(** Modelled from the spec: [ghwutil.UNKNOWN] is declared outside this
    file; a value is absent when empty or equal to the literal [unknown]. *)
Definition UNKNOWN : string := "unknown".

Definition valueExists (value : string) : bool :=
  negb (bool_decide (value = "")) && negb (bool_decide (value = UNKNOWN)).

(** [NeedMountUpdateOP] is an [int8] of flags [1 << iota]. *)
Definition NeedMountUpdateOP : Type := Z.

Definition NeedMountUpdateNoOp : NeedMountUpdateOP := Z.shiftl 1 0.
Definition NeedMountUpdateMount : NeedMountUpdateOP := Z.shiftl 1 1.
Definition NeedMountUpdateUnmount : NeedMountUpdateOP := Z.shiftl 1 2.

Definition Has (f flag : NeedMountUpdateOP) : bool :=
  negb (Z.land f flag =? 0)%Z.

Definition extraDiskMountPoint (bd : BlockDevice) : string :=
  if negb (bool_decide (SpecFS_MountPoint (dev_SpecFS bd) = "")) then
    SpecFS_MountPoint (dev_SpecFS bd)
  else
    "/var/lib/harvester/extra-disks/" +:+ Name bd.

Definition needUpdateMountPoint (bd : BlockDevice) (filesystem : option FileSystemInfo)
  : NeedMountUpdateOP :=
  match filesystem with
  | None => NeedMountUpdateNoOp
  | Some fs =>
      if SpecFS_Provisioned (dev_SpecFS bd) then
        if bool_decide (fsi_MountPoint fs = "") then NeedMountUpdateMount
        else if bool_decide (fsi_MountPoint fs = extraDiskMountPoint bd) then
          NeedMountUpdateNoOp
        else Z.lor NeedMountUpdateUnmount NeedMountUpdateMount
      else if negb (bool_decide (fsi_MountPoint fs = "")) then NeedMountUpdateUnmount
      else NeedMountUpdateNoOp
  end.

Definition convertMountStr (mountOP : NeedMountUpdateOP) : string :=
  if Z.eqb mountOP NeedMountUpdateNoOp then "No-Op"
  else if Z.eqb mountOP NeedMountUpdateMount then "Mount"
  else if Z.eqb mountOP NeedMountUpdateUnmount then "Unmount"
  else "Unknown OP".

(** [convertFSInfoToString] reads through the pointer it is given: on a
    nil observation the Go runtime panics, here [None]. *)
Definition convertFSInfoToString (fsInfo : option FileSystemInfo) : option string :=
  match fsInfo with
  | None => None
  | Some fs =>
      if bool_decide (fsi_MountPoint fs = "") then Some "device is not mounted"
      else Some ("mountpoint: " +:+ fsi_MountPoint fs +:+ ", fsType: " +:+ fsi_Type fs)
  end.

(** *** The mount plan as the specification words it *)

Inductive MountPlan := PlanNoOp | PlanMount | PlanUnmount | PlanUnmountMount.

Definition plan_flags (p : MountPlan) : NeedMountUpdateOP :=
  match p with
  | PlanNoOp => 1
  | PlanMount => 2
  | PlanUnmount => 4
  | PlanUnmountMount => 6
  end.

Definition expectedMountPoint (bd : BlockDevice) : string :=
  match SpecFS_MountPoint (dev_SpecFS bd) with
  | EmptyString => "/var/lib/harvester/extra-disks/" +:+ Name bd
  | deprecated => deprecated
  end.

Inductive PlanSpec (bd : BlockDevice) : option FileSystemInfo -> MountPlan -> Prop :=
| plan_absent :
    PlanSpec bd None PlanNoOp
| plan_mount fs :
    SpecFS_Provisioned (dev_SpecFS bd) = true ->
    fsi_MountPoint fs = "" ->
    PlanSpec bd (Some fs) PlanMount
| plan_mounted fs :
    SpecFS_Provisioned (dev_SpecFS bd) = true ->
    fsi_MountPoint fs ≠ "" ->
    fsi_MountPoint fs = expectedMountPoint bd ->
    PlanSpec bd (Some fs) PlanNoOp
| plan_remount fs :
    SpecFS_Provisioned (dev_SpecFS bd) = true ->
    fsi_MountPoint fs ≠ "" ->
    fsi_MountPoint fs ≠ expectedMountPoint bd ->
    PlanSpec bd (Some fs) PlanUnmountMount
| plan_unmount fs :
    SpecFS_Provisioned (dev_SpecFS bd) = false ->
    fsi_MountPoint fs ≠ "" ->
    PlanSpec bd (Some fs) PlanUnmount
| plan_idle fs :
    SpecFS_Provisioned (dev_SpecFS bd) = false ->
    fsi_MountPoint fs = "" ->
    PlanSpec bd (Some fs) PlanNoOp.

(** Modelled from the spec: [gocommon.SliceDedupe], from a library outside
    the repository; it drops repeated items, keeping the first of each. *)
Fixpoint dedupe_from (seen : list string) (l : list string) : list string :=
  match l with
  | [] => []
  | x :: l' =>
      if bool_decide (x ∈ seen) then dedupe_from seen l'
      else x :: dedupe_from (x :: seen) l'
  end.

Definition SliceDedupe (x : GoSlice string) : GoSlice string :=
  match x with
  | None => None
  | Some l => Some (dedupe_from [] l)
  end.

(** Modelled from the spec: [gocommon.SliceContentCmp], from a library
    outside the repository; it compares two slices as sets. *)
Definition SliceContentCmp (x y : GoSlice string) : bool :=
  forallb (fun t => bool_decide (t ∈ elems y)) (elems x) &&
  forallb (fun t => bool_decide (t ∈ elems x)) (elems y).

(** [int64] arithmetic wraps around. *)
Definition wrap64 (z : Z) : Z := (z + 2 ^ 63) mod 2 ^ 64 - 2 ^ 63.

(** [time.Second], in nanoseconds. *)
Definition Second : Z := 1000000000.

(** ** Calls that leave the process *)

Inductive Event :=
| EvGetFileSystemInfoByDevPath (devPath : string)
| EvGetDiskByDevPath (devPath : string)
| EvGetPartitionByDevPath (parentDevPath devPath : string)
| EvGetParentDevName (devPath : string)
| EvGetDevPathByPTUUID (ptUUID : string)
| EvEvalSymlinks (path : string)
| EvUmountDisk (mountPoint : string)
| EvMountDisk (devPath mountPoint : string)
| EvMakeExt4DiskFormatting (devPath uuid : string)
| EvNodeCacheGet (namespace name : string)
| EvNodesGet (namespace name : string)
| EvNodesUpdate (node : Node)
| EvBlockdevicesUpdate (bd : BlockDevice)
| EvEnqueueAfter (namespace name : string) (delay : Z)
| EvGenRandNumber (n : Z)
| EvNow
| EvApplyAutoProvisionFiltersForDisk
| EvNeedsAutoProvision (bd : BlockDevice) (autoProvisioned : bool).

(** The two kinds of write the handler can make to the cluster. *)
Inductive WriteKind := NodeWrite | DeviceWrite.

Definition is_write (k : WriteKind) (e : Event) : bool :=
  match k, e with
  | NodeWrite, EvNodesUpdate _ => true
  | DeviceWrite, EvBlockdevicesUpdate _ => true
  | _, _ => false
  end.

Definition count_writes (k : WriteKind) (evs : list Event) : nat :=
  length (filter (fun e => is_write k e = true) evs).

(** The semaphore: a buffered channel of [ch_cap] slots, [ch_len] taken. *)
Record semaphore := mkSemaphore { ch_len : nat; ch_cap : nat }.

Record DiskTags := mkDiskTags {
  diskTags : gmap string (GoSlice string);
  initialized : bool
}.

Record Controller := mkController {
  Namespace : string;
  NodeName : string
}.

(** The collaborators of the controller, over a world [W] they read and
    change: the block inspector ([BlockInfo], [block]), the filesystem
    tools ([utils]), the scanner, the node and block-device clients, the
    clock and the random source. [Disk] and [Partition] are what the block
    inspector returns. *)
Record Externals (W Disk Partition : Type) := mkExternals {
  ext_GetFileSystemInfoByDevPath : string -> W -> option FileSystemInfo * W;
  ext_GetDiskByDevPath : string -> W -> Disk * W;
  ext_GetPartitionByDevPath : string -> string -> W -> Partition * W;
  ext_GetParentDevName : string -> W -> (string * option error) * W;
  ext_GetDevPathByPTUUID : string -> W -> (string * option error) * W;
  ext_EvalSymlinks : string -> W -> (string * option error) * W;
  ext_UmountDisk : string -> W -> option error * W;
  ext_MountDisk : string -> string -> W -> option error * W;
  ext_MakeExt4DiskFormatting : string -> string -> W -> option error * W;
  ext_IsSupportedFileSystem : string -> bool;
  ext_NodeCacheGet : string -> string -> W -> (Node + error) * W;
  ext_NodesGet : string -> string -> W -> (Node + error) * W;
  ext_NodesUpdate : Node -> W -> option error * W;
  ext_BlockdevicesUpdate : BlockDevice -> W -> (option BlockDevice * option error) * W;
  ext_EnqueueAfter : string -> string -> Z -> W -> unit * W;
  ext_GenRandNumber : Z -> W -> (Z * option error) * W;
  ext_Now : W -> Time * W;
  ext_GetDiskBlockDevice : Disk -> string -> string -> BlockDevice;
  ext_GetPartitionBlockDevice : Partition -> string -> string -> BlockDevice;
  ext_ApplyAutoProvisionFiltersForDisk : Disk -> W -> bool * W;
  ext_NeedsAutoProvision : BlockDevice -> bool -> W -> bool * W;
  (* package constants declared outside this file *)
  ext_DiskRemoveTag : string;
  ext_StorageControllerNVMe : string
}.

Arguments ext_GetFileSystemInfoByDevPath {W Disk Partition}.
Arguments ext_GetDiskByDevPath {W Disk Partition}.
Arguments ext_GetPartitionByDevPath {W Disk Partition}.
Arguments ext_GetParentDevName {W Disk Partition}.
Arguments ext_GetDevPathByPTUUID {W Disk Partition}.
Arguments ext_EvalSymlinks {W Disk Partition}.
Arguments ext_UmountDisk {W Disk Partition}.
Arguments ext_MountDisk {W Disk Partition}.
Arguments ext_MakeExt4DiskFormatting {W Disk Partition}.
Arguments ext_IsSupportedFileSystem {W Disk Partition}.
Arguments ext_NodeCacheGet {W Disk Partition}.
Arguments ext_NodesGet {W Disk Partition}.
Arguments ext_NodesUpdate {W Disk Partition}.
Arguments ext_BlockdevicesUpdate {W Disk Partition}.
Arguments ext_EnqueueAfter {W Disk Partition}.
Arguments ext_GenRandNumber {W Disk Partition}.
Arguments ext_Now {W Disk Partition}.
Arguments ext_GetDiskBlockDevice {W Disk Partition}.
Arguments ext_GetPartitionBlockDevice {W Disk Partition}.
Arguments ext_ApplyAutoProvisionFiltersForDisk {W Disk Partition}.
Arguments ext_NeedsAutoProvision {W Disk Partition}.
Arguments ext_DiskRemoveTag {W Disk Partition}.
Arguments ext_StorageControllerNVMe {W Disk Partition}.

(** ** The state a handler runs in *)

(** The world, the process-wide semaphore and tag cache, and the calls made
    so far, oldest first. *)
Record ProcState (W : Type) := mkProcState {
  world : W;
  sem : semaphore;
  CacheDiskTags : DiskTags;
  trace : list Event
}.

Arguments mkProcState {W}.
Arguments world {W}.
Arguments sem {W}.
Arguments CacheDiskTags {W}.
Arguments trace {W}.

(** What running a piece of code gives: a value, or a runtime panic. *)
Inductive Outcome (A : Type) :=
| Ret (a : A)
| Panic.

Arguments Ret {A}.
Arguments Panic {A}.

Definition M (W A : Type) : Type := ProcState W -> Outcome A * ProcState W.

#[global] Instance M_ret {W} : MRet (M W) :=
  fun A a st => (Ret a, st).

#[global] Instance M_bind {W} : MBind (M W) :=
  fun A B k m st =>
    match m st with
    | (Ret a, st') => k a st'
    | (Panic, st') => (Panic, st')
    end.

Definition mpanic {W A} : M W A := fun st => (Panic, st).

(** [defer cleanup] ahead of [body]: the cleanup runs when the body is
    left, also by a panic, and its result is dropped. *)
Definition defer {W A B} (cleanup : M W B) (body : M W A) : M W A :=
  fun st =>
    let (o, st') := body st in
    let (_, st'') := cleanup st' in
    (o, st'').

(** A call to a collaborator: recorded in the trace, then run on the world. *)
Definition call {W A} (ev : Event) (f : W -> A * W) : M W A :=
  fun st =>
    let (a, w) := f (world st) in
    (Ret a, mkProcState w (sem st) (CacheDiskTags st) (trace st ++ [ev])%list).

(** *** The semaphore *)

Definition acquire {W} : M W bool :=
  fun st =>
    if (ch_len (sem st) <? ch_cap (sem st))%nat then
      (Ret true,
       mkProcState (world st) (mkSemaphore (S (ch_len (sem st))) (ch_cap (sem st)))
         (CacheDiskTags st) (trace st))
    else (Ret false, st).

Definition release {W} : M W bool :=
  fun st =>
    match ch_len (sem st) with
    | S n =>
        (Ret true,
         mkProcState (world st) (mkSemaphore n (ch_cap (sem st)))
           (CacheDiskTags st) (trace st))
    | O => (Ret false, st)
    end.

(** *** The tag cache *)

Definition UpdateDiskTags {W} (dev : string) (tags : GoSlice string) : M W unit :=
  fun st =>
    (Ret tt,
     mkProcState (world st) (sem st)
       (mkDiskTags (<[dev := tags]> (diskTags (CacheDiskTags st)))
          (initialized (CacheDiskTags st)))
       (trace st)).

Definition DeleteDiskTags {W} (dev : string) : M W unit :=
  fun st =>
    (Ret tt,
     mkProcState (world st) (sem st)
       (mkDiskTags (delete dev (diskTags (CacheDiskTags st)))
          (initialized (CacheDiskTags st)))
       (trace st)).

Definition Initialized {W} : M W bool :=
  fun st => (Ret (initialized (CacheDiskTags st)), st).

(** Reading a key the map lacks gives the nil slice. *)
Definition cache_get (d : DiskTags) (dev : string) : GoSlice string :=
  match diskTags d !! dev with
  | Some tags => tags
  | None => None
  end.

Definition GetDiskTags {W} (dev : string) : M W (GoSlice string) :=
  fun st => (Ret (cache_get (CacheDiskTags st) dev), st).

Definition DevExist {W} (dev : string) : M W bool :=
  fun st => (Ret (bool_decide (is_Some (diskTags (CacheDiskTags st) !! dev))), st).

(** ** The controller *)

Section Controller.

Context {W Disk Partition : Type}.
Variable ext : Externals W Disk Partition.
Variable c : Controller.

Local Abbreviation M := (M W).

(** *** Collaborator calls *)

Definition GetFileSystemInfoByDevPath (devPath : string) : M (option FileSystemInfo) :=
  call (EvGetFileSystemInfoByDevPath devPath) (ext_GetFileSystemInfoByDevPath ext devPath).

Definition GetDiskByDevPath (devPath : string) : M Disk :=
  call (EvGetDiskByDevPath devPath) (ext_GetDiskByDevPath ext devPath).

Definition GetPartitionByDevPath (parentDevPath devPath : string) : M Partition :=
  call (EvGetPartitionByDevPath parentDevPath devPath)
    (ext_GetPartitionByDevPath ext parentDevPath devPath).

Definition GetParentDevName (devPath : string) : M (string * option error) :=
  call (EvGetParentDevName devPath) (ext_GetParentDevName ext devPath).

Definition GetDevPathByPTUUID (ptUUID : string) : M (string * option error) :=
  call (EvGetDevPathByPTUUID ptUUID) (ext_GetDevPathByPTUUID ext ptUUID).

Definition EvalSymlinks (path : string) : M (string * option error) :=
  call (EvEvalSymlinks path) (ext_EvalSymlinks ext path).

Definition UmountDisk (mountPoint : string) : M (option error) :=
  call (EvUmountDisk mountPoint) (ext_UmountDisk ext mountPoint).

Definition MountDisk (devPath mountPoint : string) : M (option error) :=
  call (EvMountDisk devPath mountPoint) (ext_MountDisk ext devPath mountPoint).

Definition MakeExt4DiskFormatting (devPath uuid : string) : M (option error) :=
  call (EvMakeExt4DiskFormatting devPath uuid) (ext_MakeExt4DiskFormatting ext devPath uuid).

Definition NodeCacheGet (namespace name : string) : M (Node + error) :=
  call (EvNodeCacheGet namespace name) (ext_NodeCacheGet ext namespace name).

Definition NodesGet (namespace name : string) : M (Node + error) :=
  call (EvNodesGet namespace name) (ext_NodesGet ext namespace name).

Definition NodesUpdate (node : Node) : M (option error) :=
  call (EvNodesUpdate node) (ext_NodesUpdate ext node).

Definition BlockdevicesUpdate (bd : BlockDevice) : M (option BlockDevice * option error) :=
  call (EvBlockdevicesUpdate bd) (ext_BlockdevicesUpdate ext bd).

Definition EnqueueAfter (namespace name : string) (delay : Z) : M unit :=
  call (EvEnqueueAfter namespace name delay) (ext_EnqueueAfter ext namespace name delay).

Definition GenRandNumber (n : Z) : M (Z * option error) :=
  call (EvGenRandNumber n) (ext_GenRandNumber ext n).

Definition Now : M Time :=
  call EvNow (ext_Now ext).

Definition ApplyAutoProvisionFiltersForDisk (disk : Disk) : M bool :=
  call EvApplyAutoProvisionFiltersForDisk (ext_ApplyAutoProvisionFiltersForDisk ext disk).

Definition NeedsAutoProvision (bd : BlockDevice) (autoProvisioned : bool) : M bool :=
  call (EvNeedsAutoProvision bd autoProvisioned) (ext_NeedsAutoProvision ext bd autoProvisioned).

(** *** Stages *)

Definition jitterEnqueueDelay : M Z :=
  let enqueueDelay := 5 in
  '(randNum, _) ← GenRandNumber 2;
  mret (wrap64 (wrap64 (randNum + enqueueDelay) * Second)).

Definition updateDeviceFileSystem (device : BlockDevice) (devPath : string)
  : M (BlockDevice * option error) :=
  if FS_Corrupted (dev_FS device) then mret (device, None)
  else
    filesystem ← GetFileSystemInfoByDevPath devPath;
    match filesystem with
    | None =>
        mret (device, Some (Errorf ("failed to get filesystem info from devPath " +:+ devPath)))
    | Some fs =>
        if negb (bool_decide (fsi_MountPoint fs = "")) &&
           negb (bool_decide (fsi_Type fs = "")) &&
           negb (ext_IsSupportedFileSystem ext (fsi_Type fs))
        then mret (device, Some (Errorf ("unsupported filesystem type " +:+ fsi_Type fs)))
        else mret (set_FSObserved fs device, None)
    end.

(** The UUID [forceFormat] hands to mkfs. *)
Definition reuseUUID (device : BlockDevice) : string :=
  let uuid := "" in
  if negb (valueExists (Details_WWN (dev_Details device))) then
    let uuid := Details_UUID (dev_Details device) in
    let uuid := if negb (valueExists uuid) then Details_PtUUID (dev_Details device) else uuid in
    let uuid := if negb (valueExists uuid) then "" else uuid in
    uuid
  else uuid.

Definition forceFormat (device : BlockDevice) (devPath : string)
    (filesystem : option FileSystemInfo) : M (BlockDevice * option error) :=
  ok ← acquire;
  if negb ok then
    delay ← jitterEnqueueDelay;
    _ ← EnqueueAfter (Namespace c) (Name device) delay;
    mret (device, None)
  else
    defer release (
      err ← match filesystem with
            | Some fs =>
                if negb (bool_decide (fsi_MountPoint fs = "")) then
                  UmountDisk (fsi_MountPoint fs)
                else mret None
            | None => mret None
            end;
      match err with
      | Some e => mret (device, Some e)
      | None =>
          let uuid := reuseUUID device in
          err ← MakeExt4DiskFormatting devPath uuid;
          match err with
          | Some e => mret (device, Some e)
          | None =>
              let device :=
                if negb (bool_decide (uuid = "")) then set_UUID uuid device else device in
              '(device, err) ← updateDeviceFileSystem device devPath;
              match err with
              | Some e => mret (device, Some e)
              | None =>
                  let device := SetError DeviceFormatting device None in
                  let device := SetStatusBool DeviceFormatting device false in
                  let device :=
                    Message DeviceFormatting device "Done device ext4 filesystem formatting" in
                  now ← Now;
                  let device := set_LastFormattedAt (Some now) device in
                  let device := set_Partitioned false device in
                  let device := set_Corrupted false device in
                  mret (device, None)
              end
          end
      end).

Definition updateDeviceMount (device : BlockDevice) (devPath : string)
    (filesystem : option FileSystemInfo) (needMountUpdate : NeedMountUpdateOP)
  : M (BlockDevice * option error) :=
  if DS_Partitioned (Status_DeviceStatus (Status device)) then
    mret (device,
          Some (Errorf "partitioned device is not supported, please use raw block device instead"))
  else
    '(device, err) ←
      (if Has needMountUpdate NeedMountUpdateUnmount then
         match filesystem with
         | None => mpanic
         | Some fs =>
             err ← UmountDisk (fsi_MountPoint fs);
             match err with
             | Some e => mret (device, Some e)
             | None =>
                 let device := SetError DeviceMounted device None in
                 let device := SetStatusBool DeviceMounted device false in
                 mret (device, None)
             end
         end
       else mret (device, None));
    match err with
    | Some e => mret (device, Some e)
    | None =>
        '(device, err) ←
          (if Has needMountUpdate NeedMountUpdateMount then
             let expectedMountPoint := extraDiskMountPoint device in
             err ← MountDisk devPath expectedMountPoint;
             match err with
             | Some e =>
                 let device :=
                   if IsFSCorrupted e then set_Repaired false (set_Corrupted true device)
                   else device in
                 mret (device, Some e)
             | None =>
                 let device := SetError DeviceMounted device None in
                 let device := SetStatusBool DeviceMounted device true in
                 mret (device, None)
             end
           else mret (device, None));
        match err with
        | Some e => mret (device, Some e)
        | None =>
            let device := set_Corrupted false device in
            updateDeviceFileSystem device devPath
        end
    end.

(** The loop of [provisionDeviceToNode] over the tags of the node's entry:
    those the cache does not hold for the device are kept. *)
Fixpoint respectTags (name : string) (tags : list string) (respectedTags : GoSlice string)
  : M (GoSlice string) :=
  match tags with
  | [] => mret respectedTags
  | tag :: tags' =>
      cached ← GetDiskTags name;
      let respectedTags :=
        if negb (slices_Contains cached tag) then go_append respectedTags [tag]
        else respectedTags in
      respectTags name tags' respectedTags
  end.

(** Lines 455-461: the node, from the cache or else from the API server. *)
Definition provisionLoadNode : M (Node + error) :=
  r ← NodeCacheGet (Namespace c) (NodeName c);
  match r with
  | inr err => if IsNotFound (Some err) then NodesGet (Namespace c) (NodeName c) else mret r
  | inl _ => mret r
  end.

(** Lines 464-490: the entry to write and whether the node already has it. *)
Definition provisionDiskSpec (node : Node) (device : BlockDevice) : M (DiskSpec * bool) :=
  let diskSpec :=
    mkDiskSpec (extraDiskMountPoint device) true false 0 (Spec_Tags (Spec device)) in
  let updated := false in
  match go_lookup (Node_Disks node) (Name device) with
  | Some disk =>
      let respectedTags : GoSlice string := Some [] in
      match Disk_Tags disk with
      | Some diskTags =>
          devExist ← DevExist (Name device);
          respectedTags ←
            (if (devExist : bool) then respectTags (Name device) diskTags respectedTags
             else mret (Disk_Tags disk));
          let diskSpec :=
            mkDiskSpec (Disk_Path diskSpec) (Disk_AllowScheduling diskSpec)
              (Disk_EvictionRequested diskSpec) (Disk_StorageReserved diskSpec)
              (SliceDedupe (go_append respectedTags (elems (Spec_Tags (Spec device))))) in
          mret (diskSpec, DeepEqual disk diskSpec)
      | None => mret (diskSpec, updated)
      end
  | None => mret (diskSpec, updated)
  end.

Definition provisionDeviceToNode (device : BlockDevice) : M (BlockDevice * option error) :=
  r ← provisionLoadNode;
  match r with
  | inr err => mret (device, Some err)
  | inl node =>
      let nodeCpy := node in
      '(diskSpec, updated) ← provisionDiskSpec node device;
      '(device, err) ←
        (if negb updated || negb (IsTrue DiskAddedToNode device) then
           err ←
             (if negb updated then
                match go_insert (Node_Disks nodeCpy) (Name device) diskSpec with
                | None => mpanic
                | Some disks =>
                    NodesUpdate (mkNode (Node_Name nodeCpy) disks (Node_DiskStatus nodeCpy))
                end
              else mret None);
           match err with
           | Some e => mret (device, Some e)
           | None =>
               if negb (IsTrue DiskAddedToNode device) then
                 let msg :=
                   "Added disk " +:+ Name device +:+ " to longhorn node `" +:+
                   Node_Name node +:+ "` as an additional disk" in
                 let device := set_ProvisionPhase ProvisionPhaseProvisioned device in
                 let device := SetError DiskAddedToNode device None in
                 let device := SetStatusBool DiskAddedToNode device true in
                 let device := Message DiskAddedToNode device msg in
                 mret (device, None)
               else mret (device, None)
           end
         else mret (device, None));
      match err with
      | Some e => mret (device, Some e)
      | None =>
          _ ← UpdateDiskTags (Name device) (Spec_Tags (Spec device));
          mret (device, None)
      end
  end.

(** The closure [updateProvisionPhaseUnprovisioned]. *)
Definition updateProvisionPhaseUnprovisioned (device : BlockDevice) : BlockDevice :=
  let msg := "Disk not in longhorn node `" +:+ NodeName c +:+ "`" in
  let device := set_ProvisionPhase ProvisionPhaseUnprovisioned device in
  let device := SetError DiskAddedToNode device None in
  let device := SetStatusBool DiskAddedToNode device false in
  Message DiskAddedToNode device msg.

(** The loop that looks for the removal tag. *)
Fixpoint hasDiskRemoveTag (tags : list string) : bool :=
  match tags with
  | [] => false
  | tag :: tags' =>
      if bool_decide (tag = ext_DiskRemoveTag ext) then true else hasDiskRemoveTag tags'
  end.

Definition unprovisionDeviceFromNode (device : BlockDevice) : M (BlockDevice * option error) :=
  r ← NodesGet (Namespace c) (NodeName c);
  match r with
  | inr err =>
      if IsNotFound (Some err) then mret (device, None)
      else mret (device, Some err)
  | inl node =>
      match go_lookup (Node_Disks node) (Name device) with
      | None => mret (updateProvisionPhaseUnprovisioned device, None)
      | Some diskToRemove =>
          let isUnprovisioning := hasDiskRemoveTag (elems (Disk_Tags diskToRemove)) in
          if isUnprovisioning then
            let found := go_lookup (Node_DiskStatus node) (Name device) in
            let status := default (mkDiskStatus None) found in
            if bool_decide (is_Some found) &&
               bool_decide (go_len (ScheduledReplica status) = 0%nat)
            then
              let nodeCpy :=
                mkNode (Node_Name node) (go_delete (Node_Disks node) (Name device))
                  (Node_DiskStatus node) in
              err ← NodesUpdate nodeCpy;
              match err with
              | Some e => mret (device, Some e)
              | None => mret (updateProvisionPhaseUnprovisioned device, None)
              end
            else
              delay ← jitterEnqueueDelay;
              _ ← EnqueueAfter (Namespace c) (Name device) delay;
              mret (device, None)
          else
            let diskToRemove :=
              mkDiskSpec (Disk_Path diskToRemove) false true
                (Disk_StorageReserved diskToRemove)
                (go_append (Disk_Tags diskToRemove) [ext_DiskRemoveTag ext]) in
            match go_insert (Node_Disks node) (Name device) diskToRemove with
            | None => mpanic
            | Some disks =>
                let nodeCpy := mkNode (Node_Name node) disks (Node_DiskStatus node) in
                err ← NodesUpdate nodeCpy;
                match err with
                | Some e => mret (device, Some e)
                | None =>
                    let msg :=
                      "Stop provisioning device " +:+ Name device +:+
                      " to longhorn node `" +:+ NodeName c +:+ "`" in
                    let device := set_ProvisionPhase ProvisionPhaseUnprovisioning device in
                    let device := SetError DiskAddedToNode device None in
                    let device := SetStatusBool DiskAddedToNode device false in
                    let device := Message DiskAddedToNode device msg in
                    mret (device, None)
                end
            end
      end
  end.

Definition ds_set_LastFormattedAt (t : option Time) (s : DeviceStatus) : DeviceStatus :=
  mkDeviceStatus (DS_Details s)
    (mkFilesystemStatus (FS_Type (DS_FileSystem s)) (FS_MountPoint (DS_FileSystem s))
       (FS_IsReadOnly (DS_FileSystem s)) (FS_Corrupted (DS_FileSystem s)) t)
    (DS_Partitioned s) (DS_DevPath s).

Definition ds_set_DevPath (p : string) (s : DeviceStatus) : DeviceStatus :=
  mkDeviceStatus (DS_Details s) (DS_FileSystem s) (DS_Partitioned s) p.

(** The [switch] of [updateDeviceStatus]: the freshly built status and
    whether the disk is to be auto-provisioned, or the error returned. *)
Definition buildNewStatus (device : BlockDevice) (devPath : string)
  : M ((DeviceStatus * bool) + error) :=
  match Details_DeviceType (dev_Details device) with
  | DeviceTypeDisk =>
      disk ← GetDiskByDevPath devPath;
      let bd := ext_GetDiskBlockDevice ext disk (NodeName c) (Namespace c) in
      let newStatus := Status_DeviceStatus (Status bd) in
      autoProvisioned ← ApplyAutoProvisionFiltersForDisk disk;
      needAutoProvision ← NeedsAutoProvision device autoProvisioned;
      mret (inl (newStatus, needAutoProvision))
  | DeviceTypePart =>
      '(parentDevPath, err) ← GetParentDevName devPath;
      match err with
      | Some e =>
          mret (inr (Errorf ("failed to get parent devPath for " +:+ Name device +:+ ": " +:+
                             err_Error e)))
      | None =>
          part ← GetPartitionByDevPath parentDevPath devPath;
          let bd := ext_GetPartitionBlockDevice ext part (NodeName c) (Namespace c) in
          mret (inl (Status_DeviceStatus (Status bd), false))
      end
  | DeviceTypeOther s => mret (inr (Errorf ("unknown device type " +:+ s)))
  end.

Definition updateDeviceStatus (device : BlockDevice) (devPath : string)
  : M (BlockDevice * option error) :=
  r ← buildNewStatus device devPath;
  match r with
  | inr err => mret (device, Some err)
  | inl (newStatus, needAutoProvision) =>
      let oldStatus := Status_DeviceStatus (Status device) in
      let lastFormatted := FS_LastFormattedAt (DS_FileSystem oldStatus) in
      let newStatus :=
        if bool_decide (lastFormatted ≠ None) &&
           bool_decide (FS_LastFormattedAt (DS_FileSystem newStatus) = None)
        then ds_set_LastFormattedAt lastFormatted newStatus
        else newStatus in
      let newStatus := ds_set_DevPath devPath newStatus in
      let device :=
        if negb (DeepEqual oldStatus newStatus) then set_DeviceStatus (fun _ => newStatus) device
        else device in
      let device := if (needAutoProvision : bool) then set_AutoProvision device else device in
      mret (device, None)
  end.

Definition resolvePersistentDevPath (device : BlockDevice) : M (string * option error) :=
  match Details_DeviceType (dev_Details device) with
  | DeviceTypeDisk =>
      let wwn := Details_WWN (dev_Details device) in
      if valueExists wwn then
        if bool_decide (Details_StorageController (dev_Details device) =
                        ext_StorageControllerNVMe ext)
        then EvalSymlinks ("/dev/disk/by-id/nvme-" +:+ wwn)
        else EvalSymlinks ("/dev/disk/by-id/wwn-" +:+ wwn)
      else
        let fsUUID := Details_UUID (dev_Details device) in
        byUUID ←
          (if valueExists fsUUID then
             '(path, err) ← EvalSymlinks ("/dev/disk/by-uuid/" +:+ fsUUID);
             match err with
             | None => mret (Some (path, None))
             | Some e =>
                 if negb (IsErrNotExist e) then mret (Some ("", Some e)) else mret None
             end
           else mret None);
        match byUUID with
        | Some res => mret res
        | None =>
            let ptUUID := Details_PtUUID (dev_Details device) in
            if valueExists ptUUID then
              '(path, err) ← GetDevPathByPTUUID ptUUID;
              match err with
              | Some e => mret ("", Some e)
              | None =>
                  if negb (bool_decide (path = "")) then mret (path, None)
                  else EvalSymlinks ("/dev/disk/by-uuid/" +:+ ptUUID)
              end
            else
              mret ("", Some (Errorf ("WWN/UUID/PTUUID was not found on device " +:+
                                      Name device)))
        end
  | DeviceTypePart =>
      let partUUID := Details_PartUUID (dev_Details device) in
      if bool_decide (partUUID = "") then
        mret ("", Some (Errorf ("PARTUUID was not found on device " +:+ Name device)))
      else EvalSymlinks ("/dev/disk/by-partuuid/" +:+ partUUID)
  | DeviceTypeOther _ => mret ("", None)
  end.

Definition errorCacheDiskTagsNotInitialized : string := "CacheDiskTags is not initialized".

(** The closure [DiskTagsOnNodeMissed] of the handler. *)
Definition DiskTagsOnNodeMissed (device deviceCpy : BlockDevice) : M bool :=
  r ← NodeCacheGet (Namespace c) (NodeName c);
  match r with
  | inr _ => mret true
  | inl node =>
      let nodeDiskTags :=
        match go_lookup (Node_Disks node) (Name device) with
        | Some nodeDisk => Disk_Tags nodeDisk
        | None => None
        end in
      mret (existsb (fun tag => negb (slices_Contains nodeDiskTags tag))
              (elems (Spec_Tags (Spec deviceCpy))))
  end.

(** The [switch] of the handler on [needProvision] and the phase. *)
Definition provisionStage (device deviceCpy : BlockDevice) : M BlockDevice :=
  let needProvision := SpecFS_Provisioned (dev_SpecFS deviceCpy) in
  if needProvision && bool_decide (dev_Phase device = ProvisionPhaseProvisioned) then
    cached ← GetDiskTags (Name device);
    let DiskTagsSynced := SliceContentCmp (Spec_Tags (Spec deviceCpy)) cached in
    drift ←
      (if negb DiskTagsSynced then mret true
       else missed ← DiskTagsOnNodeMissed device deviceCpy; mret (DiskTagsSynced && missed));
    if (drift : bool) then
      '(deviceCpy, err) ← provisionDeviceToNode deviceCpy;
      match err with
      | Some _ =>
          delay ← jitterEnqueueDelay;
          _ ← EnqueueAfter (Namespace c) (Name device) delay;
          mret deviceCpy
      | None => mret deviceCpy
      end
    else mret deviceCpy
  else if needProvision && bool_decide (dev_Phase device = ProvisionPhaseUnprovisioned) then
    '(deviceCpy, err) ← provisionDeviceToNode deviceCpy;
    match err with
    | Some e =>
        let err :=
          Errorf ("failed to provision device " +:+ Name device +:+ " to node " +:+
                  NodeName c +:+ ": " +:+ err_Error e) in
        let deviceCpy := SetError DiskAddedToNode deviceCpy (Some err) in
        let deviceCpy := SetStatusBool DiskAddedToNode deviceCpy false in
        delay ← jitterEnqueueDelay;
        _ ← EnqueueAfter (Namespace c) (Name device) delay;
        mret deviceCpy
    | None => mret deviceCpy
    end
  else if negb needProvision &&
          negb (bool_decide (dev_Phase device = ProvisionPhaseUnprovisioned)) then
    '(deviceCpy, err) ← unprovisionDeviceFromNode deviceCpy;
    match err with
    | Some e =>
        let err :=
          Errorf ("failed to stop provisioning device " +:+ Name device +:+ " to node " +:+
                  NodeName c +:+ ": " +:+ err_Error e) in
        let deviceCpy := SetError DiskAddedToNode deviceCpy (Some err) in
        let deviceCpy := SetStatusBool DiskAddedToNode deviceCpy false in
        delay ← jitterEnqueueDelay;
        _ ← EnqueueAfter (Namespace c) (Name device) delay;
        mret deviceCpy
    | None => mret deviceCpy
    end
  else mret deviceCpy.

Definition OnBlockDeviceChange (key : string) (device : option BlockDevice)
  : M (option BlockDevice * option error) :=
  match device with
  | None => mret (None, None)
  | Some device =>
      if bool_decide (DeletionTimestamp device ≠ None) ||
         negb (bool_decide (Spec_NodeName (Spec device) = NodeName c)) ||
         bool_decide (Status_State (Status device) = BlockDeviceInactive)
      then mret (None, None)
      else if FS_Corrupted (dev_FS device) &&
              negb (SpecFS_ForceFormatted (dev_SpecFS device)) &&
              negb (SpecFS_Repaired (dev_SpecFS device))
      then mret (None, None)
      else
        init ← Initialized;
        if negb init then
          mret (None, Some (mkError ErrOther errorCacheDiskTagsNotInitialized))
        else
          let deviceCpy := device in
          '(devPath, err) ← resolvePersistentDevPath device;
          match err with
          | Some e => mret (None, Some e)
          | None =>
              if bool_decide (devPath = "") then
                mret (None,
                      Some (Errorf ("failed to resolve persistent dev path for block device " +:+
                                    Name device)))
              else
                filesystem ← GetFileSystemInfoByDevPath devPath;
                match convertFSInfoToString filesystem with
                | None => mpanic
                | Some devPathStatus =>
                    let needFormat :=
                      SpecFS_ForceFormatted (dev_SpecFS deviceCpy) &&
                      (FS_Corrupted (dev_FS deviceCpy) ||
                       bool_decide (FS_LastFormattedAt (dev_FS deviceCpy) = None)) in
                    if needFormat then
                      '(deviceCpy, err) ← forceFormat deviceCpy devPath filesystem;
                      let deviceCpy :=
                        match err with
                        | Some e =>
                            let err :=
                              Errorf ("failed to force format device " +:+ Name device +:+
                                      ": " +:+ err_Error e) in
                            let deviceCpy := SetError DeviceFormatting deviceCpy (Some err) in
                            SetStatusBool DeviceFormatting deviceCpy false
                        | None => deviceCpy
                        end in
                      if negb (DeepEqual device deviceCpy) then BlockdevicesUpdate deviceCpy
                      else mret (Some device, err)
                    else
                      let needMountUpdate := needUpdateMountPoint deviceCpy filesystem in
                      if negb (Z.eqb needMountUpdate NeedMountUpdateNoOp) then
                        '(deviceCpy, err) ←
                          updateDeviceMount deviceCpy devPath filesystem needMountUpdate;
                        let deviceCpy :=
                          match err with
                          | Some e =>
                              let err :=
                                Errorf ("failed to update device mount " +:+ Name device +:+
                                        ": " +:+ err_Error e) in
                              let deviceCpy := SetError DeviceMounted deviceCpy (Some err) in
                              SetStatusBool DeviceMounted deviceCpy false
                          | None => deviceCpy
                          end in
                        if negb (DeepEqual device deviceCpy) then BlockdevicesUpdate deviceCpy
                        else mret (Some device, err)
                      else
                        deviceCpy ← provisionStage device deviceCpy;
                        if negb (DeepEqual device deviceCpy) then BlockdevicesUpdate deviceCpy
                        else
                          '(deviceCpy, err) ← updateDeviceStatus deviceCpy devPath;
                          match err with
                          | Some e => mret (None, Some e)
                          | None =>
                              if negb (DeepEqual device deviceCpy) then
                                BlockdevicesUpdate deviceCpy
                              else mret (None, None)
                          end
                end
          end
  end.

End Controller.

(** ** What a run writes *)

(** [emits k n m]: whatever the state, running [m] only appends to the
    trace, and appends at most [n] writes of kind [k]. *)
Definition emits {W A} (k : WriteKind) (n : nat) (m : M W A) : Prop :=
  forall st, exists evs,
    trace (m st).2 = (trace st ++ evs)%list /\ (count_writes k evs <= n)%nat.

(** [keeps_sem m]: running [m] leaves the semaphore as it found it. *)
Definition keeps_sem {W A} (m : M W A) : Prop :=
  forall st, sem (m st).2 = sem st.

(** ** A world of canned answers, for running the handler on examples *)

Record Canned := mkCanned {
  canned_fs : option FileSystemInfo;
  canned_path : string * option error;
  canned_umount : option error;
  canned_mount : option error;
  canned_mkfs : option error;
  canned_node : Node + error;
  canned_nodeUpdate : option error;
  canned_status : DeviceStatus;
  canned_auto : bool
}.

Definition canned_device (k : Canned) : BlockDevice :=
  mkBlockDevice ""
    None
    (mkBlockDeviceSpec (mkFilesystemInfo "" false false false) "" None)
    (mkBlockDeviceStatus ProvisionPhaseUnprovisioned BlockDeviceActive (canned_status k)
       (mkConditions (mkCondition CondUnset "" "") (mkCondition CondUnset "" "")
          (mkCondition CondUnset "" ""))).

Definition canned_ext (k : Canned) : Externals unit unit unit :=
  mkExternals unit unit unit
    (fun _ w => (canned_fs k, w))
    (fun _ w => (tt, w))
    (fun _ _ w => (tt, w))
    (fun _ w => (canned_path k, w))
    (fun _ w => (canned_path k, w))
    (fun _ w => (canned_path k, w))
    (fun _ w => (canned_umount k, w))
    (fun _ _ w => (canned_mount k, w))
    (fun _ _ w => (canned_mkfs k, w))
    (fun t => bool_decide (t = "ext4"))
    (fun _ _ w => (canned_node k, w))
    (fun _ _ w => (canned_node k, w))
    (fun _ w => (canned_nodeUpdate k, w))
    (fun bd w => ((Some bd, None), w))
    (fun _ _ _ w => (tt, w))
    (fun _ w => ((1, None), w))
    (fun w => (1700000000, w))
    (fun _ _ _ => canned_device k)
    (fun _ _ _ => canned_device k)
    (fun _ w => (canned_auto k, w))
    (fun _ b w => (b, w))
    "harvester-ndm-disk-remove"
    "NVMe".

Definition ctl : Controller := mkController "longhorn-system" "n1".

Definition state0 (cap : nat) (tags : gmap string (GoSlice string)) : ProcState unit :=
  mkProcState tt (mkSemaphore 0 cap) (mkDiskTags tags true) [].

Definition noConditions : Conditions :=
  mkConditions (mkCondition CondUnset "" "") (mkCondition CondUnset "" "")
    (mkCondition CondUnset "" "").

Definition details0 (wwn uuid ptuuid : string) : DeviceDetails :=
  mkDeviceDetails DeviceTypeDisk wwn uuid ptuuid "" "".

Definition status0 (d : DeviceDetails) (corrupted : bool) (formatted : option Time)
  : DeviceStatus :=
  mkDeviceStatus d (mkFilesystemStatus "" "" false corrupted formatted) false "/dev/sdb".

(** A device named [d1] on node [n1]. *)
Definition device0 (provisioned : bool) (tags : GoSlice string) (phase : ProvisionPhase)
    (ds : DeviceStatus) : BlockDevice :=
  mkBlockDevice "d1" None
    (mkBlockDeviceSpec (mkFilesystemInfo "" false false provisioned) "n1" tags)
    (mkBlockDeviceStatus phase BlockDeviceActive ds noConditions).

Definition canned0 : Canned :=
  mkCanned (Some (mkFileSystemInfo "ext4" false "")) ("/dev/sdb", None) None None None
    (inr (mkError ErrNotFound "node not found")) None
    (status0 (details0 "" "" "") false None) false.

Definition with_node (k : Canned) (n : Node + error) : Canned :=
  mkCanned (canned_fs k) (canned_path k) (canned_umount k) (canned_mount k) (canned_mkfs k)
    n (canned_nodeUpdate k) (canned_status k) (canned_auto k).

Definition with_fs (k : Canned) (fs : option FileSystemInfo) : Canned :=
  mkCanned fs (canned_path k) (canned_umount k) (canned_mount k) (canned_mkfs k)
    (canned_node k) (canned_nodeUpdate k) (canned_status k) (canned_auto k).

Definition with_mount (k : Canned) (e : option error) : Canned :=
  mkCanned (canned_fs k) (canned_path k) (canned_umount k) e (canned_mkfs k)
    (canned_node k) (canned_nodeUpdate k) (canned_status k) (canned_auto k).

(** ** Further parts of the file *)

(** [removeUnNeeded]: the items of [x] that [y] does not contain, collected
    in a fresh slice. *)
Fixpoint removeUnNeeded_loop {T} `{EqDecision T} (x y result : list T) : list T :=
  match x with
  | [] => result
  | item :: x' =>
      removeUnNeeded_loop x' y
        (if negb (bool_decide (item ∈ y)) then (result ++ [item])%list else result)
  end.

Definition removeUnNeeded {T} `{EqDecision T} (x y : GoSlice T) : GoSlice T :=
  Some (removeUnNeeded_loop (elems x) (elems y) []).

(** Kinds of call, to say what a run never does. *)
Definition is_mkfs (e : Event) : bool :=
  match e with
  | EvMakeExt4DiskFormatting _ _ => true
  | _ => false
  end.

Definition is_mount (e : Event) : bool :=
  match e with
  | EvMountDisk _ _ => true
  | _ => false
  end.

Definition is_node_call (e : Event) : bool :=
  match e with
  | EvNodeCacheGet _ _ | EvNodesGet _ _ | EvNodesUpdate _ => true
  | _ => false
  end.

(** A write-back of the very device the handler was given. *)
Definition is_update_of (device : BlockDevice) (e : Event) : bool :=
  match e with
  | EvBlockdevicesUpdate bd => bool_decide (bd = device)
  | _ => false
  end.

(** [quiet p m]: whatever the state, running [m] only appends to the trace,
    and appends no call that [p] selects. *)
Definition quiet {W A} (p : Event -> bool) (m : M W A) : Prop :=
  forall st, exists evs,
    trace (m st).2 = (trace st ++ evs)%list /\ Forall (fun e => p e = false) evs.

(** The precondition of the format stage in the handler. *)
Definition needFormat (device : BlockDevice) : bool :=
  SpecFS_ForceFormatted (dev_SpecFS device) &&
  (FS_Corrupted (dev_FS device) ||
   bool_decide (FS_LastFormattedAt (dev_FS device) = None)).

(** The first conditions of [OnBlockDeviceChange]: the device is not ours
    to reconcile. *)
Definition notOurs (c : Controller) (device : BlockDevice) : bool :=
  bool_decide (DeletionTimestamp device ≠ None) ||
  negb (bool_decide (Spec_NodeName (Spec device) = NodeName c)) ||
  bool_decide (Status_State (Status device) = BlockDeviceInactive).

(** ** The delete handler *)

Section DeleteHandler.

Context {W Disk Partition : Type}.
Variable ext : Externals W Disk Partition.
Variable c : Controller.

(** Collaborators of the delete handler alone: the cache listing of the
    block devices carrying the host and parent labels, and the deletion of a
    block device. They act on the world; the trace keeps to the kinds of
    call declared above. *)
Variable ext_BlockdeviceCacheList :
  string -> string -> string -> W -> (list BlockDevice + error) * W.
Variable ext_BlockdevicesDelete : string -> string -> W -> option error * W.

(** The pointer the node client hands back together with a not-found
    error: nil, or an object to go on with. *)
Variable notFoundNode : option Node.

Definition lift {A} (f : W -> A * W) : M W A :=
  fun st =>
    let (a, w) := f (world st) in
    (Ret a, mkProcState w (sem st) (CacheDiskTags st) (trace st)).

(** The loop that deletes the dangling partitions. *)
Fixpoint deleteChildren (bds : list BlockDevice) : M W (option error) :=
  match bds with
  | [] => mret None
  | bd :: bds' =>
      err ← lift (ext_BlockdevicesDelete (Namespace c) (Name bd));
      match err with
      | Some e => mret (Some e)
      | None => deleteChildren bds'
      end
  end.

(** The loop that takes the partitions out of the disks of the node; an
    error of the unmount is logged and dropped. *)
Fixpoint detachChildren (bds : list BlockDevice) (disks : GoMap DiskSpec)
  : M W (GoMap DiskSpec) :=
  match bds with
  | [] => mret disks
  | bd :: bds' =>
      match go_lookup disks (Name bd) with
      | None => detachChildren bds' disks
      | Some _ =>
          let existingMount := FS_MountPoint (dev_FS bd) in
          _ ← (if negb (bool_decide (existingMount = "")) then UmountDisk ext existingMount
               else mret None);
          detachChildren bds' (go_delete disks (Name bd))
      end
  end.

Definition OnBlockDeviceDelete (key : string) (device : option BlockDevice)
  : M W (option BlockDevice * option error) :=
  init ← Initialized;
  if negb init then mret (None, Some (mkError ErrOther errorCacheDiskTagsNotInitialized))
  else
    match device with
    | None => mret (None, None)
    | Some device =>
        r ← lift (ext_BlockdeviceCacheList (Namespace c) (NodeName c) (Name device));
        match r with
        | inr err => mret (Some device, Some err)
        | inl bds =>
            if bool_decide (length bds = 0%nat) then mret (None, None)
            else
              err ← deleteChildren bds;
              match err with
              | Some e => mret (Some device, Some e)
              | None =>
                  r ← NodesGet ext (Namespace c) (NodeName c);
                  match r with
                  | inr err =>
                      if negb (IsNotFound (Some err)) then mret (Some device, Some err)
                      else
                        match notFoundNode with
                        | None => mret (None, None)
                        | Some node =>
                            disks ← detachChildren bds (Node_Disks node);
                            err ← NodesUpdate ext
                                    (mkNode (Node_Name node) disks (Node_DiskStatus node));
                            match err with
                            | Some e => mret (Some device, Some e)
                            | None => _ ← DeleteDiskTags (Name device); mret (None, None)
                            end
                        end
                  | inl node =>
                      disks ← detachChildren bds (Node_Disks node);
                      err ← NodesUpdate ext
                              (mkNode (Node_Name node) disks (Node_DiskStatus node));
                      match err with
                      | Some e => mret (Some device, Some e)
                      | None => _ ← DeleteDiskTags (Name device); mret (None, None)
                      end
                  end
              end
        end
    end.

End DeleteHandler.

(** ** Predicates on runs, for the further properties *)

(** [cache_only_at name m]: running [m] leaves the initialized bit of the
    tag cache and the entry of every device other than [name] as they were. *)
Definition cache_only_at {W A} (name : string) (m : M W A) : Prop :=
  forall st,
    initialized (CacheDiskTags (m st).2) = initialized (CacheDiskTags st) /\
    forall other, other <> name ->
      diskTags (CacheDiskTags (m st).2) !! other = diskTags (CacheDiskTags st) !! other.

(** [returns m Q]: whatever the state, [m] returns (it does not panic) and
    what it returns satisfies [Q]. *)
Definition returns {W A} (m : M W A) (Q : A -> Prop) : Prop :=
  forall st, exists a st', m st = (Ret a, st') /\ Q a.


(** ** The mount planner *)

Lemma expectedMountPoint_extraDiskMountPoint bd :
  extraDiskMountPoint bd = expectedMountPoint bd.
Proof.
  unfold extraDiskMountPoint, expectedMountPoint.
  destruct (SpecFS_MountPoint (dev_SpecFS bd)); reflexivity.
Qed.

(** The plan the specification describes is unique. *)
Lemma PlanSpec_functional bd fs p q :
  PlanSpec bd fs p -> PlanSpec bd fs q -> p = q.
Proof.
  intros Hp Hq.
  destruct Hp; inversion Hq; subst; congruence.
Qed.

Lemma plan_flags_inj p q : plan_flags p = plan_flags q -> p = q.
Proof. destruct p, q; simpl; intros H; congruence. Qed.

(** C5: [needUpdateMountPoint] is a function of the device and the observed
    filesystem alone, and what it returns is the plan of the specification:
    NoOp without an observation; for a provisioned device Mount when nothing
    is mounted, NoOp when the mount point is the expected one, Unmount|Mount
    otherwise; for an unprovisioned device Unmount when something is mounted
    and NoOp otherwise. The expected mount point is the deprecated
    [Spec.FileSystem.MountPoint] when set, else the path under
    [/var/lib/harvester/extra-disks]. *)
Theorem needUpdateMountPoint_meets_plan (bd : BlockDevice) (fsObserved : option FileSystemInfo) :
  extraDiskMountPoint bd = expectedMountPoint bd /\
  exists p : MountPlan,
    PlanSpec bd fsObserved p /\
    needUpdateMountPoint bd fsObserved = plan_flags p /\
    (forall q, needUpdateMountPoint bd fsObserved = plan_flags q <-> PlanSpec bd fsObserved q).
Proof.
  split; [apply expectedMountPoint_extraDiskMountPoint|].
  assert (Hex : exists p, PlanSpec bd fsObserved p /\
                          needUpdateMountPoint bd fsObserved = plan_flags p).
  { unfold needUpdateMountPoint.
    rewrite expectedMountPoint_extraDiskMountPoint.
    destruct fsObserved as [fs|]; [|exists PlanNoOp; split; [constructor|reflexivity]].
    destruct (SpecFS_Provisioned (dev_SpecFS bd)) eqn:Hprov.
    - destruct (decide (fsi_MountPoint fs = "")) as [He|Hne].
      + rewrite bool_decide_eq_true_2 by exact He.
        exists PlanMount. split; [by apply plan_mount|reflexivity].
      + rewrite bool_decide_eq_false_2 by exact Hne.
        destruct (decide (fsi_MountPoint fs = expectedMountPoint bd)) as [Hm|Hm].
        * rewrite bool_decide_eq_true_2 by exact Hm.
          exists PlanNoOp. split; [by apply plan_mounted|reflexivity].
        * rewrite bool_decide_eq_false_2 by exact Hm.
          exists PlanUnmountMount. split; [by apply plan_remount|reflexivity].
    - destruct (decide (fsi_MountPoint fs = "")) as [He|Hne].
      + rewrite bool_decide_eq_true_2 by exact He.
        exists PlanNoOp. split; [by apply plan_idle|reflexivity].
      + rewrite bool_decide_eq_false_2 by exact Hne.
        exists PlanUnmount. split; [by apply plan_unmount|reflexivity]. }
  destruct Hex as (p & Hp & Heq).
  exists p. split; [exact Hp|]. split; [exact Heq|].
  intros q. split.
  - intros Hq. rewrite Heq in Hq. apply plan_flags_inj in Hq. by subst.
  - intros Hq. by rewrite (PlanSpec_functional _ _ _ _ Hq Hp).
Qed.

(** The flags of a plan are what [Has] reads back. *)
Lemma plan_flags_Has p :
  Has (plan_flags p) NeedMountUpdateMount =
    match p with PlanMount | PlanUnmountMount => true | _ => false end /\
  Has (plan_flags p) NeedMountUpdateUnmount =
    match p with PlanUnmount | PlanUnmountMount => true | _ => false end.
Proof. destruct p; split; reflexivity. Qed.

(** ** Counting writes *)

Section Emits.

Context {W : Type}.

Lemma count_writes_app k (e1 e2 : list Event) :
  count_writes k (e1 ++ e2) = (count_writes k e1 + count_writes k e2)%nat.
Proof. unfold count_writes. by rewrite filter_app, length_app. Qed.

Lemma emits_ret {A} k n (a : A) : emits (W := W) k n (mret a).
Proof.
  intros st. exists []. split; [by rewrite app_nil_r|].
  unfold count_writes. simpl. lia.
Qed.

Lemma emits_panic {A} k n : emits (W := W) (A := A) k n mpanic.
Proof.
  intros st. exists []. split; [by rewrite app_nil_r|].
  unfold count_writes. simpl. lia.
Qed.

Lemma emits_mono {A} k n n' (m : M W A) :
  (n <= n')%nat -> emits k n m -> emits k n' m.
Proof.
  intros Hle Hm st. destruct (Hm st) as (evs & Htr & Hc).
  exists evs. split; [exact Htr|lia].
Qed.

Lemma emits_bind {A B} k n1 n2 (m : M W A) (f : A -> M W B) :
  emits k n1 m -> (forall a, emits k n2 (f a)) -> emits k (n1 + n2) (m ≫= f).
Proof.
  intros Hm Hf st. unfold mbind, M_bind.
  destruct (Hm st) as (e1 & Htr1 & Hc1).
  destruct (m st) as [[a|] st1]; simpl in *.
  - destruct (Hf a st1) as (e2 & Htr2 & Hc2).
    exists (e1 ++ e2)%list. split.
    + by rewrite Htr2, Htr1, app_assoc.
    + rewrite count_writes_app. lia.
  - exists e1. split; [exact Htr1|lia].
Qed.

Lemma emits_bind_l {A B} k n (m : M W A) (f : A -> M W B) :
  emits k 0 m -> (forall a, emits k n (f a)) -> emits k n (m ≫= f).
Proof. intros Hm Hf. apply (emits_bind k 0 n); assumption. Qed.

Lemma emits_bind_r {A B} k n (m : M W A) (f : A -> M W B) :
  emits k n m -> (forall a, emits k 0 (f a)) -> emits k n (m ≫= f).
Proof.
  intros Hm Hf. replace n with (n + 0)%nat by lia.
  apply emits_bind; assumption.
Qed.

Lemma emits_call {A} k ev (f : W -> A * W) : emits k 1 (call ev f).
Proof.
  intros st. unfold call. destruct (f (world st)) as [a w]. simpl.
  exists [ev]. split; [reflexivity|].
  unfold count_writes. rewrite filter_cons, filter_nil.
  case_decide; simpl; lia.
Qed.

Lemma emits_call_other {A} k n ev (f : W -> A * W) :
  is_write k ev = false -> emits k n (call ev f).
Proof.
  intros Hev st. unfold call. destruct (f (world st)) as [a w]. simpl.
  exists [ev]. split; [reflexivity|].
  unfold count_writes. rewrite filter_cons, filter_nil.
  case_decide; simpl; [congruence|lia].
Qed.

Lemma emits_defer {A B} k n (cleanup : M W B) (body : M W A) :
  emits k 0 cleanup -> emits k n body -> emits k n (defer cleanup body).
Proof.
  intros Hc Hb st. unfold defer.
  destruct (Hb st) as (e1 & Htr1 & Hc1).
  destruct (body st) as [o st1]. simpl in *.
  destruct (Hc st1) as (e2 & Htr2 & Hc2).
  destruct (cleanup st1) as [o2 st2]. simpl in *.
  exists (e1 ++ e2)%list. split.
  - by rewrite Htr2, Htr1, app_assoc.
  - rewrite count_writes_app. lia.
Qed.

Lemma emits_acquire k n : emits (W := W) k n acquire.
Proof.
  intros st. unfold acquire. exists [].
  destruct (_ <? _)%nat; simpl; (split; [by rewrite app_nil_r|unfold count_writes; simpl; lia]).
Qed.

Lemma emits_release k n : emits (W := W) k n release.
Proof.
  intros st. unfold release. exists [].
  destruct (ch_len (sem st)); simpl;
    (split; [by rewrite app_nil_r|unfold count_writes; simpl; lia]).
Qed.

Lemma emits_UpdateDiskTags k n dev tags : emits (W := W) k n (UpdateDiskTags dev tags).
Proof.
  intros st. exists []. simpl.
  split; [by rewrite app_nil_r|unfold count_writes; simpl; lia].
Qed.

Lemma emits_Initialized k n : emits (W := W) k n Initialized.
Proof.
  intros st. exists []. simpl.
  split; [by rewrite app_nil_r|unfold count_writes; simpl; lia].
Qed.

Lemma emits_GetDiskTags k n dev : emits (W := W) k n (GetDiskTags dev).
Proof.
  intros st. exists []. simpl.
  split; [by rewrite app_nil_r|unfold count_writes; simpl; lia].
Qed.

Lemma emits_DevExist k n dev : emits (W := W) k n (DevExist dev).
Proof.
  intros st. exists []. simpl.
  split; [by rewrite app_nil_r|unfold count_writes; simpl; lia].
Qed.

End Emits.

Create HintDb emits.

#[global] Hint Resolve emits_ret emits_panic emits_acquire emits_release
  emits_UpdateDiskTags emits_Initialized emits_GetDiskTags emits_DevExist : emits.

(** Code that makes no write of kind [k]: follow its shape. *)
Ltac emits_none :=
  cbv beta zeta;
  lazymatch goal with
  | |- emits _ _ (mret _) => apply emits_ret
  | |- emits _ _ mpanic => apply emits_panic
  | |- emits _ _ (call _ _) => apply emits_call_other; reflexivity
  | |- emits _ _ (defer _ _) => apply emits_defer; emits_none
  | |- emits _ _ (mbind _ _) => apply emits_bind_l; [emits_none | intros ?; emits_none]
  | |- emits _ _ (match ?x with _ => _ end) => destruct x; emits_none
  | |- emits _ _ (let (_, _) := ?x in _) => destruct x; emits_none
  | |- _ => solve [auto with emits]
  end.

Section StageWrites.

Context {W Disk Partition : Type}.
Variable ext : Externals W Disk Partition.
Variable c : Controller.

Lemma emits_jitterEnqueueDelay k n : emits k n (jitterEnqueueDelay ext).
Proof. unfold jitterEnqueueDelay, GenRandNumber. destruct k; emits_none. Qed.

Lemma emits_updateDeviceFileSystem k n device devPath :
  emits k n (updateDeviceFileSystem ext device devPath).
Proof.
  unfold updateDeviceFileSystem, GetFileSystemInfoByDevPath. destruct k; emits_none.
Qed.

Hint Resolve emits_jitterEnqueueDelay emits_updateDeviceFileSystem : emits.

Lemma emits_forceFormat k n device devPath filesystem :
  emits k n (forceFormat ext c device devPath filesystem).
Proof.
  unfold forceFormat, EnqueueAfter, UmountDisk, MakeExt4DiskFormatting, Now.
  destruct k; emits_none.
Qed.

Lemma emits_updateDeviceMount k n device devPath filesystem op :
  emits k n (updateDeviceMount ext device devPath filesystem op).
Proof.
  unfold updateDeviceMount, UmountDisk, MountDisk. destruct k; emits_none.
Qed.

Lemma emits_updateDeviceStatus k n device devPath :
  emits k n (updateDeviceStatus ext c device devPath).
Proof.
  unfold updateDeviceStatus, buildNewStatus, GetDiskByDevPath, GetPartitionByDevPath,
    GetParentDevName, ApplyAutoProvisionFiltersForDisk, NeedsAutoProvision.
  destruct k; emits_none.
Qed.

Lemma emits_resolvePersistentDevPath k n device :
  emits k n (resolvePersistentDevPath ext device).
Proof.
  unfold resolvePersistentDevPath, EvalSymlinks, GetDevPathByPTUUID.
  destruct k; emits_none.
Qed.

Lemma emits_respectTags k n name tags acc :
  emits (W := W) k n (respectTags name tags acc).
Proof.
  revert acc. induction tags as [|tag tags IH]; intros acc; simpl.
  - apply emits_ret.
  - apply emits_bind_l; [apply emits_GetDiskTags|]. intros cached. apply IH.
Qed.

Hint Resolve emits_respectTags : emits.

Lemma emits_provisionLoadNode k n : emits k n (provisionLoadNode ext c).
Proof.
  unfold provisionLoadNode, NodeCacheGet, NodesGet. destruct k; emits_none.
Qed.

Lemma emits_provisionDiskSpec k n node device :
  emits (W := W) k n (provisionDiskSpec node device).
Proof. unfold provisionDiskSpec. emits_none. Qed.

Lemma emits_DiskTagsOnNodeMissed k n device deviceCpy :
  emits k n (DiskTagsOnNodeMissed ext c device deviceCpy).
Proof. unfold DiskTagsOnNodeMissed, NodeCacheGet. destruct k; emits_none. Qed.

Hint Resolve emits_provisionLoadNode emits_provisionDiskSpec emits_DiskTagsOnNodeMissed
  emits_forceFormat emits_updateDeviceMount emits_updateDeviceStatus
  emits_resolvePersistentDevPath : emits.

End StageWrites.

#[global] Hint Resolve emits_jitterEnqueueDelay emits_updateDeviceFileSystem
  emits_respectTags emits_provisionLoadNode emits_provisionDiskSpec
  emits_DiskTagsOnNodeMissed emits_forceFormat emits_updateDeviceMount
  emits_updateDeviceStatus emits_resolvePersistentDevPath : emits.

(** Code that makes at most one write of kind [k]: the write is on one side
    of each sequencing. *)
Ltac emits_one :=
  cbv beta zeta;
  first
    [ solve [emits_none]
    | solve [auto with emits]
    | lazymatch goal with
      | |- emits _ _ (call _ _) => apply emits_call
      | |- emits _ _ (mbind _ _) =>
          first
            [ apply emits_bind_l; [solve [emits_none] | intros ?; emits_one]
            | apply emits_bind_r; [emits_one | intros ?; solve [emits_none]] ]
      | |- emits _ _ (match ?x with _ => _ end) => destruct x; emits_one
      | |- emits _ _ (let (_, _) := ?x in _) => destruct x; emits_one
      end ].

Section HandlerWrites.

Context {W Disk Partition : Type}.
Variable ext : Externals W Disk Partition.
Variable c : Controller.

Lemma provisionDeviceToNode_no_device_write n device :
  emits DeviceWrite n (provisionDeviceToNode ext c device).
Proof. unfold provisionDeviceToNode, NodesUpdate. emits_none. Qed.

Lemma provisionDeviceToNode_one_node_write device :
  emits NodeWrite 1 (provisionDeviceToNode ext c device).
Proof. unfold provisionDeviceToNode, NodesUpdate. emits_one. Qed.

Lemma unprovisionDeviceFromNode_no_device_write n device :
  emits DeviceWrite n (unprovisionDeviceFromNode ext c device).
Proof.
  unfold unprovisionDeviceFromNode, NodesGet, NodesUpdate, EnqueueAfter. emits_none.
Qed.

Lemma unprovisionDeviceFromNode_one_node_write device :
  emits NodeWrite 1 (unprovisionDeviceFromNode ext c device).
Proof.
  unfold unprovisionDeviceFromNode, NodesGet, NodesUpdate, EnqueueAfter. emits_one.
Qed.

Hint Resolve provisionDeviceToNode_no_device_write provisionDeviceToNode_one_node_write
  unprovisionDeviceFromNode_no_device_write unprovisionDeviceFromNode_one_node_write : emits.

Lemma provisionStage_no_device_write n device deviceCpy :
  emits DeviceWrite n (provisionStage ext c device deviceCpy).
Proof. unfold provisionStage, EnqueueAfter. emits_none. Qed.

Lemma provisionStage_one_node_write device deviceCpy :
  emits NodeWrite 1 (provisionStage ext c device deviceCpy).
Proof. unfold provisionStage, EnqueueAfter. emits_one. Qed.

Hint Resolve provisionStage_no_device_write provisionStage_one_node_write : emits.

Lemma OnBlockDeviceChange_one_node_write key device :
  emits NodeWrite 1 (OnBlockDeviceChange ext c key device).
Proof. unfold OnBlockDeviceChange, GetFileSystemInfoByDevPath, BlockdevicesUpdate. emits_one. Qed.

Lemma OnBlockDeviceChange_one_device_write key device :
  emits DeviceWrite 1 (OnBlockDeviceChange ext c key device).
Proof. unfold OnBlockDeviceChange, GetFileSystemInfoByDevPath, BlockdevicesUpdate. emits_one. Qed.

End HandlerWrites.

(** C7: one invocation of [OnBlockDeviceChange] appends to the trace at most
    one [Nodes.Update] and at most one [Blockdevices.Update], whichever stage
    runs and whatever the collaborators answer. *)
Theorem OnBlockDeviceChange_at_most_one_write
    {W Disk Partition : Type} (ext : Externals W Disk Partition) (c : Controller)
    (key : string) (device : option BlockDevice) (st : ProcState W) :
  exists evs : list Event,
    trace (OnBlockDeviceChange ext c key device st).2 = (trace st ++ evs)%list /\
    (count_writes NodeWrite evs <= 1)%nat /\
    (count_writes DeviceWrite evs <= 1)%nat.
Proof.
  destruct (OnBlockDeviceChange_one_node_write ext c key device st) as (e1 & Ht1 & Hn).
  destruct (OnBlockDeviceChange_one_device_write ext c key device st) as (e2 & Ht2 & Hd).
  assert (e1 = e2) by (apply (app_inv_head (trace st)); congruence).
  subst e2. exists e1. auto.
Qed.

(** Both bounds are reached: provisioning a fresh device writes the node
    once and the device once. *)
Example OnBlockDeviceChange_writes_both :
  let node := mkNode "n1" (Some ∅) (Some ∅) in
  let k := with_fs (with_node canned0 (inl node))
             (Some (mkFileSystemInfo "ext4" false "/var/lib/harvester/extra-disks/d1")) in
  let d := device0 true None ProvisionPhaseUnprovisioned
             (status0 (details0 "0x5000" "" "") false (Some 5)) in
  let tr := trace (OnBlockDeviceChange (canned_ext k) ctl "d1" (Some d) (state0 1 ∅)).2 in
  count_writes NodeWrite tr = 1%nat /\ count_writes DeviceWrite tr = 1%nat.
Proof. vm_compute. split; reflexivity. Qed.

(** ** Unprovision *)

Section Unprovision.

Context {W Disk Partition : Type}.
Variable ext : Externals W Disk Partition.
Variable c : Controller.

Lemma hasDiskRemoveTag_elem tags :
  hasDiskRemoveTag ext tags = true <-> ext_DiskRemoveTag ext ∈ tags.
Proof.
  induction tags as [|tag tags IH]; simpl.
  - split; [discriminate|]. intros H. by apply not_elem_of_nil in H.
  - case_bool_decide as Htag.
    + split; [|done]. intros _. subst. apply list_elem_of_here.
    + rewrite IH. split.
      * intros H. by apply list_elem_of_further.
      * intros H. apply elem_of_cons in H as [H|H]; [congruence|exact H].
Qed.

End Unprovision.

(** C1, as the code has it: when loading the node answers not-found,
    [unprovisionDeviceFromNode] returns no error and leaves the device as it
    was, phase and conditions included; nothing but the load is called. *)
Theorem unprovision_node_not_found_skips
    {W Disk Partition : Type} (ext : Externals W Disk Partition) (c : Controller)
    (device : BlockDevice) (st : ProcState W) (err : error) (w : W) :
  ext_NodesGet ext (Namespace c) (NodeName c) (world st) = (inr err, w) ->
  IsNotFound (Some err) = true ->
  unprovisionDeviceFromNode ext c device st =
    (Ret (device, None),
     mkProcState w (sem st) (CacheDiskTags st)
       (trace st ++ [EvNodesGet (Namespace c) (NodeName c)])%list).
Proof.
  intros Hget Hnf.
  unfold unprovisionDeviceFromNode, NodesGet, call, mbind, M_bind.
  rewrite Hget, Hnf. reflexivity.
Qed.

Lemma unprovision_node_not_found_skips_witness :
  let k := canned0 in
  let d := device0 false None ProvisionPhaseProvisioned
             (status0 (details0 "0x5000" "" "") false (Some 5)) in
  unprovisionDeviceFromNode (canned_ext k) ctl d (state0 1 ∅) =
    (Ret (d, None),
     mkProcState tt (mkSemaphore 0 1) (mkDiskTags ∅ true)
       [EvNodesGet "longhorn-system" "n1"]).
Proof.
  intros k d.
  apply (unprovision_node_not_found_skips (canned_ext k) ctl d (state0 1 ∅)
           (mkError ErrNotFound "node not found") tt); reflexivity.
Defined.

(** C1 as stated fails: the node is not found, yet the phase stays
    [Provisioned] and the [DiskAddedToNode] condition is not set to false. *)
Lemma unprovision_node_not_found_phase_kept :
  let k := canned0 in
  let d := device0 false None ProvisionPhaseProvisioned
             (status0 (details0 "0x5000" "" "") false (Some 5)) in
  ext_NodesGet (canned_ext k) (Namespace ctl) (NodeName ctl) tt =
    (inr (mkError ErrNotFound "node not found"), tt) /\
  IsNotFound (Some (mkError ErrNotFound "node not found")) = true /\
  exists d' st',
    unprovisionDeviceFromNode (canned_ext k) ctl d (state0 1 ∅) = (Ret (d', None), st') /\
    dev_Phase d' = ProvisionPhaseProvisioned /\
    dev_Phase d' <> ProvisionPhaseUnprovisioned /\
    cond_Status (dev_cond DiskAddedToNode d') <> CondFalse.
Proof.
  intros k d. split; [reflexivity|]. split; [reflexivity|].
  eexists _, _. split; [vm_compute; reflexivity|].
  vm_compute. repeat split; discriminate.
Qed.




(** ** Code that leaves the semaphore alone *)

Section KeepsSem.

Context {W : Type}.

Lemma keeps_sem_ret {A} (a : A) : keeps_sem (W := W) (mret a).
Proof. by intros st. Qed.

Lemma keeps_sem_panic {A} : keeps_sem (W := W) (A := A) mpanic.
Proof. by intros st. Qed.

Lemma keeps_sem_call {A} ev (f : W -> A * W) : keeps_sem (call ev f).
Proof. intros st. unfold call. by destruct (f (world st)). Qed.

Lemma keeps_sem_bind {A B} (m : M W A) (f : A -> M W B) :
  keeps_sem m -> (forall a, keeps_sem (f a)) -> keeps_sem (m ≫= f).
Proof.
  intros Hm Hf st. unfold mbind, M_bind.
  specialize (Hm st). destruct (m st) as [[a|] st1]; simpl in *.
  - by rewrite Hf.
  - exact Hm.
Qed.

End KeepsSem.

Ltac keeps_sem_tac :=
  cbv beta zeta;
  lazymatch goal with
  | |- keeps_sem (mret _) => apply keeps_sem_ret
  | |- keeps_sem mpanic => apply keeps_sem_panic
  | |- keeps_sem (call _ _) => apply keeps_sem_call
  | |- keeps_sem (mbind _ _) => apply keeps_sem_bind; [keeps_sem_tac | intros ?; keeps_sem_tac]
  | |- keeps_sem (match ?x with _ => _ end) => destruct x; keeps_sem_tac
  | |- keeps_sem (let (_, _) := ?x in _) => destruct x; keeps_sem_tac
  end.

(** ** Force format *)

(** Split a run on the answers of the collaborators it consults. *)
Ltac run_cases :=
  repeat (simplify_eq/=;
    match goal with
    | |- context [let (_, _) := ?x in _] => destruct x eqn:?
    | |- context [match ?x with _ => _ end] => destruct x eqn:?
    | H : context [let (_, _) := ?x in _] |- _ => destruct x eqn:?
    | H : context [match ?x with _ => _ end] |- _ => destruct x eqn:?
    end).

Section ForceFormat.

Context {W Disk Partition : Type}.
Variable ext : Externals W Disk Partition.
Variable c : Controller.

Lemma reuseUUID_first_present device :
  valueExists (Details_WWN (dev_Details device)) = false ->
  reuseUUID device =
    if valueExists (Details_UUID (dev_Details device)) then Details_UUID (dev_Details device)
    else if valueExists (Details_PtUUID (dev_Details device)) then
           Details_PtUUID (dev_Details device)
    else "".
Proof.
  intros Hwwn. unfold reuseUUID. rewrite Hwwn. simpl.
  destruct (valueExists (Details_UUID (dev_Details device))) eqn:Hu; simpl.
  - by rewrite Hu.
  - destruct (valueExists (Details_PtUUID (dev_Details device))); reflexivity.
Qed.

Lemma updateDeviceFileSystem_UUID device devPath st :
  forall d' err st',
    updateDeviceFileSystem ext device devPath st = (Ret (d', err), st') ->
    Details_UUID (dev_Details d') = Details_UUID (dev_Details device).
Proof.
  intros d' err st'. unfold updateDeviceFileSystem, GetFileSystemInfoByDevPath, call,
    mbind, M_bind, mret, M_ret.
  intros H. run_cases; inversion H; subst; reflexivity.
Qed.

End ForceFormat.

(** C3, as the code has it: on a device that lacks a WWN, a format that
    succeeds passes to mkfs the first present of the old [Details.UUID] and
    [Details.PtUUID], or the empty string when neither is present; when the
    UUID passed is not empty, [Details.UUID] equals it afterwards, and when
    it is empty [Details.UUID] is left as it was. *)
Theorem forceFormat_reuses_uuid
    {W Disk Partition : Type} (ext : Externals W Disk Partition) (c : Controller)
    (device : BlockDevice) (devPath : string) (filesystem : option FileSystemInfo)
    (st st' : ProcState W) (d' : BlockDevice) :
  valueExists (Details_WWN (dev_Details device)) = false ->
  (ch_len (sem st) < ch_cap (sem st))%nat ->
  forceFormat ext c device devPath filesystem st = (Ret (d', None), st') ->
  let uuid :=
    if valueExists (Details_UUID (dev_Details device)) then Details_UUID (dev_Details device)
    else if valueExists (Details_PtUUID (dev_Details device)) then
           Details_PtUUID (dev_Details device)
    else "" in
  (exists evs,
      trace st' = (trace st ++ evs)%list /\
      EvMakeExt4DiskFormatting devPath uuid ∈ evs /\
      forall dp u, EvMakeExt4DiskFormatting dp u ∈ evs -> dp = devPath /\ u = uuid) /\
  Details_UUID (dev_Details d') =
    (if bool_decide (uuid = "") then Details_UUID (dev_Details device) else uuid).
Proof.
  intros Hwwn Hcap Hrun uuid.
  assert (Huuid : reuseUUID device = uuid) by (by apply reuseUUID_first_present).
  apply Nat.ltb_lt in Hcap.
  revert Hrun.
  unfold forceFormat, updateDeviceFileSystem, acquire, release, defer, UmountDisk,
    MakeExt4DiskFormatting, GetFileSystemInfoByDevPath, Now, call, mbind, M_bind, mret, M_ret.
  rewrite Hcap, Huuid. simpl.
  intros Hrun.
  run_cases; simplify_eq/=.
  all: split;
    [ eexists; split; [rewrite <- ?app_assoc; reflexivity|]; split;
      [ set_solver
      | intros dp u Hin; repeat (apply elem_of_cons in Hin as [Hin|Hin]; [by inversion Hin|]);
        by apply not_elem_of_nil in Hin ]
    | ].
  all: reflexivity.
Qed.

Lemma forceFormat_reuses_uuid_witness :
  let d := device0 true None ProvisionPhaseUnprovisioned
             (status0 (details0 "" "" "pt-1") false None) in
  let res := forceFormat (canned_ext canned0) ctl d "/dev/sdb" (canned_fs canned0)
               (state0 1 ∅) in
  exists d' st',
    res = (Ret (d', None), st') /\
    Details_UUID (dev_Details d') = "pt-1" /\
    EvMakeExt4DiskFormatting "/dev/sdb" "pt-1" ∈ trace st'.
Proof.
  intros d res.
  let r := eval vm_compute in res in
  lazymatch r with
  | (Ret (?D, None), ?S) =>
      assert (Hrun : res = (Ret (D, None), S)) by (vm_compute; reflexivity);
      destruct (forceFormat_reuses_uuid (canned_ext canned0) ctl d "/dev/sdb"
                  (canned_fs canned0) (state0 1 ∅) S D eq_refl ltac:(simpl; lia) Hrun)
        as [(evs & Htr & Hin & _) Hu];
      exists D, S
  end.
  split; [exact Hrun|]. split; [exact Hu|].
  rewrite Htr. apply elem_of_app. right. exact Hin.
Defined.

(** C3 as stated fails: a partition whose WWN, filesystem UUID and PT-UUID
    are all absent, the UUID being the literal [unknown]. The format
    succeeds and mkfs is passed the empty string, yet [Details.UUID] is
    still [unknown] afterwards. *)
Lemma forceFormat_unknown_uuid_kept :
  let d := device0 true None ProvisionPhaseUnprovisioned
             (status0 (mkDeviceDetails DeviceTypePart "" "unknown" "" "p-1" "") false None) in
  let res := forceFormat (canned_ext canned0) ctl d "/dev/sdb1" (canned_fs canned0)
               (state0 1 ∅) in
  valueExists (Details_WWN (dev_Details d)) = false /\
  valueExists (Details_UUID (dev_Details d)) = false /\
  valueExists (Details_PtUUID (dev_Details d)) = false /\
  exists d' st',
    res = (Ret (d', None), st') /\
    trace st' =
      [EvMakeExt4DiskFormatting "/dev/sdb1" ""; EvGetFileSystemInfoByDevPath "/dev/sdb1";
       EvNow] /\
    Details_UUID (dev_Details d') = "unknown" /\
    Details_UUID (dev_Details d') <> "".
Proof.
  intros d res. repeat (split; [reflexivity|]).
  eexists _, _. split; [vm_compute; reflexivity|].
  split; [reflexivity|]. split; [reflexivity|]. discriminate.
Qed.

(** The same device reaches the format through the handler, which then
    writes back a device whose [Details.UUID] is still [unknown]. *)
Example OnBlockDeviceChange_formats_unknown_uuid :
  let d := mkBlockDevice "d1" None
             (mkBlockDeviceSpec (mkFilesystemInfo "" true false true) "n1" None)
             (mkBlockDeviceStatus ProvisionPhaseUnprovisioned BlockDeviceActive
                (status0 (mkDeviceDetails DeviceTypePart "" "unknown" "" "p-1" "") false None)
                noConditions) in
  let res := OnBlockDeviceChange (canned_ext canned0) ctl "d1" (Some d) (state0 1 ∅) in
  exists d',
    trace res.2 =
      [EvEvalSymlinks "/dev/disk/by-partuuid/p-1"; EvGetFileSystemInfoByDevPath "/dev/sdb";
       EvMakeExt4DiskFormatting "/dev/sdb" ""; EvGetFileSystemInfoByDevPath "/dev/sdb";
       EvNow; EvBlockdevicesUpdate d'] /\
    Details_UUID (dev_Details d') = "unknown".
Proof. eexists. split; vm_compute; reflexivity. Qed.

(** C9: when the semaphore is at capacity, [forceFormat] only draws the
    jitter and re-enqueues the device: it returns no error and the device as
    it was, and neither unmounts nor runs mkfs nor touches the semaphore or
    the tag cache. When a slot is free, the slot it takes is given back
    however the function is left: the semaphore is afterwards as before. *)
Theorem forceFormat_gate
    {W Disk Partition : Type} (ext : Externals W Disk Partition) (c : Controller)
    (device : BlockDevice) (devPath : string) (filesystem : option FileSystemInfo)
    (st : ProcState W) :
  let res := forceFormat ext c device devPath filesystem st in
  if (ch_len (sem st) <? ch_cap (sem st))%nat then
    sem res.2 = sem st
  else
    exists rand e w1 w2,
      ext_GenRandNumber ext 2 (world st) = ((rand, e), w1) /\
      ext_EnqueueAfter ext (Namespace c) (Name device)
        (wrap64 (wrap64 (rand + 5) * Second)) w1 = (tt, w2) /\
      res =
        (Ret (device, None),
         mkProcState w2 (sem st) (CacheDiskTags st)
           (trace st ++ [EvGenRandNumber 2;
                         EvEnqueueAfter (Namespace c) (Name device)
                           (wrap64 (wrap64 (rand + 5) * Second))])%list).
Proof.
  intros res. subst res.
  destruct (ch_len (sem st) <? ch_cap (sem st))%nat eqn:Hcap.
  - unfold forceFormat.
    match goal with |- context [defer release ?b] => set (body := b) end.
    assert (Hbody : keeps_sem body).
    { subst body.
      unfold updateDeviceFileSystem, UmountDisk, MakeExt4DiskFormatting,
        GetFileSystemInfoByDevPath, Now.
      keeps_sem_tac. }
    unfold mbind, M_bind, acquire, defer, release. rewrite Hcap. simpl.
    match goal with |- context [body ?s] => specialize (Hbody s); destruct (body s) as [o st2] end.
    simpl in *. rewrite Hbody. simpl. by destruct st as [w [len cap] cache tr].
  - destruct (ext_GenRandNumber ext 2 (world st)) as [[rand e] w1] eqn:Hrand.
    destruct (ext_EnqueueAfter ext (Namespace c) (Name device)
                (wrap64 (wrap64 (rand + 5) * Second)) w1) as [[] w2] eqn:Henq.
    exists rand, e, w1, w2. split; [reflexivity|]. split; [exact Henq|].
    unfold forceFormat, jitterEnqueueDelay, GenRandNumber, EnqueueAfter, acquire, call,
      mbind, M_bind, mret, M_ret.
    rewrite Hcap. simpl. rewrite Hrand. simpl. rewrite Henq. simpl.
    by rewrite <- app_assoc.
Qed.

Example forceFormat_gate_saturated :
  let d := device0 true None ProvisionPhaseUnprovisioned
             (status0 (details0 "0x5000" "" "") false None) in
  forceFormat (canned_ext canned0) ctl d "/dev/sdb" (canned_fs canned0)
    (mkProcState tt (mkSemaphore 1 1) (mkDiskTags ∅ true) []) =
  (Ret (d, None),
   mkProcState tt (mkSemaphore 1 1) (mkDiskTags ∅ true)
     [EvGenRandNumber 2; EvEnqueueAfter "longhorn-system" "d1" 6000000000]).
Proof. vm_compute. reflexivity. Qed.

(** ** Mount update *)

(** C6: when the mount is attempted and fails, [updateDeviceMount] returns
    the error of the mount; when that error is classified as a corrupted
    filesystem, [Status.DeviceStatus.FileSystem.Corrupted] is true and
    [Spec.FileSystem.Repaired] false in the device it leaves, and otherwise
    both are as they were. *)
Theorem updateDeviceMount_mount_failure
    {W Disk Partition : Type} (ext : Externals W Disk Partition)
    (device : BlockDevice) (devPath : string) (filesystem : option FileSystemInfo)
    (needMountUpdate : NeedMountUpdateOP) (st : ProcState W) (w1 w2 : W) (e : error) :
  DS_Partitioned (Status_DeviceStatus (Status device)) = false ->
  Has needMountUpdate NeedMountUpdateMount = true ->
  (if Has needMountUpdate NeedMountUpdateUnmount then
     exists fs, filesystem = Some fs /\
                ext_UmountDisk ext (fsi_MountPoint fs) (world st) = (None, w1)
   else w1 = world st) ->
  ext_MountDisk ext devPath (extraDiskMountPoint device) w1 = (Some e, w2) ->
  exists d' st',
    updateDeviceMount ext device devPath filesystem needMountUpdate st =
      (Ret (d', Some e), st') /\
    last (trace st') = Some (EvMountDisk devPath (extraDiskMountPoint device)) /\
    if IsFSCorrupted e then
      FS_Corrupted (dev_FS d') = true /\ SpecFS_Repaired (dev_SpecFS d') = false
    else
      FS_Corrupted (dev_FS d') = FS_Corrupted (dev_FS device) /\
      SpecFS_Repaired (dev_SpecFS d') = SpecFS_Repaired (dev_SpecFS device).
Proof.
  intros Hpart Hmount Humount Hfail.
  unfold updateDeviceMount, UmountDisk, MountDisk, call, mbind, M_bind, mret, M_ret.
  rewrite Hpart, Hmount.
  destruct (Has needMountUpdate NeedMountUpdateUnmount).
  - destruct Humount as (fs & -> & Hu). rewrite Hu. simpl.
    change (extraDiskMountPoint _) with (extraDiskMountPoint device).
    rewrite Hfail. simpl.
    eexists _, _. split; [reflexivity|]. split; [apply last_snoc|].
    destruct (IsFSCorrupted e); simpl; split; reflexivity.
  - subst w1. simpl. rewrite Hfail. simpl.
    eexists _, _. split; [reflexivity|]. split; [apply last_snoc|].
    destruct (IsFSCorrupted e); simpl; split; reflexivity.
Qed.

Lemma updateDeviceMount_mount_failure_witness :
  let k := with_mount canned0 (Some (mkError ErrFSCorrupted "wrong fs type, bad superblock")) in
  let d := device0 true None ProvisionPhaseUnprovisioned
             (status0 (details0 "0x5000" "" "") false (Some 5)) in
  exists d' st',
    updateDeviceMount (canned_ext k) d "/dev/sdb" (canned_fs k) NeedMountUpdateMount
      (state0 1 ∅) =
      (Ret (d', Some (mkError ErrFSCorrupted "wrong fs type, bad superblock")), st') /\
    FS_Corrupted (dev_FS d') = true /\ SpecFS_Repaired (dev_SpecFS d') = false.
Proof.
  intros k d.
  destruct (updateDeviceMount_mount_failure (canned_ext k) d "/dev/sdb" (canned_fs k)
              NeedMountUpdateMount (state0 1 ∅) tt tt
              (mkError ErrFSCorrupted "wrong fs type, bad superblock")
              eq_refl eq_refl eq_refl eq_refl)
    as (d' & st' & Hrun & _ & Hflags).
  exists d', st'. split; [exact Hrun|]. exact Hflags.
Defined.

(** C10: every run of [updateDeviceMount] that returns no error leaves
    [Status.DeviceStatus.FileSystem.Corrupted] false, whatever the plan (an
    unmount alone included) and whatever the flag was before: the flag is
    cleared first, so the refresh of the observation is not skipped; it is
    the last call made, and what it observed is what the device records. *)
Theorem updateDeviceMount_success_clears_corrupted
    {W Disk Partition : Type} (ext : Externals W Disk Partition)
    (device : BlockDevice) (devPath : string) (filesystem : option FileSystemInfo)
    (needMountUpdate : NeedMountUpdateOP) (st st' : ProcState W) (d' : BlockDevice) :
  updateDeviceMount ext device devPath filesystem needMountUpdate st = (Ret (d', None), st') ->
  FS_Corrupted (dev_FS d') = false /\
  exists fs w0,
    ext_GetFileSystemInfoByDevPath ext devPath w0 = (Some fs, world st') /\
    last (trace st') = Some (EvGetFileSystemInfoByDevPath devPath) /\
    dev_FS d' =
      mkFilesystemStatus (fsi_Type fs) (fsi_MountPoint fs) (fsi_IsReadOnly fs) false
        (FS_LastFormattedAt (dev_FS device)).
Proof.
  unfold updateDeviceMount, updateDeviceFileSystem, UmountDisk, MountDisk,
    GetFileSystemInfoByDevPath, call, mbind, M_bind, mret, M_ret.
  intros Hrun.
  run_cases; simplify_eq/=.
  all: split; [reflexivity|].
  all: eexists _, _; split; [eassumption|]; split; [apply last_snoc|reflexivity].
Qed.

Lemma updateDeviceMount_success_clears_corrupted_witness :
  let k := with_fs canned0 (Some (mkFileSystemInfo "ext4" false "")) in
  let mounted := Some (mkFileSystemInfo "ext4" false "/var/lib/harvester/extra-disks/d1") in
  let d := device0 false None ProvisionPhaseProvisioned
             (status0 (details0 "0x5000" "" "") true (Some 5)) in
  needUpdateMountPoint d mounted = NeedMountUpdateUnmount /\
  FS_Corrupted (dev_FS d) = true /\
  exists d' st',
    updateDeviceMount (canned_ext k) d "/dev/sdb" mounted NeedMountUpdateUnmount (state0 1 ∅) =
      (Ret (d', None), st') /\
    trace st' = [EvUmountDisk "/var/lib/harvester/extra-disks/d1";
                 EvGetFileSystemInfoByDevPath "/dev/sdb"] /\
    FS_Corrupted (dev_FS d') = false.
Proof.
  intros k mounted d. split; [reflexivity|]. split; [reflexivity|].
  let r := eval vm_compute in
    (updateDeviceMount (canned_ext k) d "/dev/sdb" mounted NeedMountUpdateUnmount (state0 1 ∅))
  in
  lazymatch r with
  | (Ret (?D, None), ?S) =>
      assert (Hrun : updateDeviceMount (canned_ext k) d "/dev/sdb" mounted
                       NeedMountUpdateUnmount (state0 1 ∅) = (Ret (D, None), S))
        by (vm_compute; reflexivity);
      exists D, S; split; [exact Hrun|]; split; [reflexivity|];
      exact (proj1 (updateDeviceMount_success_clears_corrupted (canned_ext k) d "/dev/sdb"
                      mounted NeedMountUpdateUnmount (state0 1 ∅) S D Hrun))
  end.
Defined.

(** ** Status refresh *)

Section StatusRefresh.

Context {W Disk Partition : Type}.
Variable ext : Externals W Disk Partition.
Variable c : Controller.

(** Building the fresh status always comes back. *)
Lemma buildNewStatus_total device devPath (st : ProcState W) :
  exists r st1, buildNewStatus ext c device devPath st = (Ret r, st1).
Proof.
  unfold buildNewStatus, GetDiskByDevPath, GetPartitionByDevPath, GetParentDevName,
    ApplyAutoProvisionFiltersForDisk, NeedsAutoProvision, call, mbind, M_bind, mret, M_ret.
  run_cases; simplify_eq/=; eexists _, _; reflexivity.
Qed.

Lemma set_AutoProvision_FS d : dev_FS (set_AutoProvision d) = dev_FS d.
Proof. reflexivity. Qed.

End StatusRefresh.

(** C8: a status refresh of a device whose [LastFormattedAt] is set always
    returns, and leaves [LastFormattedAt] set; when the freshly built status
    has none of its own, the old timestamp is the one the device keeps. *)
Theorem updateDeviceStatus_keeps_LastFormattedAt
    {W Disk Partition : Type} (ext : Externals W Disk Partition) (c : Controller)
    (device : BlockDevice) (devPath : string) (st : ProcState W) :
  FS_LastFormattedAt (dev_FS device) <> None ->
  exists d' err st',
    updateDeviceStatus ext c device devPath st = (Ret (d', err), st') /\
    FS_LastFormattedAt (dev_FS d') <> None /\
    forall newStatus auto st1,
      buildNewStatus ext c device devPath st = (Ret (inl (newStatus, auto)), st1) ->
      FS_LastFormattedAt (DS_FileSystem newStatus) = None ->
      FS_LastFormattedAt (dev_FS d') = FS_LastFormattedAt (dev_FS device).
Proof.
  intros Hold.
  destruct (buildNewStatus_total ext c device devPath st) as (r & st1 & Hbuild).
  unfold updateDeviceStatus, mbind, M_bind. rewrite Hbuild.
  destruct r as [[newStatus auto]|err].
  - eexists _, _, _. split; [reflexivity|].
    assert (Hfs : forall d, dev_FS (if auto then set_AutoProvision d else d) = dev_FS d)
      by (intros d; by destruct auto).
    rewrite Hfs.
    set (merged := ds_set_DevPath devPath _).
    assert (Hmerged :
      FS_LastFormattedAt (DS_FileSystem merged) =
        match FS_LastFormattedAt (DS_FileSystem newStatus) with
        | Some t => Some t
        | None => FS_LastFormattedAt (dev_FS device)
        end).
    { subst merged. unfold dev_FS in *.
      rewrite (bool_decide_eq_true_2 _ Hold). simpl.
      destruct (FS_LastFormattedAt (DS_FileSystem newStatus)) eqn:Hnew; simpl.
      - exact Hnew.
      - reflexivity. }
    unfold DeepEqual. case_bool_decide as Heq; simpl.
    + split; [exact Hold|]. intros; reflexivity.
    + change (dev_FS (set_DeviceStatus (fun _ => merged) device)) with (DS_FileSystem merged).
      rewrite Hmerged. split.
      * by destruct (FS_LastFormattedAt (DS_FileSystem newStatus)).
      * intros ns a s1 Hb Hnone. simplify_eq. by rewrite Hnone.
  - eexists _, _, _. split; [reflexivity|]. split; [exact Hold|]. intros; reflexivity.
Qed.

Lemma updateDeviceStatus_keeps_LastFormattedAt_witness :
  let k := canned0 in
  let d := device0 true None ProvisionPhaseProvisioned
             (status0 (details0 "0x5000" "" "") false (Some 5)) in
  FS_LastFormattedAt (DS_FileSystem (canned_status k)) = None /\
  exists d' err st',
    updateDeviceStatus (canned_ext k) ctl d "/dev/sdb" (state0 1 ∅) = (Ret (d', err), st') /\
    Details_WWN (dev_Details d') = "" /\
    FS_LastFormattedAt (dev_FS d') = Some 5.
Proof.
  intros k d. split; [reflexivity|].
  destruct (updateDeviceStatus_keeps_LastFormattedAt (canned_ext k) ctl d "/dev/sdb"
              (state0 1 ∅) ltac:(discriminate))
    as (d' & err & st' & Hrun & _ & Hkeep).
  exists d', err, st'. split; [exact Hrun|].
  split.
  - vm_compute in Hrun. by simplify_eq.
  - apply (Hkeep (canned_status k) false
             (mkProcState tt (mkSemaphore 0 1) (mkDiskTags ∅ true)
                [EvGetDiskByDevPath "/dev/sdb"; EvApplyAutoProvisionFiltersForDisk;
                 EvNeedsAutoProvision d false])); reflexivity.
Defined.

(** ** Provision *)

Lemma dedupe_from_elem seen l x :
  x ∈ dedupe_from seen l <-> x ∈ l /\ x ∉ seen.
Proof.
  revert seen. induction l as [|y l IH]; intros seen; simpl.
  - split; [intros H; by apply not_elem_of_nil in H|intros [H _]; by apply not_elem_of_nil in H].
  - case_bool_decide as Hy.
    + rewrite IH. split.
      * intros [Hl Hs]. split; [by apply list_elem_of_further|exact Hs].
      * intros [Hl Hs]. split; [|exact Hs].
        apply elem_of_cons in Hl as [->|Hl]; [contradiction|exact Hl].
    + rewrite elem_of_cons, IH. split.
      * intros [->|[Hl Hs]].
        -- split; [apply list_elem_of_here|exact Hy].
        -- split; [by apply list_elem_of_further|].
           intros Hin. apply Hs. by apply list_elem_of_further.
      * intros [Hl Hs]. apply elem_of_cons in Hl as [->|Hl]; [by left|].
        destruct (decide (x = y)) as [->|Hne]; [by left|].
        right. split; [exact Hl|].
        intros Hin. apply elem_of_cons in Hin as [Hin|Hin]; contradiction.
Qed.

Lemma dedupe_from_NoDup seen l : NoDup (dedupe_from seen l).
Proof.
  revert seen. induction l as [|y l IH]; intros seen; simpl.
  - constructor.
  - case_bool_decide as Hy; [apply IH|].
    constructor; [|apply IH].
    rewrite dedupe_from_elem. intros [_ Hn]. apply Hn, list_elem_of_here.
Qed.

Lemma go_append_Some {A} (r l : list A) : go_append (Some r) l = Some (r ++ l)%list.
Proof. destruct l; simpl; [by rewrite app_nil_r|reflexivity]. Qed.

Section Provision.

Context {W Disk Partition : Type}.
Variable ext : Externals W Disk Partition.
Variable c : Controller.

(** The loop keeps, in order, the tags the cache does not hold. *)
Lemma respectTags_run name tags acc (st : ProcState W) :
  respectTags name tags (Some acc) st =
    (Ret (Some (acc ++ filter (fun t => t ∉ elems (cache_get (CacheDiskTags st) name)) tags)%list),
     st).
Proof.
  revert acc. induction tags as [|tag tags IH]; intros acc; simpl.
  - by rewrite app_nil_r.
  - unfold mbind, M_bind, GetDiskTags, slices_Contains.
    rewrite filter_cons. case_bool_decide as Hin; simpl.
    + rewrite decide_False by (intros Hn; by apply Hn). apply IH.
    + rewrite decide_True by exact Hin.
      rewrite IH. by rewrite <- app_assoc.
Qed.

Lemma provisionLoadNode_cache (st st1 : ProcState W) r :
  provisionLoadNode ext c st = (r, st1) -> CacheDiskTags st1 = CacheDiskTags st.
Proof.
  unfold provisionLoadNode, NodeCacheGet, NodesGet, call, mbind, M_bind, mret, M_ret.
  intros H. run_cases; simplify_eq/=; reflexivity.
Qed.

(** The entry built for a device whose node entry has tags. *)
Lemma provisionDiskSpec_run node device disk T (st : ProcState W) :
  go_lookup (Node_Disks node) (Name device) = Some disk ->
  Disk_Tags disk = Some T ->
  let cached := elems (cache_get (CacheDiskTags st) (Name device)) in
  let respected :=
    if bool_decide (is_Some (diskTags (CacheDiskTags st) !! Name device)) then
      filter (fun t => t ∉ cached) T
    else T in
  let diskSpec :=
    mkDiskSpec (extraDiskMountPoint device) true false 0
      (Some (dedupe_from [] (respected ++ elems (Spec_Tags (Spec device))))) in
  provisionDiskSpec node device st = (Ret (diskSpec, DeepEqual disk diskSpec), st).
Proof.
  intros Hdisk Htags cached respected diskSpec.
  unfold provisionDiskSpec. rewrite Hdisk, Htags.
  unfold mbind, M_bind, DevExist. simpl.
  subst diskSpec respected cached.
  destruct (bool_decide (is_Some (diskTags (CacheDiskTags st) !! Name device))); simpl.
  - rewrite respectTags_run. simpl. by rewrite go_append_Some.
  - by rewrite go_append_Some.
Qed.

End Provision.

(** C4: after a provision update that returns no error, on a device whose
    node entry exists with non-nil tags, the entry the node holds for the
    device (the one handed to [Nodes.Update], or the old one when it is found
    equal and nothing is written) has tags without duplicates, among them
    every tag of [Spec.Tags] and every tag of the old entry that the tag
    cache does not hold for the device. *)
Theorem provision_merges_tags
    {W Disk Partition : Type} (ext : Externals W Disk Partition) (c : Controller)
    (device d' : BlockDevice) (st st1 st' : ProcState W) (node : Node) (disk : DiskSpec)
    (T : list string) :
  provisionLoadNode ext c st = (Ret (inl node), st1) ->
  go_lookup (Node_Disks node) (Name device) = Some disk ->
  Disk_Tags disk = Some T ->
  provisionDeviceToNode ext c device st = (Ret (d', None), st') ->
  exists entry final,
    Disk_Tags entry = Some final /\
    ((exists node',
         trace st' = (trace st1 ++ [EvNodesUpdate node'])%list /\
         go_lookup (Node_Disks node') (Name device) = Some entry) \/
     (trace st' = trace st1 /\ entry = disk)) /\
    NoDup final /\
    (forall t, t ∈ elems (Spec_Tags (Spec device)) -> t ∈ final) /\
    (forall t, t ∈ T -> t ∉ elems (cache_get (CacheDiskTags st) (Name device)) -> t ∈ final).
Proof.
  intros Hload Hdisk Htags Hrun.
  pose proof (provisionLoadNode_cache ext c _ _ _ Hload) as Hcache.
  pose proof (provisionDiskSpec_run node device disk T st1 Hdisk Htags) as Hspec.
  cbv zeta in Hspec. rewrite Hcache in Hspec.
  set (cached := elems (cache_get (CacheDiskTags st) (Name device))) in *.
  set (respected := if bool_decide _ then _ else T) in Hspec.
  set (final := dedupe_from [] (respected ++ elems (Spec_Tags (Spec device)))) in Hspec.
  set (diskSpec := mkDiskSpec _ _ _ _ (Some final)) in Hspec.
  assert (Hfinal : NoDup final /\
            (forall t, t ∈ elems (Spec_Tags (Spec device)) -> t ∈ final) /\
            (forall t, t ∈ T -> t ∉ cached -> t ∈ final)).
  { split; [apply dedupe_from_NoDup|]. split.
    - intros t Ht. apply dedupe_from_elem. split; [|apply not_elem_of_nil].
      apply elem_of_app. by right.
    - intros t Ht Hn. apply dedupe_from_elem. split; [|apply not_elem_of_nil].
      apply elem_of_app. left. subst respected.
      destruct (bool_decide _); [|exact Ht].
      apply list_elem_of_filter. by split. }
  unfold provisionDeviceToNode, mbind, M_bind in Hrun.
  rewrite Hload, Hspec in Hrun.
  assert (Hins : exists g, Node_Disks node = Some g).
  { unfold go_lookup in Hdisk. destruct (Node_Disks node); [eauto|discriminate]. }
  destruct Hins as [g Hg]. rewrite Hg in Hrun.
  unfold DeepEqual, NodesUpdate, UpdateDiskTags, call, mret, M_ret in Hrun.
  case_bool_decide as Heq.
  - exists disk, final. split; [by rewrite Heq|].
    split; [|exact Hfinal]. right.
    run_cases; simplify_eq/=; auto.
  - exists diskSpec, final. split; [reflexivity|].
    split; [|exact Hfinal]. left.
    run_cases; simplify_eq/=.
    all: eexists; split; [reflexivity|]; simpl; apply lookup_insert_eq.
Qed.

Lemma provision_merges_tags_witness :
  let disk := mkDiskSpec "/var/lib/harvester/extra-disks/d1" true false 0
                (Some ["ssd"; "zone-a"]) in
  let node := mkNode "n1" (Some {[ "d1" := disk ]}) (Some ∅) in
  let k := with_node canned0 (inl node) in
  let d := device0 true (Some ["ssd"; "fast"]) ProvisionPhaseProvisioned
             (status0 (details0 "0x5000" "" "") false (Some 5)) in
  let st := state0 1 {[ "d1" := Some ["ssd"] ]} in
  exists entry final,
    Disk_Tags entry = Some final /\
    NoDup final /\ "ssd" ∈ final /\ "fast" ∈ final /\ "zone-a" ∈ final.
Proof.
  intros disk node k d st.
  let l := eval vm_compute in (provisionLoadNode (canned_ext k) ctl st) in
  let r := eval vm_compute in (provisionDeviceToNode (canned_ext k) ctl d st) in
  lazymatch l with
  | (Ret (inl _), ?S1) =>
      lazymatch r with
      | (Ret (?D, None), ?S) =>
          assert (Hload : provisionLoadNode (canned_ext k) ctl st = (Ret (inl node), S1))
            by (vm_compute; reflexivity);
          assert (Hrun : provisionDeviceToNode (canned_ext k) ctl d st = (Ret (D, None), S))
            by (vm_compute; reflexivity);
          destruct (provision_merges_tags (canned_ext k) ctl d D st S1 S node disk
                      ["ssd"; "zone-a"] Hload eq_refl eq_refl Hrun)
            as (entry & final & Htags & _ & Hnodup & Hspec & Hkeep)
      end
  end.
  exists entry, final. split; [exact Htags|]. split; [exact Hnodup|].
  split; [apply Hspec; simpl; set_solver|].
  split; [apply Hspec; simpl; set_solver|].
  apply Hkeep; [set_solver|].
  assert (Hc : elems (cache_get (CacheDiskTags st) (Name d)) = ["ssd"])
    by (vm_compute; reflexivity).
  rewrite Hc. intros Hin.
  apply elem_of_cons in Hin as [Hin|Hin]; [discriminate|by apply not_elem_of_nil in Hin].
Defined.

(** The tag-drift scenario of the specification: the node is written with
    the node-only tag first, then the tags of the spec, and the cache takes
    the tags of the spec. *)
Example provision_tag_drift :
  let disk := mkDiskSpec "/var/lib/harvester/extra-disks/d1" true false 0
                (Some ["ssd"; "zone-a"]) in
  let node := mkNode "n1" (Some {[ "d1" := disk ]}) (Some ∅) in
  let k := with_node canned0 (inl node) in
  let d := device0 true (Some ["ssd"; "fast"]) ProvisionPhaseProvisioned
             (status0 (details0 "0x5000" "" "") false (Some 5)) in
  let res := provisionDeviceToNode (canned_ext k) ctl d (state0 1 {[ "d1" := Some ["ssd"] ]}) in
  exists node',
    trace res.2 = [EvNodeCacheGet "longhorn-system" "n1"; EvNodesUpdate node'] /\
    Disk_Tags <$> go_lookup (Node_Disks node') "d1" = Some (Some ["zone-a"; "ssd"; "fast"]) /\
    cache_get (CacheDiskTags res.2) "d1" = Some ["ssd"; "fast"].
Proof. eexists. repeat split; vm_compute; reflexivity. Qed.

(** ** Runs that never make a kind of call *)

Section Quiet.

Context {W : Type}.

Lemma quiet_ret {A} p (a : A) : quiet (W := W) p (mret a).
Proof. intros st. exists []. split; [by rewrite app_nil_r|constructor]. Qed.

Lemma quiet_panic {A} p : quiet (W := W) (A := A) p mpanic.
Proof. intros st. exists []. split; [by rewrite app_nil_r|constructor]. Qed.

Lemma quiet_bind {A B} p (m : M W A) (f : A -> M W B) :
  quiet p m -> (forall a, quiet p (f a)) -> quiet p (m ≫= f).
Proof.
  intros Hm Hf st. unfold mbind, M_bind.
  destruct (Hm st) as (e1 & Htr1 & Hq1).
  destruct (m st) as [[a|] st1]; simpl in *.
  - destruct (Hf a st1) as (e2 & Htr2 & Hq2).
    exists (e1 ++ e2)%list. split.
    + by rewrite Htr2, Htr1, app_assoc.
    + by apply Forall_app.
  - exists e1. by split.
Qed.

Lemma quiet_call {A} (p : Event -> bool) ev (f : W -> A * W) :
  p ev = false -> quiet p (call ev f).
Proof.
  intros Hev st. unfold call. destruct (f (world st)) as [a w]. simpl.
  exists [ev]. split; [reflexivity|]. by repeat constructor.
Qed.

Lemma quiet_defer {A B} p (cleanup : M W B) (body : M W A) :
  quiet p cleanup -> quiet p body -> quiet p (defer cleanup body).
Proof.
  intros Hc Hb st. unfold defer.
  destruct (Hb st) as (e1 & Htr1 & Hq1).
  destruct (body st) as [o st1]. simpl in *.
  destruct (Hc st1) as (e2 & Htr2 & Hq2).
  destruct (cleanup st1) as [o2 st2]. simpl in *.
  exists (e1 ++ e2)%list. split.
  - by rewrite Htr2, Htr1, app_assoc.
  - by apply Forall_app.
Qed.

(** Code that leaves the trace alone is quiet. *)
Lemma quiet_silent {A} p (m : M W A) :
  (forall st, trace (m st).2 = trace st) -> quiet p m.
Proof.
  intros Hm st. exists []. split; [by rewrite app_nil_r, Hm|constructor].
Qed.

Lemma quiet_acquire p : quiet (W := W) p acquire.
Proof. apply quiet_silent. intros st. unfold acquire. by destruct (_ <? _)%nat. Qed.

Lemma quiet_release p : quiet (W := W) p release.
Proof. apply quiet_silent. intros st. unfold release. by destruct (ch_len (sem st)). Qed.

Lemma quiet_UpdateDiskTags p dev tags : quiet (W := W) p (UpdateDiskTags dev tags).
Proof. by apply quiet_silent. Qed.

Lemma quiet_DeleteDiskTags p dev : quiet (W := W) p (DeleteDiskTags dev).
Proof. by apply quiet_silent. Qed.

Lemma quiet_Initialized p : quiet (W := W) p Initialized.
Proof. by apply quiet_silent. Qed.

Lemma quiet_GetDiskTags p dev : quiet (W := W) p (GetDiskTags dev).
Proof. by apply quiet_silent. Qed.

Lemma quiet_DevExist p dev : quiet (W := W) p (DevExist dev).
Proof. by apply quiet_silent. Qed.

Lemma quiet_respectTags p name tags acc : quiet (W := W) p (respectTags name tags acc).
Proof.
  revert acc. induction tags as [|tag tags IH]; intros acc; simpl.
  - apply quiet_ret.
  - apply quiet_bind; [apply quiet_GetDiskTags|]. intros cached. apply IH.
Qed.

End Quiet.

Create HintDb quiet.

#[global] Hint Resolve quiet_ret quiet_panic quiet_acquire quiet_release
  quiet_UpdateDiskTags quiet_DeleteDiskTags quiet_Initialized quiet_GetDiskTags
  quiet_DevExist quiet_respectTags : quiet.

(** Follow the shape of the code; a call is allowed when the predicate
    computes to false on it. *)
Ltac quiet_tac :=
  cbv beta iota zeta;
  lazymatch goal with
  | |- quiet _ (mret _) => apply quiet_ret
  | |- quiet _ mpanic => apply quiet_panic
  | |- quiet _ (call _ _) => apply quiet_call; reflexivity
  | |- quiet _ (defer _ _) => apply quiet_defer; quiet_tac
  | |- quiet _ (mbind _ _) => apply quiet_bind; [quiet_tac | intros ?; quiet_tac]
  | |- quiet _ (match ?x with _ => _ end) => destruct x; quiet_tac
  | |- quiet _ (let (_, _) := ?x in _) => destruct x; quiet_tac
  | |- _ => solve [auto with quiet]
  end.

(** ** The semaphore and the tag cache *)

(** At capacity [acquire] fails and changes nothing; with a free slot it
    succeeds, and the [release] that follows succeeds and gives back exactly
    the state before; on an empty semaphore [release] fails and changes
    nothing. *)
Theorem acquire_release_round_trip {W : Type} (st : ProcState W) :
  (if (ch_len (sem st) <? ch_cap (sem st))%nat then
     exists st1,
       acquire st = (Ret true, st1) /\
       ch_len (sem st1) = S (ch_len (sem st)) /\
       (ch_len (sem st1) <= ch_cap (sem st1))%nat /\
       release st1 = (Ret true, st)
   else acquire st = (Ret false, st)) /\
  (ch_len (sem st) = 0%nat -> release st = (Ret false, st)).
Proof.
  split.
  - unfold acquire. destruct (ch_len (sem st) <? ch_cap (sem st))%nat eqn:Hlt; [|reflexivity].
    apply Nat.ltb_lt in Hlt.
    eexists. split; [reflexivity|]. simpl. split; [reflexivity|]. split; [lia|].
    unfold release. simpl. by destruct st as [w [len cap] cache tr].
  - intros Hlen. unfold release. by rewrite Hlen.
Qed.

Lemma acquire_release_round_trip_witness :
  release (W := unit) (mkProcState tt (mkSemaphore 0 2) (mkDiskTags ∅ true) []) =
    (Ret false, mkProcState tt (mkSemaphore 0 2) (mkDiskTags ∅ true) []).
Proof.
  apply (proj2 (acquire_release_round_trip
                  (mkProcState tt (mkSemaphore 0 2) (mkDiskTags ∅ true) []))).
  reflexivity.
Defined.

(** X1: after [UpdateDiskTags dev tags] the cache answers [tags] for [dev] and
    says the device exists, also when [tags] is the nil slice; a
    [DeleteDiskTags dev] after it makes the device unknown again, read as the
    nil slice. Neither touches another device or the initialized bit. *)
Theorem DiskTags_update_get_delete {W : Type} (dev : string) (tags : GoSlice string)
    (st : ProcState W) :
  let st1 := (UpdateDiskTags dev tags st).2 in
  let st2 := (DeleteDiskTags dev st1).2 in
  GetDiskTags dev st1 = (Ret tags, st1) /\
  DevExist dev st1 = (Ret true, st1) /\
  GetDiskTags dev st2 = (Ret None, st2) /\
  DevExist dev st2 = (Ret false, st2) /\
  initialized (CacheDiskTags st2) = initialized (CacheDiskTags st) /\
  forall other, other <> dev ->
    cache_get (CacheDiskTags st1) other = cache_get (CacheDiskTags st) other /\
    cache_get (CacheDiskTags st2) other = cache_get (CacheDiskTags st) other /\
    DevExist other st2 = (Ret (bool_decide (is_Some (diskTags (CacheDiskTags st) !! other))), st2).
Proof.
  intros st1 st2. subst st1 st2.
  unfold GetDiskTags, DevExist, UpdateDiskTags, DeleteDiskTags, cache_get. simpl.
  rewrite lookup_insert_eq, lookup_delete_eq.
  split; [reflexivity|]. split; [reflexivity|]. split; [reflexivity|].
  split; [reflexivity|]. split; [reflexivity|].
  intros other Hne.
  rewrite lookup_delete_ne, !lookup_insert_ne by congruence. auto.
Qed.

(** ** The handler: what it leaves alone *)

Section HandlerFilters.

Context {W Disk Partition : Type}.
Variable ext : Externals W Disk Partition.
Variable c : Controller.

Lemma keeps_sem_defer {A B} (cleanup : M W B) (body : M W A) :
  keeps_sem cleanup -> keeps_sem body -> keeps_sem (defer cleanup body).
Proof.
  intros Hc Hb st. unfold defer.
  specialize (Hb st). destruct (body st) as [o st1].
  specialize (Hc st1). destruct (cleanup st1) as [o2 st2]. simpl in *. congruence.
Qed.

Lemma keeps_sem_forceFormat device devPath filesystem :
  keeps_sem (forceFormat ext c device devPath filesystem).
Proof.
  intros st. unfold forceFormat.
  match goal with |- context [defer release ?b] => set (body := b) end.
  assert (Hbody : keeps_sem body).
  { subst body.
    unfold updateDeviceFileSystem, UmountDisk, MakeExt4DiskFormatting,
      GetFileSystemInfoByDevPath, Now.
    keeps_sem_tac. }
  assert (Hrequeue : keeps_sem
    (delay ← jitterEnqueueDelay ext;
     _ ← EnqueueAfter ext (Namespace c) (Name device) delay; mret (device, @None error))).
  { unfold jitterEnqueueDelay, GenRandNumber, EnqueueAfter. keeps_sem_tac. }
  unfold mbind at 1, M_bind at 1, acquire.
  destruct (ch_len (sem st) <? ch_cap (sem st))%nat eqn:Hcap; simpl.
  - unfold defer, release.
    match goal with |- context [body ?s] => specialize (Hbody s); destruct (body s) as [o st2] end.
    simpl in *. rewrite Hbody. simpl. by destruct st as [w [len cap] cache tr].
  - apply Hrequeue.
Qed.

End HandlerFilters.

Ltac unfold_calls :=
  unfold GetFileSystemInfoByDevPath, GetDiskByDevPath, GetPartitionByDevPath,
    GetParentDevName, GetDevPathByPTUUID, EvalSymlinks, UmountDisk, MountDisk,
    MakeExt4DiskFormatting, NodeCacheGet, NodesGet, NodesUpdate, BlockdevicesUpdate,
    EnqueueAfter, GenRandNumber, Now, ApplyAutoProvisionFiltersForDisk, NeedsAutoProvision.

Ltac unfold_stages :=
  unfold provisionStage, DiskTagsOnNodeMissed, provisionDeviceToNode, provisionLoadNode,
    provisionDiskSpec, unprovisionDeviceFromNode, updateDeviceStatus, buildNewStatus,
    resolvePersistentDevPath, forceFormat, updateDeviceMount, updateDeviceFileSystem,
    jitterEnqueueDelay.

Section HandlerNever.

Context {W Disk Partition : Type}.
Variable ext : Externals W Disk Partition.
Variable c : Controller.

Lemma Has_Mount_unprovisioned bd fs :
  SpecFS_Provisioned (dev_SpecFS bd) = false ->
  Has (needUpdateMountPoint bd fs) NeedMountUpdateMount = false.
Proof.
  intros Hp. unfold needUpdateMountPoint. rewrite Hp.
  destruct fs as [fs|]; [|reflexivity].
  by destruct (bool_decide (fsi_MountPoint fs = "")).
Qed.

Lemma quiet_mount_updateDeviceMount device devPath filesystem op :
  DS_Partitioned (Status_DeviceStatus (Status device)) = true \/
  Has op NeedMountUpdateMount = false ->
  quiet is_mount (updateDeviceMount ext device devPath filesystem op).
Proof.
  intros [Hpart|Hop]; unfold updateDeviceMount, updateDeviceFileSystem.
  - rewrite Hpart. apply quiet_ret.
  - rewrite Hop. unfold_calls. quiet_tac.
Qed.

End HandlerNever.

(** X2: as long as the format precondition does not hold (force format not
    asked for, or the device formatted and not corrupted), an invocation of
    the change handler never runs mkfs. *)
Theorem OnBlockDeviceChange_never_formats_unasked
    {W Disk Partition : Type} (ext : Externals W Disk Partition) (c : Controller)
    (key : string) (device : BlockDevice) :
  needFormat device = false ->
  quiet is_mkfs (OnBlockDeviceChange ext c key (Some device)).
Proof.
  unfold needFormat. intros Hnf.
  unfold OnBlockDeviceChange. rewrite Hnf.
  unfold_stages. unfold_calls. quiet_tac.
Qed.

Lemma OnBlockDeviceChange_never_formats_unasked_witness :
  let d := device0 true None ProvisionPhaseUnprovisioned
             (status0 (details0 "0x5000" "" "") false None) in
  quiet is_mkfs (OnBlockDeviceChange (canned_ext canned0) ctl "d1" (Some d)).
Proof.
  intros d. apply (OnBlockDeviceChange_never_formats_unasked (canned_ext canned0) ctl "d1" d).
  reflexivity.
Defined.

(** X3: the change handler never calls mount for a device that is
    partitioned, nor for one that is not to be provisioned. *)
Theorem OnBlockDeviceChange_never_mounts
    {W Disk Partition : Type} (ext : Externals W Disk Partition) (c : Controller)
    (key : string) (device : BlockDevice) :
  DS_Partitioned (Status_DeviceStatus (Status device)) = true \/
  SpecFS_Provisioned (dev_SpecFS device) = false ->
  quiet is_mount (OnBlockDeviceChange ext c key (Some device)).
Proof.
  intros Hdev.
  assert (Hstage : forall devPath fs,
    quiet is_mount
      (updateDeviceMount ext device devPath fs (needUpdateMountPoint device fs))).
  { intros devPath fs. apply quiet_mount_updateDeviceMount.
    destruct Hdev as [Hp|Hp]; [by left|right; by apply Has_Mount_unprovisioned]. }
  unfold OnBlockDeviceChange.
  unfold provisionStage, DiskTagsOnNodeMissed, provisionDeviceToNode, provisionLoadNode,
    provisionDiskSpec, unprovisionDeviceFromNode, updateDeviceStatus, buildNewStatus,
    resolvePersistentDevPath, forceFormat, updateDeviceFileSystem, jitterEnqueueDelay.
  unfold_calls.
  repeat first
    [ apply Hstage
    | progress (cbv beta iota zeta)
    | lazymatch goal with
      | |- quiet _ (mret _) => apply quiet_ret
      | |- quiet _ mpanic => apply quiet_panic
      | |- quiet _ (call _ _) => apply quiet_call; reflexivity
      | |- quiet _ (defer _ _) => apply quiet_defer
      | |- quiet _ (mbind _ _) => apply quiet_bind; [|intros ?]
      | |- quiet _ (match ?x with _ => _ end) => destruct x
      | |- quiet _ (let (_, _) := ?x in _) => destruct x
      | |- _ => solve [auto with quiet]
      end ].
Qed.

Lemma OnBlockDeviceChange_never_mounts_witness :
  let d := device0 false None ProvisionPhaseProvisioned
             (status0 (details0 "0x5000" "" "") false (Some 5)) in
  quiet is_mount (OnBlockDeviceChange (canned_ext canned0) ctl "d1" (Some d)).
Proof.
  intros d. apply (OnBlockDeviceChange_never_mounts (canned_ext canned0) ctl "d1" d).
  right. reflexivity.
Defined.

(** X4: when the format precondition holds, the format stage is the only
    stage of the invocation: the handler neither mounts nor reads or writes
    the orchestrator node in that invocation. *)
Theorem OnBlockDeviceChange_format_first
    {W Disk Partition : Type} (ext : Externals W Disk Partition) (c : Controller)
    (key : string) (device : BlockDevice) :
  needFormat device = true ->
  quiet (fun e => is_mount e || is_node_call e) (OnBlockDeviceChange ext c key (Some device)).
Proof.
  unfold needFormat. intros Hnf.
  unfold OnBlockDeviceChange. rewrite Hnf.
  unfold_stages. unfold_calls. quiet_tac.
Qed.

Lemma OnBlockDeviceChange_format_first_witness :
  let d := mkBlockDevice "d1" None
             (mkBlockDeviceSpec (mkFilesystemInfo "" true false true) "n1" None)
             (mkBlockDeviceStatus ProvisionPhaseUnprovisioned BlockDeviceActive
                (status0 (details0 "0x5000" "" "") false None) noConditions) in
  quiet (fun e => is_mount e || is_node_call e)
    (OnBlockDeviceChange (canned_ext canned0) ctl "d1" (Some d)).
Proof.
  intros d. apply (OnBlockDeviceChange_format_first (canned_ext canned0) ctl "d1" d).
  reflexivity.
Defined.

Section HandlerWriteBack.

Context {W Disk Partition : Type}.
Variable ext : Externals W Disk Partition.

Lemma quiet_guarded_update (device d : BlockDevice)
    (m : M W (option BlockDevice * option error)) :
  quiet (is_update_of device) m ->
  quiet (is_update_of device)
    (if negb (DeepEqual device d) then BlockdevicesUpdate ext d else m).
Proof.
  intros Hm. unfold DeepEqual. case_bool_decide as Heq; simpl; [exact Hm|].
  unfold BlockdevicesUpdate. apply quiet_call. simpl.
  apply bool_decide_eq_false_2. congruence.
Qed.

End HandlerWriteBack.

(** X5: the handler writes a block device back only when it differs from the
    one it was given: no invocation calls [Blockdevices.Update] with the
    device unchanged. *)
Theorem OnBlockDeviceChange_writes_back_only_changes
    {W Disk Partition : Type} (ext : Externals W Disk Partition) (c : Controller)
    (key : string) (device : BlockDevice) :
  quiet (is_update_of device) (OnBlockDeviceChange ext c key (Some device)).
Proof.
  unfold OnBlockDeviceChange.
  unfold_stages.
  unfold GetFileSystemInfoByDevPath, GetDiskByDevPath, GetPartitionByDevPath,
    GetParentDevName, GetDevPathByPTUUID, EvalSymlinks, UmountDisk, MountDisk,
    MakeExt4DiskFormatting, NodeCacheGet, NodesGet, NodesUpdate,
    EnqueueAfter, GenRandNumber, Now, ApplyAutoProvisionFiltersForDisk, NeedsAutoProvision.
  repeat first
    [ apply quiet_guarded_update
    | progress (cbv beta iota zeta)
    | lazymatch goal with
      | |- quiet _ (mret _) => apply quiet_ret
      | |- quiet _ mpanic => apply quiet_panic
      | |- quiet _ (call _ _) => apply quiet_call; reflexivity
      | |- quiet _ (defer _ _) => apply quiet_defer
      | |- quiet _ (mbind _ _) => apply quiet_bind; [|intros ?]
      | |- quiet _ (match ?x with _ => _ end) => destruct x
      | |- quiet _ (let (_, _) := ?x in _) => destruct x
      | |- _ => solve [auto with quiet]
      end ].
Qed.

(** ** The handler and the process-wide state *)

Section Frames.

Context {W : Type}.

Lemma keeps_sem_silent {A} (m : M W A) :
  (forall st, sem (m st).2 = sem st) -> keeps_sem m.
Proof. intros H. exact H. Qed.

Lemma keeps_sem_respectTags name tags acc : keeps_sem (W := W) (respectTags name tags acc).
Proof.
  revert acc. induction tags as [|tag tags IH]; intros acc; simpl.
  - apply keeps_sem_ret.
  - apply keeps_sem_bind; [by intros st|]. intros cached. apply IH.
Qed.

Lemma cache_only_at_ret {A} name (a : A) : cache_only_at (W := W) name (mret a).
Proof. by intros st. Qed.

Lemma cache_only_at_panic {A} name : cache_only_at (W := W) (A := A) name mpanic.
Proof. by intros st. Qed.

Lemma cache_only_at_call {A} name ev (f : W -> A * W) : cache_only_at name (call ev f).
Proof. intros st. unfold call. by destruct (f (world st)). Qed.

Lemma cache_only_at_bind {A B} name (m : M W A) (f : A -> M W B) :
  cache_only_at name m -> (forall a, cache_only_at name (f a)) ->
  cache_only_at name (m ≫= f).
Proof.
  intros Hm Hf st. unfold mbind, M_bind.
  destruct (Hm st) as [Hi Hl]. destruct (m st) as [[a|] st1]; simpl in *; [|by split].
  destruct (Hf a st1) as [Hi2 Hl2]. split; [congruence|].
  intros other Hne. by rewrite Hl2, Hl.
Qed.

Lemma cache_only_at_bind_post {A B} name (Q : A -> Prop) (m : M W A) (f : A -> M W B) :
  cache_only_at name m ->
  (forall st a st', m st = (Ret a, st') -> Q a) ->
  (forall a, Q a -> cache_only_at name (f a)) ->
  cache_only_at name (m ≫= f).
Proof.
  intros Hm HQ Hf st. unfold mbind, M_bind.
  destruct (Hm st) as [Hi Hl]. destruct (m st) as [[a|] st1] eqn:Hrun; simpl in *; [|by split].
  destruct (Hf a (HQ _ _ _ Hrun) st1) as [Hi2 Hl2]. split; [congruence|].
  intros other Hne. by rewrite Hl2, Hl.
Qed.

Lemma cache_only_at_defer {A B} name (cleanup : M W B) (body : M W A) :
  cache_only_at name cleanup -> cache_only_at name body ->
  cache_only_at name (defer cleanup body).
Proof.
  intros Hc Hb st. unfold defer.
  destruct (Hb st) as [Hi Hl]. destruct (body st) as [o st1].
  destruct (Hc st1) as [Hi2 Hl2]. destruct (cleanup st1) as [o2 st2]. simpl in *.
  split; [congruence|]. intros other Hne. by rewrite Hl2, Hl.
Qed.

Lemma cache_only_at_acquire name : cache_only_at (W := W) name acquire.
Proof. intros st. unfold acquire. by destruct (_ <? _)%nat. Qed.

Lemma cache_only_at_release name : cache_only_at (W := W) name release.
Proof. intros st. unfold release. by destruct (ch_len (sem st)). Qed.

Lemma cache_only_at_UpdateDiskTags name tags :
  cache_only_at (W := W) name (UpdateDiskTags name tags).
Proof.
  intros st. simpl. split; [reflexivity|]. intros other Hne. by rewrite lookup_insert_ne.
Qed.

Lemma cache_only_at_respectTags name dev tags acc :
  cache_only_at (W := W) name (respectTags dev tags acc).
Proof.
  revert acc. induction tags as [|tag tags IH]; intros acc; simpl.
  - apply cache_only_at_ret.
  - apply cache_only_at_bind; [by intros st|]. intros cached. apply IH.
Qed.

End Frames.

Ltac keeps_sem_stage :=
  cbv beta iota zeta;
  lazymatch goal with
  | |- keeps_sem (mret _) => apply keeps_sem_ret
  | |- keeps_sem mpanic => apply keeps_sem_panic
  | |- keeps_sem (call _ _) => apply keeps_sem_call
  | |- keeps_sem (mbind _ _) => apply keeps_sem_bind; [keeps_sem_stage | intros ?; keeps_sem_stage]
  | |- keeps_sem (match ?x with _ => _ end) => destruct x; keeps_sem_stage
  | |- keeps_sem (let (_, _) := ?x in _) => destruct x; keeps_sem_stage
  | |- keeps_sem (forceFormat _ _ _ _ _) => apply keeps_sem_forceFormat
  | |- keeps_sem (respectTags _ _ _) => apply keeps_sem_respectTags
  | |- _ => by intros ?
  end.

Ltac cache_only_at_stage :=
  cbv beta iota zeta;
  lazymatch goal with
  | |- cache_only_at _ (mret _) => apply cache_only_at_ret
  | |- cache_only_at _ mpanic => apply cache_only_at_panic
  | |- cache_only_at _ (call _ _) => apply cache_only_at_call
  | |- cache_only_at _ (defer _ _) => apply cache_only_at_defer; cache_only_at_stage
  | |- cache_only_at _ (mbind _ _) =>
      apply cache_only_at_bind; [cache_only_at_stage | intros ?; cache_only_at_stage]
  | |- cache_only_at _ (match ?x with _ => _ end) => destruct x; cache_only_at_stage
  | |- cache_only_at _ (let (_, _) := ?x in _) => destruct x; cache_only_at_stage
  | |- cache_only_at _ acquire => apply cache_only_at_acquire
  | |- cache_only_at _ release => apply cache_only_at_release
  | |- cache_only_at _ (UpdateDiskTags _ _) => apply cache_only_at_UpdateDiskTags
  | |- cache_only_at _ (respectTags _ _ _) => apply cache_only_at_respectTags
  | |- _ => first [by intros ? | solve [auto with cachefr]]
  end.

Create HintDb cachefr.

Section ProvisionFrame.

Context {W Disk Partition : Type}.
Variable ext : Externals W Disk Partition.
Variable c : Controller.

Lemma cache_only_at_provisionDeviceToNode device :
  cache_only_at (Name device) (provisionDeviceToNode ext c device).
Proof.
  unfold provisionDeviceToNode.
  apply cache_only_at_bind.
  { unfold provisionLoadNode. unfold_calls. cache_only_at_stage. }
  intros [node|err]; [|apply cache_only_at_ret].
  cbv beta iota zeta.
  apply cache_only_at_bind.
  { unfold provisionDiskSpec. cache_only_at_stage. }
  intros [diskSpec updated].
  apply (cache_only_at_bind_post _ (fun p => Name p.1 = Name device)).
  - unfold_calls. cache_only_at_stage.
  - intros st [d' err] st'. unfold NodesUpdate, call, mbind, M_bind, mret, M_ret.
    intros Hrun. run_cases; simplify_eq/=; reflexivity.
  - intros [d' err] Hname. simpl in Hname. rewrite <- Hname.
    cache_only_at_stage.
Qed.

End ProvisionFrame.

#[global] Hint Resolve cache_only_at_provisionDeviceToNode : cachefr.

(** X6: an invocation of the change handler gives the semaphore back as it
    found it, whichever way it ends, and touches the tag cache at most at
    the name of the device it was given: the initialized bit and the tags
    cached for every other device are as before. *)
Theorem OnBlockDeviceChange_frame
    {W Disk Partition : Type} (ext : Externals W Disk Partition) (c : Controller)
    (key : string) (device : BlockDevice) (st : ProcState W) :
  let st' := (OnBlockDeviceChange ext c key (Some device) st).2 in
  sem st' = sem st /\
  initialized (CacheDiskTags st') = initialized (CacheDiskTags st) /\
  forall other, other <> Name device ->
    cache_get (CacheDiskTags st') other = cache_get (CacheDiskTags st) other.
Proof.
  intros st'. subst st'. split.
  - revert st. change (keeps_sem (OnBlockDeviceChange ext c key (Some device))).
    unfold OnBlockDeviceChange.
    unfold provisionStage, DiskTagsOnNodeMissed, provisionDeviceToNode, provisionLoadNode,
      provisionDiskSpec, unprovisionDeviceFromNode, updateDeviceStatus, buildNewStatus,
      resolvePersistentDevPath, updateDeviceMount, updateDeviceFileSystem,
      jitterEnqueueDelay.
    unfold_calls. keeps_sem_stage.
  - assert (H : cache_only_at (Name device) (OnBlockDeviceChange ext c key (Some device))).
    { unfold OnBlockDeviceChange.
      unfold provisionStage, DiskTagsOnNodeMissed, unprovisionDeviceFromNode,
        updateDeviceStatus, buildNewStatus, resolvePersistentDevPath, forceFormat,
        updateDeviceMount, updateDeviceFileSystem, jitterEnqueueDelay.
      unfold_calls. cache_only_at_stage. }
    destruct (H st) as [Hi Hl]. split; [exact Hi|].
    intros other Hne. unfold cache_get. by rewrite Hl.
Qed.

(** ** The handler: early returns *)

(** X7: a nil device, a device being deleted, one of another node, an
    inactive one, and a corrupted one for which neither a force format nor a
    repair is declared, are all answered [(nil, nil)] with no call made and
    no state touched. *)
Theorem OnBlockDeviceChange_skips
    {W Disk Partition : Type} (ext : Externals W Disk Partition) (c : Controller)
    (key : string) (device : option BlockDevice) (st : ProcState W) :
  match device with
  | None => True
  | Some d =>
      notOurs c d = true \/
      (FS_Corrupted (dev_FS d) = true /\
       SpecFS_ForceFormatted (dev_SpecFS d) = false /\
       SpecFS_Repaired (dev_SpecFS d) = false)
  end ->
  OnBlockDeviceChange ext c key device st = (Ret (None, None), st).
Proof.
  destruct device as [d|]; [|reflexivity].
  unfold notOurs, OnBlockDeviceChange.
  intros [Hno|(Hc & Hf & Hr)].
  - by rewrite Hno.
  - rewrite Hc, Hf, Hr. simpl. by destruct (_ || _ || _).
Qed.

Lemma OnBlockDeviceChange_skips_witness :
  let d := device0 true None ProvisionPhaseProvisioned
             (status0 (details0 "0x5000" "" "") true (Some 5)) in
  OnBlockDeviceChange (canned_ext canned0) ctl "d1" (Some d) (state0 1 ∅) =
    (Ret (None, None), state0 1 ∅).
Proof.
  intros d.
  apply (OnBlockDeviceChange_skips (canned_ext canned0) ctl "d1" (Some d) (state0 1 ∅)).
  right. repeat split; reflexivity.
Defined.

(** X8: for a device that passes those filters, while the tag cache is not
    yet initialized the handler returns the error [CacheDiskTags is not
    initialized] and no device, with no call made and no state touched. *)
Theorem OnBlockDeviceChange_waits_for_cache
    {W Disk Partition : Type} (ext : Externals W Disk Partition) (c : Controller)
    (key : string) (d : BlockDevice) (st : ProcState W) :
  notOurs c d = false ->
  FS_Corrupted (dev_FS d) && negb (SpecFS_ForceFormatted (dev_SpecFS d)) &&
    negb (SpecFS_Repaired (dev_SpecFS d)) = false ->
  initialized (CacheDiskTags st) = false ->
  OnBlockDeviceChange ext c key (Some d) st =
    (Ret (None, Some (mkError ErrOther "CacheDiskTags is not initialized")), st).
Proof.
  unfold notOurs, OnBlockDeviceChange. intros Hno Hc Hinit.
  rewrite Hno, Hc. unfold mbind, M_bind, Initialized. by rewrite Hinit.
Qed.

Lemma OnBlockDeviceChange_waits_for_cache_witness :
  let d := device0 true None ProvisionPhaseUnprovisioned
             (status0 (details0 "0x5000" "" "") false None) in
  let st := mkProcState tt (mkSemaphore 0 1) (mkDiskTags ∅ false) [] in
  OnBlockDeviceChange (canned_ext canned0) ctl "d1" (Some d) st =
    (Ret (None, Some (mkError ErrOther "CacheDiskTags is not initialized")), st).
Proof.
  intros d st.
  apply (OnBlockDeviceChange_waits_for_cache (canned_ext canned0) ctl "d1" d st);
    reflexivity.
Defined.

(** X9: when the block inspector has no filesystem observation for the
    resolved path, the handler does not reach the planner (whose answer for
    a missing observation would be no-op): it reads through the nil
    observation and panics, having written nothing. *)
Theorem OnBlockDeviceChange_panics_without_observation
    {W Disk Partition : Type} (ext : Externals W Disk Partition) (c : Controller)
    (key : string) (d : BlockDevice) (st st1 : ProcState W) (devPath : string) (w2 : W) :
  notOurs c d = false ->
  FS_Corrupted (dev_FS d) && negb (SpecFS_ForceFormatted (dev_SpecFS d)) &&
    negb (SpecFS_Repaired (dev_SpecFS d)) = false ->
  initialized (CacheDiskTags st) = true ->
  resolvePersistentDevPath ext d st = (Ret (devPath, None), st1) ->
  devPath <> "" ->
  ext_GetFileSystemInfoByDevPath ext devPath (world st1) = (None, w2) ->
  OnBlockDeviceChange ext c key (Some d) st =
    (Panic,
     mkProcState w2 (sem st1) (CacheDiskTags st1)
       (trace st1 ++ [EvGetFileSystemInfoByDevPath devPath])%list).
Proof.
  unfold notOurs, OnBlockDeviceChange. intros Hno Hc Hinit Hres Hne Hfs.
  rewrite Hno, Hc. unfold mbind, M_bind, Initialized. rewrite Hinit. simpl.
  rewrite Hres. rewrite (bool_decide_eq_false_2 _ Hne).
  unfold GetFileSystemInfoByDevPath, call. by rewrite Hfs.
Qed.

Lemma OnBlockDeviceChange_panics_without_observation_witness :
  let k := with_fs canned0 None in
  let d := device0 true None ProvisionPhaseUnprovisioned
             (status0 (details0 "0x5000" "" "") false (Some 5)) in
  (OnBlockDeviceChange (canned_ext k) ctl "d1" (Some d) (state0 1 ∅)).1 = Panic.
Proof.
  intros k d.
  rewrite (OnBlockDeviceChange_panics_without_observation (canned_ext k) ctl "d1" d
             (state0 1 ∅)
             (mkProcState tt (mkSemaphore 0 1) (mkDiskTags ∅ true)
                [EvEvalSymlinks "/dev/disk/by-id/wwn-0x5000"])
             "/dev/sdb" tt); [reflexivity|reflexivity|reflexivity|reflexivity|reflexivity|
                              discriminate|reflexivity].
Defined.

(** ** The path resolver *)

(** X10: for a disk with a WWN the resolver makes exactly one call, resolving
    the by-id link ([nvme-] for the NVMe controller, [wwn-] otherwise), and
    returns its answer as it is: when that link does not resolve, the
    filesystem UUID and the PT-UUID are not tried. *)
Theorem resolvePersistentDevPath_wwn_only
    {W Disk Partition : Type} (ext : Externals W Disk Partition)
    (d : BlockDevice) (st : ProcState W) :
  Details_DeviceType (dev_Details d) = DeviceTypeDisk ->
  valueExists (Details_WWN (dev_Details d)) = true ->
  let link :=
    (if bool_decide (Details_StorageController (dev_Details d) = ext_StorageControllerNVMe ext)
     then "/dev/disk/by-id/nvme-" else "/dev/disk/by-id/wwn-") +:+ Details_WWN (dev_Details d) in
  resolvePersistentDevPath ext d st =
    (Ret (ext_EvalSymlinks ext link (world st)).1,
     mkProcState (ext_EvalSymlinks ext link (world st)).2 (sem st) (CacheDiskTags st)
       (trace st ++ [EvEvalSymlinks link])%list).
Proof.
  intros Htype Hwwn link. subst link.
  unfold resolvePersistentDevPath, EvalSymlinks, call. rewrite Htype, Hwwn.
  destruct (bool_decide _); by destruct (ext_EvalSymlinks _ _ _).
Qed.

Lemma resolvePersistentDevPath_wwn_only_witness :
  let d := device0 true None ProvisionPhaseUnprovisioned
             (status0 (mkDeviceDetails DeviceTypeDisk "eui.01" "u-1" "pt-1" "" "NVMe")
                false None) in
  trace (resolvePersistentDevPath (canned_ext canned0) d (state0 1 ∅)).2 =
    [EvEvalSymlinks "/dev/disk/by-id/nvme-eui.01"].
Proof.
  intros d.
  rewrite (resolvePersistentDevPath_wwn_only (canned_ext canned0) d (state0 1 ∅));
    reflexivity.
Defined.

(** X11: for a disk without a WWN but with a filesystem UUID, the resolver
    first resolves the by-uuid link. Its path is the answer when it
    resolves; an error other than not-exist is returned at once; and on
    not-exist the resolver goes on exactly as for the same device without a
    filesystem UUID (PT-UUID next). *)
Theorem resolvePersistentDevPath_uuid_falls_through
    {W Disk Partition : Type} (ext : Externals W Disk Partition)
    (d : BlockDevice) (st : ProcState W) (path : string) (err : option error) (w1 : W) :
  Details_DeviceType (dev_Details d) = DeviceTypeDisk ->
  valueExists (Details_WWN (dev_Details d)) = false ->
  valueExists (Details_UUID (dev_Details d)) = true ->
  ext_EvalSymlinks ext ("/dev/disk/by-uuid/" +:+ Details_UUID (dev_Details d)) (world st)
    = ((path, err), w1) ->
  let st1 :=
    mkProcState w1 (sem st) (CacheDiskTags st)
      (trace st ++ [EvEvalSymlinks ("/dev/disk/by-uuid/" +:+ Details_UUID (dev_Details d))])%list
  in
  resolvePersistentDevPath ext d st =
    match err with
    | None => (Ret (path, None), st1)
    | Some e =>
        if IsErrNotExist e then resolvePersistentDevPath ext (set_UUID "" d) st1
        else (Ret ("", Some e), st1)
    end.
Proof.
  intros Htype Hwwn Huuid Hlink st1. subst st1.
  unfold resolvePersistentDevPath, EvalSymlinks, GetDevPathByPTUUID, call, mbind, M_bind,
    mret, M_ret.
  rewrite Htype, Hwwn, Huuid, Hlink.
  destruct err as [e|]; [|reflexivity].
  destruct (IsErrNotExist e); [|reflexivity].
  unfold dev_Details, set_UUID, set_Details, set_DeviceStatus, set_Status in *.
  simpl. rewrite Htype, Hwwn. reflexivity.
Qed.

Lemma resolvePersistentDevPath_uuid_falls_through_witness :
  let k := mkCanned (canned_fs canned0) ("", Some (mkError ErrNotExist "no such file"))
             None None None (canned_node canned0) None (canned_status canned0) false in
  let d := device0 true None ProvisionPhaseUnprovisioned
             (status0 (details0 "" "u-1" "") false None) in
  (resolvePersistentDevPath (canned_ext k) d (state0 1 ∅)).1 =
    Ret ("", Some (Errorf "WWN/UUID/PTUUID was not found on device d1")).
Proof.
  intros k d.
  rewrite (resolvePersistentDevPath_uuid_falls_through (canned_ext k) d (state0 1 ∅)
             "" (Some (mkError ErrNotExist "no such file")) tt);
    reflexivity.
Defined.

(** X12: a disk on which WWN, filesystem UUID and PT-UUID are all absent
    (empty or [unknown]) and a partition whose PARTUUID is empty are refused
    with an error naming the device, without any call; a device of neither
    type resolves to the empty path with no error and no call. *)
Theorem resolvePersistentDevPath_no_identifier
    {W Disk Partition : Type} (ext : Externals W Disk Partition)
    (d : BlockDevice) (st : ProcState W) :
  match Details_DeviceType (dev_Details d) with
  | DeviceTypeDisk =>
      if valueExists (Details_WWN (dev_Details d)) ||
         valueExists (Details_UUID (dev_Details d)) ||
         valueExists (Details_PtUUID (dev_Details d))
      then True
      else
        resolvePersistentDevPath ext d st =
          (Ret ("", Some (Errorf ("WWN/UUID/PTUUID was not found on device " +:+ Name d))),
           st)
  | DeviceTypePart =>
      if bool_decide (Details_PartUUID (dev_Details d) = "") then
        resolvePersistentDevPath ext d st =
          (Ret ("", Some (Errorf ("PARTUUID was not found on device " +:+ Name d))), st)
      else True
  | DeviceTypeOther _ => resolvePersistentDevPath ext d st = (Ret ("", None), st)
  end.
Proof.
  destruct (Details_DeviceType (dev_Details d)) eqn:Htype.
  - destruct (valueExists (Details_WWN (dev_Details d))) eqn:Hw; [exact I|].
    destruct (valueExists (Details_UUID (dev_Details d))) eqn:Hu; [exact I|].
    destruct (valueExists (Details_PtUUID (dev_Details d))) eqn:Hp; [exact I|].
    simpl. unfold resolvePersistentDevPath. by rewrite Htype, Hw, Hu, Hp.
  - case_bool_decide as Hpart; [|exact I].
    unfold resolvePersistentDevPath. rewrite Htype.
    by rewrite (bool_decide_eq_true_2 _ Hpart).
  - unfold resolvePersistentDevPath. by rewrite Htype.
Qed.

(** The handler turns the empty path of a device of unknown type into an
    error, with nothing called. *)
Example OnBlockDeviceChange_unknown_type :
  let d := device0 true None ProvisionPhaseUnprovisioned
             (status0 (mkDeviceDetails (DeviceTypeOther "loop") "" "" "" "" "") false None) in
  OnBlockDeviceChange (canned_ext canned0) ctl "d1" (Some d) (state0 1 ∅) =
    (Ret (None, Some (Errorf "failed to resolve persistent dev path for block device d1")),
     state0 1 ∅).
Proof. vm_compute. reflexivity. Qed.

(** ** Mount update: further behaviour *)

(** X13: when the planned unmount fails, [updateDeviceMount] returns its
    error with the device untouched and makes no further call: the mount of
    an unmount-then-mount plan is not attempted. *)
Theorem updateDeviceMount_unmount_failure
    {W Disk Partition : Type} (ext : Externals W Disk Partition)
    (device : BlockDevice) (devPath : string) (fs : FileSystemInfo)
    (needMountUpdate : NeedMountUpdateOP) (st : ProcState W) (w1 : W) (e : error) :
  DS_Partitioned (Status_DeviceStatus (Status device)) = false ->
  Has needMountUpdate NeedMountUpdateUnmount = true ->
  ext_UmountDisk ext (fsi_MountPoint fs) (world st) = (Some e, w1) ->
  updateDeviceMount ext device devPath (Some fs) needMountUpdate st =
    (Ret (device, Some e),
     mkProcState w1 (sem st) (CacheDiskTags st)
       (trace st ++ [EvUmountDisk (fsi_MountPoint fs)])%list).
Proof.
  intros Hpart Hop Hum.
  unfold updateDeviceMount, UmountDisk, call, mbind, M_bind, mret, M_ret.
  by rewrite Hpart, Hop, Hum.
Qed.

Lemma updateDeviceMount_unmount_failure_witness :
  let k := mkCanned (canned_fs canned0) (canned_path canned0)
             (Some (mkError ErrOther "target is busy")) None None
             (canned_node canned0) None (canned_status canned0) false in
  let d := device0 true None ProvisionPhaseProvisioned
             (status0 (details0 "0x5000" "" "") false (Some 5)) in
  trace (updateDeviceMount (canned_ext k) d "/dev/sdb" (Some (mkFileSystemInfo "ext4" false "/mnt/x"))
           (Z.lor NeedMountUpdateUnmount NeedMountUpdateMount) (state0 1 ∅)).2 =
    [EvUmountDisk "/mnt/x"].
Proof.
  intros k d.
  rewrite (updateDeviceMount_unmount_failure (canned_ext k) d "/dev/sdb"
             (mkFileSystemInfo "ext4" false "/mnt/x")
             (Z.lor NeedMountUpdateUnmount NeedMountUpdateMount) (state0 1 ∅) tt
             (mkError ErrOther "target is busy")); reflexivity.
Defined.

(** X14: after a run of [updateDeviceMount] that returns no error, the
    [DeviceMounted] condition has no error message and tells whether the
    device is now mounted: true when the plan mounted, false when it only
    unmounted. The spec of the device and its other conditions are as
    before. *)
Theorem updateDeviceMount_success_condition
    {W Disk Partition : Type} (ext : Externals W Disk Partition)
    (device : BlockDevice) (devPath : string) (filesystem : option FileSystemInfo)
    (needMountUpdate : NeedMountUpdateOP) (st st' : ProcState W) (d' : BlockDevice) :
  updateDeviceMount ext device devPath filesystem needMountUpdate st = (Ret (d', None), st') ->
  Has needMountUpdate NeedMountUpdateMount || Has needMountUpdate NeedMountUpdateUnmount = true ->
  cond_Status (dev_cond DeviceMounted d') =
    (if Has needMountUpdate NeedMountUpdateMount then CondTrue else CondFalse) /\
  cond_Error (dev_cond DeviceMounted d') = "" /\
  Spec d' = Spec device /\
  dev_cond DeviceFormatting d' = dev_cond DeviceFormatting device /\
  dev_cond DiskAddedToNode d' = dev_cond DiskAddedToNode device.
Proof.
  unfold updateDeviceMount, updateDeviceFileSystem, UmountDisk, MountDisk,
    GetFileSystemInfoByDevPath, call, mbind, M_bind, mret, M_ret.
  intros Hrun Hop.
  run_cases; simplify_eq/=; repeat split; reflexivity.
Qed.

Lemma updateDeviceMount_success_condition_witness :
  let k := with_fs canned0 (Some (mkFileSystemInfo "ext4" false "")) in
  let mounted := Some (mkFileSystemInfo "ext4" false "/var/lib/harvester/extra-disks/d1") in
  let d := device0 false None ProvisionPhaseProvisioned
             (status0 (details0 "0x5000" "" "") false (Some 5)) in
  exists d' st',
    updateDeviceMount (canned_ext k) d "/dev/sdb" mounted NeedMountUpdateUnmount (state0 1 ∅) =
      (Ret (d', None), st') /\
    cond_Status (dev_cond DeviceMounted d') = CondFalse.
Proof.
  intros k mounted d.
  let r := eval vm_compute in
    (updateDeviceMount (canned_ext k) d "/dev/sdb" mounted NeedMountUpdateUnmount (state0 1 ∅))
  in
  lazymatch r with
  | (Ret (?D, None), ?S) =>
      assert (Hrun : updateDeviceMount (canned_ext k) d "/dev/sdb" mounted
                       NeedMountUpdateUnmount (state0 1 ∅) = (Ret (D, None), S))
        by (vm_compute; reflexivity);
      exists D, S; split; [exact Hrun|];
      exact (proj1 (updateDeviceMount_success_condition (canned_ext k) d "/dev/sdb"
                      mounted NeedMountUpdateUnmount (state0 1 ∅) S D Hrun eq_refl))
  end.
Defined.

(** X15: [updateDeviceFileSystem] changes the device only when it returns no
    error. On a device flagged corrupted it makes no call and changes
    nothing. Otherwise a success means the inspector had an observation that
    is unmounted, or untyped, or of a supported type, and the device records
    its type, mount point and read-only flag, the corruption flag and the
    format timestamp staying as they were. *)
Theorem updateDeviceFileSystem_outcomes
    {W Disk Partition : Type} (ext : Externals W Disk Partition)
    (device : BlockDevice) (devPath : string) (st : ProcState W) :
  exists d' err st',
    updateDeviceFileSystem ext device devPath st = (Ret (d', err), st') /\
    (err <> None -> d' = device) /\
    (FS_Corrupted (dev_FS device) = true -> err = None /\ d' = device /\ st' = st) /\
    (FS_Corrupted (dev_FS device) = false -> err = None ->
     exists fs,
       ext_GetFileSystemInfoByDevPath ext devPath (world st) = (Some fs, world st') /\
       (fsi_MountPoint fs = "" \/ fsi_Type fs = "" \/
        ext_IsSupportedFileSystem ext (fsi_Type fs) = true) /\
       d' = set_FSObserved fs device).
Proof.
  unfold updateDeviceFileSystem, GetFileSystemInfoByDevPath, call, mbind, M_bind, mret, M_ret.
  destruct (FS_Corrupted (dev_FS device)) eqn:Hc.
  { eexists _, _, _. split; [reflexivity|]. repeat split; congruence. }
  destruct (ext_GetFileSystemInfoByDevPath ext devPath (world st)) as [[fs|] w] eqn:Hfs; simpl.
  - destruct (negb (bool_decide (fsi_MountPoint fs = "")) &&
              negb (bool_decide (fsi_Type fs = "")) &&
              negb (ext_IsSupportedFileSystem ext (fsi_Type fs))) eqn:Hsup.
    + eexists _, _, _. split; [reflexivity|]. repeat split; congruence.
    + eexists _, _, _. split; [reflexivity|].
      split; [congruence|]. split; [congruence|].
      intros _ _. exists fs. split; [reflexivity|]. split; [|reflexivity].
      apply andb_false_iff in Hsup as [Hsup|Hsup].
      * apply andb_false_iff in Hsup as [Hsup|Hsup].
        -- left. apply negb_false_iff, bool_decide_eq_true in Hsup. exact Hsup.
        -- right. left. apply negb_false_iff, bool_decide_eq_true in Hsup. exact Hsup.
      * right. right. by apply negb_false_iff in Hsup.
  - eexists _, _, _. split; [reflexivity|]. repeat split; congruence.
Qed.

(** ** What a run returns *)

Section Returns.

Context {W : Type}.

Lemma returns_ret {A} (a : A) (Q : A -> Prop) : Q a -> returns (W := W) (mret a) Q.
Proof. intros HQ st. by exists a, st. Qed.

Lemma returns_call {A} ev (f : W -> A * W) (Q : A -> Prop) :
  (forall a, Q a) -> returns (call ev f) Q.
Proof.
  intros HQ st. unfold call. destruct (f (world st)) as [a w]. eauto.
Qed.

Lemma returns_bind {A B} (m : M W A) (f : A -> M W B) (P : A -> Prop) (Q : B -> Prop) :
  returns m P -> (forall a, P a -> returns (f a) Q) -> returns (m ≫= f) Q.
Proof.
  intros Hm Hf st. unfold mbind, M_bind.
  destruct (Hm st) as (a & st1 & -> & HP). by apply Hf.
Qed.

Lemma returns_bind_call {A B} ev (g : W -> A * W) (f : A -> M W B) (Q : B -> Prop) :
  (forall a, returns (f a) Q) -> returns (call ev g ≫= f) Q.
Proof.
  intros Hf. apply (returns_bind _ _ (fun _ => True)); [by apply returns_call|auto].
Qed.

Lemma returns_bind_ret {A B} (a : A) (f : A -> M W B) (Q : B -> Prop) :
  returns (f a) Q -> returns (mret a ≫= f) Q.
Proof. intros Hf st. exact (Hf st). Qed.

Lemma returns_bind_assoc {A B C} (m : M W A) (g : A -> M W B) (f : B -> M W C)
    (Q : C -> Prop) :
  returns (m ≫= fun a => g a ≫= f) Q -> returns ((m ≫= g) ≫= f) Q.
Proof.
  intros H st. specialize (H st). unfold mbind, M_bind in *.
  by destruct (m st) as [[a|] st1].
Qed.

Lemma returns_defer {A B} (cleanup : M W B) (body : M W A) (Q : A -> Prop) :
  returns body Q -> returns (defer cleanup body) Q.
Proof.
  intros Hb st. unfold defer. destruct (Hb st) as (a & st1 & -> & HQ).
  destruct (cleanup st1) as [o st2]. eauto.
Qed.

Lemma returns_bind_state {A B} (m : M W A) (f : A -> M W B) (Q : B -> Prop) :
  (forall st, exists a, m st = (Ret a, st)) ->
  (forall a, returns (f a) Q) -> returns (m ≫= f) Q.
Proof.
  intros Hm Hf. apply (returns_bind _ _ (fun _ => True)); [|auto].
  intros st. destruct (Hm st) as [a ->]. eauto.
Qed.

End Returns.

(** Run the code on an arbitrary state, splitting on every answer. *)
Ltac returns_tac :=
  cbv beta iota zeta;
  lazymatch goal with
  | |- returns (mret _) _ => apply returns_ret
  | |- returns (call _ _) _ => apply returns_call; intros ?
  | |- returns (defer _ _) _ => apply returns_defer; returns_tac
  | |- returns (mbind _ (mret _)) _ => apply returns_bind_ret; returns_tac
  | |- returns (mbind _ (call _ _)) _ => apply returns_bind_call; intros ?; returns_tac
  | |- returns (mbind _ (mbind _ _)) _ => apply returns_bind_assoc; returns_tac
  | |- returns (mbind _ (match ?x with _ => _ end)) _ => destruct x eqn:?; returns_tac
  | |- returns (mbind _ (let (_, _) := ?x in _)) _ => destruct x eqn:?; returns_tac
  | |- returns (match ?x with _ => _ end) _ => destruct x eqn:?; returns_tac
  | |- returns (let (_, _) := ?x in _) _ => destruct x eqn:?; returns_tac
  | |- _ => idtac
  end.

(** ** Force format: further behaviour *)

(** X16: with a free slot, [forceFormat] always returns. When it returns no
    error the device has a format timestamp, is neither partitioned nor
    corrupted, and its [DeviceFormatting] condition is false with no error:
    the format precondition no longer holds. When it returns an error the
    format precondition, the spec and the conditions of the device are as
    before, so the next invocation formats again. *)
Theorem forceFormat_precondition_after
    {W Disk Partition : Type} (ext : Externals W Disk Partition) (c : Controller)
    (device : BlockDevice) (devPath : string) (filesystem : option FileSystemInfo)
    (st : ProcState W) :
  (ch_len (sem st) < ch_cap (sem st))%nat ->
  exists d' err st',
    forceFormat ext c device devPath filesystem st = (Ret (d', err), st') /\
    Spec d' = Spec device /\
    match err with
    | None =>
        needFormat d' = false /\
        FS_LastFormattedAt (dev_FS d') <> None /\
        DS_Partitioned (Status_DeviceStatus (Status d')) = false /\
        FS_Corrupted (dev_FS d') = false /\
        cond_Status (dev_cond DeviceFormatting d') = CondFalse /\
        cond_Error (dev_cond DeviceFormatting d') = ""
    | Some _ =>
        needFormat d' = needFormat device /\
        Status_Conditions (Status d') = Status_Conditions (Status device)
    end.
Proof.
  intros Hcap. apply Nat.ltb_lt in Hcap.
  unfold forceFormat. unfold mbind at 1, M_bind at 1, acquire. rewrite Hcap.
  change (negb true) with false. cbv beta iota zeta.
  lazymatch goal with
  | |- context [defer release ?b ?s] => set (body := b); generalize s; intros st1
  end.
  enough (H : returns (defer release body)
    (fun r =>
       Spec r.1 = Spec device /\
       match r.2 with
       | None =>
           needFormat r.1 = false /\
           FS_LastFormattedAt (dev_FS r.1) <> None /\
           DS_Partitioned (Status_DeviceStatus (Status r.1)) = false /\
           FS_Corrupted (dev_FS r.1) = false /\
           cond_Status (dev_cond DeviceFormatting r.1) = CondFalse /\
           cond_Error (dev_cond DeviceFormatting r.1) = ""
       | Some _ =>
           needFormat r.1 = needFormat device /\
           Status_Conditions (Status r.1) = Status_Conditions (Status device)
       end)).
  { destruct (H st1) as ([d' err] & st' & Hrun & HQ). exists d', err, st'. by split. }
  subst body.
  unfold updateDeviceFileSystem, UmountDisk, MakeExt4DiskFormatting,
    GetFileSystemInfoByDevPath, Now.
  destruct (negb (bool_decide (reuseUUID device = ""))).
  all: returns_tac.
  all: unfold needFormat; simpl; repeat split; try reflexivity; try discriminate.
  all: by rewrite ?andb_false_r.
Qed.

Lemma forceFormat_precondition_after_witness :
  let d := mkBlockDevice "d1" None
             (mkBlockDeviceSpec (mkFilesystemInfo "" true false true) "n1" None)
             (mkBlockDeviceStatus ProvisionPhaseUnprovisioned BlockDeviceActive
                (status0 (details0 "0x5000" "" "") true None) noConditions) in
  needFormat d = true /\
  exists d' st',
    forceFormat (canned_ext canned0) ctl d "/dev/sdb" (canned_fs canned0) (state0 1 ∅) =
      (Ret (d', None), st') /\
    needFormat d' = false.
Proof.
  intros d. split; [reflexivity|].
  destruct (forceFormat_precondition_after (canned_ext canned0) ctl d "/dev/sdb"
              (canned_fs canned0) (state0 1 ∅) ltac:(simpl; lia))
    as (d' & err & st' & Hrun & _ & Hpost).
  assert (Herr : err = None) by (vm_compute in Hrun; by simplify_eq).
  subst err. exists d', st'. split; [exact Hrun|]. exact (proj1 Hpost).
Defined.

(** X17: [forceFormat] never formats a disk it could not unmount: when the
    device is mounted and the unmount fails, the error is returned with the
    device untouched, mkfs is not run, and the slot taken is given back. *)
Theorem forceFormat_unmount_failure
    {W Disk Partition : Type} (ext : Externals W Disk Partition) (c : Controller)
    (device : BlockDevice) (devPath : string) (fs : FileSystemInfo)
    (st : ProcState W) (e : error) (w1 : W) :
  (ch_len (sem st) < ch_cap (sem st))%nat ->
  fsi_MountPoint fs <> "" ->
  ext_UmountDisk ext (fsi_MountPoint fs) (world st) = (Some e, w1) ->
  forceFormat ext c device devPath (Some fs) st =
    (Ret (device, Some e),
     mkProcState w1 (sem st) (CacheDiskTags st)
       (trace st ++ [EvUmountDisk (fsi_MountPoint fs)])%list).
Proof.
  intros Hcap Hmp Hum. apply Nat.ltb_lt in Hcap.
  unfold forceFormat, acquire, release, defer, UmountDisk, call, mbind, M_bind, mret, M_ret.
  rewrite Hcap. simpl. rewrite (bool_decide_eq_false_2 _ Hmp). simpl. rewrite Hum. simpl.
  by destruct st as [w [len cap] cache tr].
Qed.

Lemma forceFormat_unmount_failure_witness :
  let k := mkCanned (canned_fs canned0) (canned_path canned0)
             (Some (mkError ErrOther "target is busy")) None None
             (canned_node canned0) None (canned_status canned0) false in
  let d := device0 true None ProvisionPhaseUnprovisioned
             (status0 (details0 "0x5000" "" "") false None) in
  forceFormat (canned_ext k) ctl d "/dev/sdb" (Some (mkFileSystemInfo "ext4" false "/mnt/x"))
    (state0 1 ∅) =
    (Ret (d, Some (mkError ErrOther "target is busy")),
     mkProcState tt (mkSemaphore 0 1) (mkDiskTags ∅ true) [EvUmountDisk "/mnt/x"]).
Proof.
  intros k d.
  apply (forceFormat_unmount_failure (canned_ext k) ctl d "/dev/sdb"
           (mkFileSystemInfo "ext4" false "/mnt/x") (state0 1 ∅)
           (mkError ErrOther "target is busy") tt);
    [simpl; lia|discriminate|reflexivity].
Defined.

Section FormatWWN.

Context {W Disk Partition : Type}.
Variable ext : Externals W Disk Partition.
Variable c : Controller.

Lemma reuseUUID_with_wwn device :
  valueExists (Details_WWN (dev_Details device)) = true -> reuseUUID device = "".
Proof. intros H. unfold reuseUUID. by rewrite H. Qed.

Lemma returns_acquire : returns (W := W) acquire (fun _ => True).
Proof. intros st. unfold acquire. destruct (_ <? _)%nat; eauto. Qed.

End FormatWWN.

(** X18: on a device that has a WWN, [forceFormat] never hands a UUID to mkfs
    (every mkfs call gets the empty string), it always returns, and
    [Details.UUID] is afterwards what it was. *)
Theorem forceFormat_with_wwn
    {W Disk Partition : Type} (ext : Externals W Disk Partition) (c : Controller)
    (device : BlockDevice) (devPath : string) (filesystem : option FileSystemInfo) :
  valueExists (Details_WWN (dev_Details device)) = true ->
  quiet (fun e => match e with
                  | EvMakeExt4DiskFormatting _ uuid => negb (bool_decide (uuid = ""))
                  | _ => false
                  end)
    (forceFormat ext c device devPath filesystem) /\
  returns (forceFormat ext c device devPath filesystem)
    (fun r => Details_UUID (dev_Details r.1) = Details_UUID (dev_Details device)).
Proof.
  intros Hwwn. apply reuseUUID_with_wwn in Hwwn.
  unfold forceFormat. rewrite Hwwn. split.
  - unfold updateDeviceFileSystem, jitterEnqueueDelay. unfold_calls. quiet_tac.
  - apply (returns_bind _ _ (fun _ => True)); [apply returns_acquire|].
    intros ok _.
    unfold updateDeviceFileSystem, jitterEnqueueDelay. unfold_calls.
    returns_tac; reflexivity.
Qed.

Lemma forceFormat_with_wwn_witness :
  let d := device0 true None ProvisionPhaseUnprovisioned
             (status0 (details0 "0x5000" "u-1" "pt-1") false None) in
  trace (forceFormat (canned_ext canned0) ctl d "/dev/sdb" (canned_fs canned0) (state0 1 ∅)).2 =
    [EvMakeExt4DiskFormatting "/dev/sdb" ""; EvGetFileSystemInfoByDevPath "/dev/sdb"; EvNow] /\
  returns (forceFormat (canned_ext canned0) ctl d "/dev/sdb" (canned_fs canned0))
    (fun r => Details_UUID (dev_Details r.1) = "u-1").
Proof.
  intros d. split; [reflexivity|].
  exact (proj2 (forceFormat_with_wwn (canned_ext canned0) ctl d "/dev/sdb"
                  (canned_fs canned0) eq_refl)).
Defined.

(** ** Provision: further behaviour *)

Section ProvisionMore.

Context {W Disk Partition : Type}.
Variable ext : Externals W Disk Partition.
Variable c : Controller.

Lemma respectTags_state name tags acc (st : ProcState W) :
  exists r, respectTags name tags acc st = (Ret r, st).
Proof.
  revert acc. induction tags as [|tag tags IH]; intros acc; simpl.
  - eauto.
  - unfold mbind, M_bind, GetDiskTags. apply IH.
Qed.

Lemma provisionDiskSpec_state node device (st : ProcState W) :
  exists r, provisionDiskSpec node device st = (Ret r, st).
Proof.
  unfold provisionDiskSpec.
  destruct (go_lookup (Node_Disks node) (Name device)) as [disk|]; [|eauto].
  destruct (Disk_Tags disk) as [T|]; [|eauto].
  unfold mbind, M_bind, DevExist.
  destruct (bool_decide _).
  - destruct (respectTags_state (Name device) T (Some []) st) as [r ->]. eauto.
  - eauto.
Qed.

End ProvisionMore.

(** X19: [provisionDeviceToNode] always returns. When it returns an error
    (the node could not be loaded, or the node update failed) the device and
    the tag cache are as they were. When it returns no error the tag cache
    holds [Spec.Tags] for the device, the [DiskAddedToNode] condition is
    true, and the device is either untouched (the condition was already true)
    or in phase [Provisioned]; its spec is never changed. *)
Theorem provisionDeviceToNode_outcomes
    {W Disk Partition : Type} (ext : Externals W Disk Partition) (c : Controller)
    (device : BlockDevice) (st : ProcState W) :
  (forall node st1,
      provisionLoadNode ext c st = (Ret (inl node), st1) ->
      Node_Disks node <> None) ->
  exists d' err st',
    provisionDeviceToNode ext c device st = (Ret (d', err), st') /\
    Spec d' = Spec device /\ Name d' = Name device /\
    match err with
    | Some _ => d' = device /\ CacheDiskTags st' = CacheDiskTags st
    | None =>
        cache_get (CacheDiskTags st') (Name device) = Spec_Tags (Spec device) /\
        is_Some (diskTags (CacheDiskTags st') !! Name device) /\
        IsTrue DiskAddedToNode d' = true /\
        (if IsTrue DiskAddedToNode device then d' = device
         else dev_Phase d' = ProvisionPhaseProvisioned)
    end.
Proof.
  intros Hmap.
  unfold provisionDeviceToNode. unfold mbind at 1, M_bind at 1.
  destruct (provisionLoadNode ext c st) as [[[node|err]|] st1] eqn:Hload.
  - specialize (Hmap node st1 eq_refl).
    pose proof (provisionLoadNode_cache ext c _ _ _ Hload) as Hcache.
    destruct (Node_Disks node) as [g|] eqn:Hg; [clear Hmap|congruence].
    cbv beta iota zeta. unfold mbind at 1, M_bind at 1.
    destruct (provisionDiskSpec_state node device st1) as [[diskSpec updated] ->].
    unfold go_insert, NodesUpdate, UpdateDiskTags, call, mbind, M_bind, mret, M_ret.
    unfold cache_get.
    destruct (IsTrue DiskAddedToNode device) eqn:Htrue;
      destruct updated; simpl;
      try destruct (ext_NodesUpdate ext _ (world st1)) as [[e|] w]; simpl;
      eexists _, _, _; (split; [reflexivity|]); simpl;
      rewrite ?lookup_insert_eq; rewrite ?Htrue; auto 10.
  - exists device, (Some err), st1. split; [reflexivity|].
    split; [reflexivity|]. split; [reflexivity|]. split; [reflexivity|].
    exact (provisionLoadNode_cache ext c _ _ _ Hload).
  - exfalso. revert Hload.
    unfold provisionLoadNode, NodeCacheGet, NodesGet, call, mbind, M_bind, mret, M_ret.
    intros H. run_cases.
Qed.

Lemma provisionDeviceToNode_outcomes_witness :
  let k := mkCanned (canned_fs canned0) (canned_path canned0) None None None
             (inl (mkNode "n1" (Some ∅) (Some ∅)))
             (Some (mkError ErrOther "conflict")) (canned_status canned0) false in
  let d := device0 true (Some ["ssd"]) ProvisionPhaseUnprovisioned
             (status0 (details0 "0x5000" "" "") false (Some 5)) in
  exists st',
    provisionDeviceToNode (canned_ext k) ctl d (state0 1 ∅) =
      (Ret (d, Some (mkError ErrOther "conflict")), st') /\
    CacheDiskTags st' = CacheDiskTags (state0 1 ∅).
Proof.
  intros k d.
  destruct (provisionDeviceToNode_outcomes (canned_ext k) ctl d (state0 1 ∅))
    as (d' & err & st' & Hrun & _ & _ & Hpost).
  { intros node st1 Hload. vm_compute in Hload. by simplify_eq. }
  assert (Herr : err = Some (mkError ErrOther "conflict"))
    by (vm_compute in Hrun; by simplify_eq).
  subst err. destruct Hpost as [-> Hcache].
  exists st'. by split.
Defined.

(** X20: the first provision of a device, on a node that has no entry for
    it: the node is written once, with an entry for the device whose path is
    the expected mount point, scheduling allowed, no eviction, no reserved
    storage and the tags of the spec, every other entry being kept. When the
    write succeeds and the device was not yet marked as added, the device
    comes back in phase [Provisioned] with the condition true. On a node
    whose disk map is nil the entry cannot be set: the run panics before
    anything is written. *)
Theorem provisionDeviceToNode_first_time
    {W Disk Partition : Type} (ext : Externals W Disk Partition) (c : Controller)
    (device : BlockDevice) (st st1 : ProcState W) (node : Node) :
  provisionLoadNode ext c st = (Ret (inl node), st1) ->
  go_lookup (Node_Disks node) (Name device) = None ->
  IsTrue DiskAddedToNode device = false ->
  let entry :=
    mkDiskSpec (extraDiskMountPoint device) true false 0 (Spec_Tags (Spec device)) in
  match Node_Disks node with
  | None => provisionDeviceToNode ext c device st = (Panic, st1)
  | Some g =>
      let node' := mkNode (Node_Name node) (Some (<[Name device := entry]> g))
                     (Node_DiskStatus node) in
      exists d' err st',
        provisionDeviceToNode ext c device st = (Ret (d', err), st') /\
        trace st' = (trace st1 ++ [EvNodesUpdate node'])%list /\
        go_lookup (Node_Disks node') (Name device) = Some entry /\
        (forall other, other <> Name device ->
           go_lookup (Node_Disks node') other = go_lookup (Node_Disks node) other) /\
        ext_NodesUpdate ext node' (world st1) = (err, world st') /\
        (err = None ->
         dev_Phase d' = ProvisionPhaseProvisioned /\
         cond_Status (dev_cond DiskAddedToNode d') = CondTrue /\
         cond_Error (dev_cond DiskAddedToNode d') = "")
  end.
Proof.
  intros Hload Hnone Hadded entry.
  destruct (Node_Disks node) as [g|] eqn:Hg.
  all: unfold provisionDeviceToNode, provisionDiskSpec, go_insert, NodesUpdate,
         UpdateDiskTags, call, mbind, M_bind, mret, M_ret.
  all: rewrite Hload; cbv beta iota zeta; rewrite Hg, Hnone, Hadded; simpl.
  2: reflexivity.
  fold entry.
  destruct (ext_NodesUpdate ext _ (world st1)) as [err w] eqn:Hupd.
  destruct err as [e|]; simpl.
  all: eexists _, _, _; split; [reflexivity|]; simpl.
  all: split; [reflexivity|]; split; [apply lookup_insert_eq|].
  all: split; [intros other Hne; by rewrite lookup_insert_ne|].
  all: split; [reflexivity|]; intros; simplify_eq; auto.
Qed.

Lemma provisionDeviceToNode_first_time_witness :
  let node := mkNode "n1" (Some ∅) (Some ∅) in
  let k := with_node canned0 (inl node) in
  let d := device0 true (Some ["ssd"]) ProvisionPhaseUnprovisioned
             (status0 (details0 "0x5000" "" "") false (Some 5)) in
  exists d' st',
    provisionDeviceToNode (canned_ext k) ctl d (state0 1 ∅) = (Ret (d', None), st') /\
    trace st' =
      [EvNodeCacheGet "longhorn-system" "n1";
       EvNodesUpdate
         (mkNode "n1"
            (Some {[ "d1" := mkDiskSpec "/var/lib/harvester/extra-disks/d1" true false 0
                               (Some ["ssd"]) ]})
            (Some ∅))] /\
    dev_Phase d' = ProvisionPhaseProvisioned.
Proof.
  intros node k d.
  destruct (provisionDeviceToNode_first_time (canned_ext k) ctl d (state0 1 ∅)
              (mkProcState tt (mkSemaphore 0 1) (mkDiskTags ∅ true)
                 [EvNodeCacheGet "longhorn-system" "n1"])
              node eq_refl eq_refl eq_refl)
    as (d' & err & st' & Hrun & Htr & _ & _ & Hupd & Hok).
  assert (Herr : err = None) by (simpl in Hupd; by simplify_eq).
  subst err. exists d', st'. split; [exact Hrun|]. split.
  - rewrite Htr. simpl. by rewrite insert_empty.
  - by apply Hok.
Defined.

(** The first provision on a node whose disk map is nil. *)
Example provisionDeviceToNode_nil_disks :
  let k := with_node canned0 (inl (mkNode "n1" None None)) in
  let d := device0 true (Some ["ssd"]) ProvisionPhaseUnprovisioned
             (status0 (details0 "0x5000" "" "") false (Some 5)) in
  provisionDeviceToNode (canned_ext k) ctl d (state0 1 ∅) =
    (Panic,
     mkProcState tt (mkSemaphore 0 1) (mkDiskTags ∅ true)
       [EvNodeCacheGet "longhorn-system" "n1"]).
Proof. vm_compute. reflexivity. Qed.

(** X21: no drift, no work. For a device to provision that already is in
    phase [Provisioned], when the tags of the spec and the cached tags are
    the same set and the node's entry has every tag of the spec, the
    provision stage reads the node from the cache and does nothing else: the
    device comes back as it went in, and nothing is written or re-enqueued. *)
Theorem provisionStage_in_sync
    {W Disk Partition : Type} (ext : Externals W Disk Partition) (c : Controller)
    (device deviceCpy : BlockDevice) (st : ProcState W) (node : Node) (w1 : W) :
  SpecFS_Provisioned (dev_SpecFS deviceCpy) = true ->
  dev_Phase device = ProvisionPhaseProvisioned ->
  SliceContentCmp (Spec_Tags (Spec deviceCpy)) (cache_get (CacheDiskTags st) (Name device))
    = true ->
  ext_NodeCacheGet ext (Namespace c) (NodeName c) (world st) = (inl node, w1) ->
  (forall tag, tag ∈ elems (Spec_Tags (Spec deviceCpy)) ->
     exists nodeDisk, go_lookup (Node_Disks node) (Name device) = Some nodeDisk /\
                      tag ∈ elems (Disk_Tags nodeDisk)) ->
  provisionStage ext c device deviceCpy st =
    (Ret deviceCpy,
     mkProcState w1 (sem st) (CacheDiskTags st)
       (trace st ++ [EvNodeCacheGet (Namespace c) (NodeName c)])%list).
Proof.
  intros Hprov Hphase Hsync Hget Htags.
  unfold provisionStage, DiskTagsOnNodeMissed, GetDiskTags, NodeCacheGet, call,
    mbind, M_bind, mret, M_ret.
  rewrite Hprov, Hphase. simpl. rewrite Hsync. simpl. rewrite Hget.
  assert (Hmiss :
    existsb (fun tag =>
      negb (slices_Contains
              match go_lookup (Node_Disks node) (Name device) with
              | Some nodeDisk => Disk_Tags nodeDisk
              | None => None
              end tag)) (elems (Spec_Tags (Spec deviceCpy))) = false).
  { apply not_true_is_false. intros Hex.
    apply existsb_exists in Hex as (tag & Hin & Hneg).
    apply list_elem_of_In in Hin.
    destruct (Htags tag Hin) as (nodeDisk & Hdisk & Htag).
    rewrite Hdisk in Hneg. unfold slices_Contains in Hneg.
    by rewrite (bool_decide_eq_true_2 _ Htag) in Hneg. }
  by rewrite Hmiss.
Qed.

Lemma provisionStage_in_sync_witness :
  let disk := mkDiskSpec "/var/lib/harvester/extra-disks/d1" true false 0
                (Some ["zone-a"; "ssd"; "fast"]) in
  let node := mkNode "n1" (Some {[ "d1" := disk ]}) (Some ∅) in
  let k := with_node canned0 (inl node) in
  let d := device0 true (Some ["fast"; "ssd"]) ProvisionPhaseProvisioned
             (status0 (details0 "0x5000" "" "") false (Some 5)) in
  let st := state0 1 {[ "d1" := Some ["ssd"; "fast"] ]} in
  provisionStage (canned_ext k) ctl d d st =
    (Ret d,
     mkProcState tt (mkSemaphore 0 1) (mkDiskTags {[ "d1" := Some ["ssd"; "fast"] ]} true)
       [EvNodeCacheGet "longhorn-system" "n1"]).
Proof.
  intros disk node k d st.
  apply (provisionStage_in_sync (canned_ext k) ctl d d st node tt);
    [reflexivity|reflexivity|reflexivity|reflexivity|].
  intros tag Htag. exists disk. split; [reflexivity|].
  simpl in *.
  apply elem_of_cons in Htag as [->|Htag].
  - do 2 apply list_elem_of_further. apply list_elem_of_here.
  - apply elem_of_cons in Htag as [->|Htag]; [|by apply not_elem_of_nil in Htag].
    apply list_elem_of_further, list_elem_of_here.
Defined.

(** ** Unprovision: further behaviour *)

(** X22: when the node has no entry for the device, unprovisioning is
    finished at once: the phase becomes [Unprovisioned], the
    [DiskAddedToNode] condition false with no error, and the node is only
    read, not written. *)
Theorem unprovision_without_entry
    {W Disk Partition : Type} (ext : Externals W Disk Partition) (c : Controller)
    (device : BlockDevice) (st : ProcState W) (node : Node) (w1 : W) :
  ext_NodesGet ext (Namespace c) (NodeName c) (world st) = (inl node, w1) ->
  go_lookup (Node_Disks node) (Name device) = None ->
  exists d',
    unprovisionDeviceFromNode ext c device st =
      (Ret (d', None),
       mkProcState w1 (sem st) (CacheDiskTags st)
         (trace st ++ [EvNodesGet (Namespace c) (NodeName c)])%list) /\
    dev_Phase d' = ProvisionPhaseUnprovisioned /\
    cond_Status (dev_cond DiskAddedToNode d') = CondFalse /\
    cond_Error (dev_cond DiskAddedToNode d') = "" /\
    Spec d' = Spec device /\
    Status_DeviceStatus (Status d') = Status_DeviceStatus (Status device).
Proof.
  intros Hget Hnone.
  unfold unprovisionDeviceFromNode, NodesGet, call, mbind, M_bind, mret, M_ret.
  rewrite Hget. simpl. rewrite Hnone.
  eexists. split; [reflexivity|]. repeat split; reflexivity.
Qed.

Lemma unprovision_without_entry_witness :
  let node := mkNode "n1" (Some ∅) (Some ∅) in
  let k := with_node canned0 (inl node) in
  let d := device0 false None ProvisionPhaseProvisioned
             (status0 (details0 "0x5000" "" "") false (Some 5)) in
  exists d' st',
    unprovisionDeviceFromNode (canned_ext k) ctl d (state0 1 ∅) = (Ret (d', None), st') /\
    dev_Phase d' = ProvisionPhaseUnprovisioned.
Proof.
  intros node k d.
  destruct (unprovision_without_entry (canned_ext k) ctl d (state0 1 ∅) node tt
              eq_refl eq_refl) as (d' & Hrun & Hphase & _).
  eexists d', _. split; [exact Hrun|exact Hphase].
Defined.

(** X23: the first phase of the removal. For an entry that does not carry
    the removal tag yet, the node is written once, with that entry closed
    for scheduling, marked for eviction and tagged for removal (tag appended
    last), its path and reserved storage and every other entry being kept.
    When the write succeeds the device comes back in phase [Unprovisioning]
    with the [DiskAddedToNode] condition false; when it fails the error is
    returned and the device is untouched. *)
Theorem unprovision_starts_eviction
    {W Disk Partition : Type} (ext : Externals W Disk Partition) (c : Controller)
    (device : BlockDevice) (st : ProcState W) (node : Node) (w1 : W) (disk : DiskSpec) :
  ext_NodesGet ext (Namespace c) (NodeName c) (world st) = (inl node, w1) ->
  go_lookup (Node_Disks node) (Name device) = Some disk ->
  ext_DiskRemoveTag ext ∉ elems (Disk_Tags disk) ->
  let entry :=
    mkDiskSpec (Disk_Path disk) false true (Disk_StorageReserved disk)
      (Some (elems (Disk_Tags disk) ++ [ext_DiskRemoveTag ext])%list) in
  exists node' d' err w2,
    unprovisionDeviceFromNode ext c device st =
      (Ret (d', err),
       mkProcState w2 (sem st) (CacheDiskTags st)
         (trace st ++ [EvNodesGet (Namespace c) (NodeName c); EvNodesUpdate node'])%list) /\
    ext_NodesUpdate ext node' w1 = (err, w2) /\
    go_lookup (Node_Disks node') (Name device) = Some entry /\
    (forall other, other <> Name device ->
       go_lookup (Node_Disks node') other = go_lookup (Node_Disks node) other) /\
    Node_DiskStatus node' = Node_DiskStatus node /\
    match err with
    | None =>
        dev_Phase d' = ProvisionPhaseUnprovisioning /\
        cond_Status (dev_cond DiskAddedToNode d') = CondFalse
    | Some _ => d' = device
    end.
Proof.
  intros Hget Hdisk Htag entry.
  assert (Hno : hasDiskRemoveTag ext (elems (Disk_Tags disk)) = false).
  { apply not_true_is_false. intros H. by apply hasDiskRemoveTag_elem in H. }
  assert (Hg : exists g, Node_Disks node = Some g).
  { unfold go_lookup in Hdisk. destruct (Node_Disks node); [eauto|discriminate]. }
  destruct Hg as [g Hg].
  unfold unprovisionDeviceFromNode, go_insert, NodesGet, NodesUpdate, call,
    mbind, M_bind, mret, M_ret.
  rewrite Hget. cbv beta iota zeta. rewrite Hdisk. cbv beta iota zeta.
  rewrite Hno, Hg. simpl.
  destruct (ext_NodesUpdate ext _ w1) as [err w2] eqn:Hupd.
  match type of Hupd with ext_NodesUpdate _ ?n _ = _ => set (node' := n) in * end.
  assert (Hentry : go_lookup (Node_Disks node') (Name device) = Some entry).
  { simpl. rewrite lookup_insert_eq. subst entry. by destruct (Disk_Tags disk). }
  assert (Hother : forall other, other <> Name device ->
            go_lookup (Node_Disks node') other = go_lookup (Some g) other).
  { intros other Hne. simpl. by rewrite lookup_insert_ne. }
  destruct err as [e|]; simpl.
  - exists node', device, (Some e), w2. rewrite <- app_assoc. auto 10.
  - eexists node', _, None, w2. rewrite <- app_assoc.
    split; [reflexivity|]. auto 10.
Qed.

Lemma unprovision_starts_eviction_witness :
  let disk := mkDiskSpec "/var/lib/harvester/extra-disks/d1" true false 0 (Some ["ssd"]) in
  let node := mkNode "n1" (Some {[ "d1" := disk ]}) (Some ∅) in
  let k := with_node canned0 (inl node) in
  let d := device0 false None ProvisionPhaseProvisioned
             (status0 (details0 "0x5000" "" "") false (Some 5)) in
  exists node' d' st',
    unprovisionDeviceFromNode (canned_ext k) ctl d (state0 1 ∅) = (Ret (d', None), st') /\
    trace st' = [EvNodesGet "longhorn-system" "n1"; EvNodesUpdate node'] /\
    go_lookup (Node_Disks node') "d1" =
      Some (mkDiskSpec "/var/lib/harvester/extra-disks/d1" false true 0
              (Some ["ssd"; "harvester-ndm-disk-remove"])) /\
    dev_Phase d' = ProvisionPhaseUnprovisioning.
Proof.
  intros disk node k d.
  assert (Hno : ext_DiskRemoveTag (canned_ext k) ∉ elems (Disk_Tags disk)).
  { simpl. intros Hin. apply elem_of_cons in Hin as [Hin|Hin]; [discriminate|].
    by apply not_elem_of_nil in Hin. }
  destruct (unprovision_starts_eviction (canned_ext k) ctl d (state0 1 ∅) node tt disk
              eq_refl eq_refl Hno)
    as (node' & d' & err & w2 & Hrun & Hupd & Hentry & _ & _ & Hpost).
  assert (Herr : err = None) by (simpl in Hupd; by simplify_eq).
  subst err. destruct Hpost as [Hphase _].
  eexists node', d', _. split; [exact Hrun|]. split; [reflexivity|]. by split.
Defined.

(** X24: the removal tag is set once. Against a node whose entry for the
    device already carries the removal tag (as the entry written by the
    first phase does), unprovisioning never writes a node that still holds
    the entry: the only write it can make is the one that removes it, every
    other entry and the disk status being kept. *)
Theorem unprovision_tagged_only_removes
    {W Disk Partition : Type} (ext : Externals W Disk Partition) (c : Controller)
    (device : BlockDevice) (st : ProcState W) (node : Node) (w1 : W) (disk : DiskSpec) :
  ext_NodesGet ext (Namespace c) (NodeName c) (world st) = (inl node, w1) ->
  go_lookup (Node_Disks node) (Name device) = Some disk ->
  ext_DiskRemoveTag ext ∈ elems (Disk_Tags disk) ->
  exists evs,
    trace (unprovisionDeviceFromNode ext c device st).2 = (trace st ++ evs)%list /\
    forall node', EvNodesUpdate node' ∈ evs ->
      go_lookup (Node_Disks node') (Name device) = None /\
      Node_DiskStatus node' = Node_DiskStatus node /\
      forall other, other <> Name device ->
        go_lookup (Node_Disks node') other = go_lookup (Node_Disks node) other.
Proof.
  intros Hget Hdisk Htag.
  apply hasDiskRemoveTag_elem in Htag.
  assert (Hg : exists g, Node_Disks node = Some g).
  { unfold go_lookup in Hdisk. destruct (Node_Disks node); [eauto|discriminate]. }
  destruct Hg as [g Hg].
  unfold unprovisionDeviceFromNode, jitterEnqueueDelay, NodesGet, NodesUpdate,
    GenRandNumber, EnqueueAfter, call, mbind, M_bind, mret, M_ret.
  rewrite Hget. cbv beta iota zeta. rewrite Hdisk. cbv beta iota zeta. rewrite Htag.
  cbv beta iota zeta.
  destruct (_ && _).
  - simpl. destruct (ext_NodesUpdate ext _ w1) as [err w2].
    eexists [_; _]. split; [by destruct err; simpl; rewrite <- app_assoc|].
    intros node' Hin.
    apply elem_of_cons in Hin as [Hin|Hin]; [discriminate|].
    apply elem_of_cons in Hin as [Hin|Hin]; [|by apply not_elem_of_nil in Hin].
    simplify_eq. simpl. rewrite Hg. simpl.
    split; [apply lookup_delete_eq|]. split; [reflexivity|].
    intros other Hne. by rewrite lookup_delete_ne.
  - simpl. destruct (ext_GenRandNumber ext 2 w1) as [[rand e] w2]. simpl.
    destruct (ext_EnqueueAfter ext _ _ _ w2) as [[] w3]. simpl.
    eexists [_; _; _]. split; [by rewrite <- !app_assoc|].
    intros node' Hin.
    repeat (apply elem_of_cons in Hin as [Hin|Hin]; [discriminate|]).
    by apply not_elem_of_nil in Hin.
Qed.

Lemma unprovision_tagged_only_removes_witness :
  let entry := mkDiskSpec "/var/lib/harvester/extra-disks/d1" false true 0
                 (Some ["ssd"; "harvester-ndm-disk-remove"]) in
  let node := mkNode "n1" (Some {[ "d1" := entry ]}) (Some {[ "d1" := mkDiskStatus (Some ∅) ]}) in
  let k := with_node canned0 (inl node) in
  let d := device0 false None ProvisionPhaseUnprovisioning
             (status0 (details0 "0x5000" "" "") false (Some 5)) in
  exists node',
    trace (unprovisionDeviceFromNode (canned_ext k) ctl d (state0 1 ∅)).2 =
      [EvNodesGet "longhorn-system" "n1"; EvNodesUpdate node'] /\
    go_lookup (Node_Disks node') "d1" = None.
Proof.
  intros entry node k d.
  assert (Htag : ext_DiskRemoveTag (canned_ext k) ∈ elems (Disk_Tags entry)).
  { simpl. apply list_elem_of_further, list_elem_of_here. }
  destruct (unprovision_tagged_only_removes (canned_ext k) ctl d (state0 1 ∅) node tt entry
              eq_refl eq_refl Htag) as (evs & Htr & Hall).
  exists (mkNode "n1" (Some (delete "d1" {[ "d1" := entry ]}))
            (Some {[ "d1" := mkDiskStatus (Some ∅) ]})).
  assert (Htrace :
    trace (unprovisionDeviceFromNode (canned_ext k) ctl d (state0 1 ∅)).2 =
      [EvNodesGet "longhorn-system" "n1";
       EvNodesUpdate (mkNode "n1" (Some (delete "d1" {[ "d1" := entry ]}))
                        (Some {[ "d1" := mkDiskStatus (Some ∅) ]}))])
    by (vm_compute; reflexivity).
  split; [exact Htrace|].
  rewrite Htrace in Htr. simpl in Htr. subst evs.
  apply Hall. apply list_elem_of_further, list_elem_of_here.
Defined.

(** ** Status refresh: further behaviour *)


(** ** The mount planner: further behaviour *)

Lemma extraDiskMountPoint_nonempty bd : extraDiskMountPoint bd <> "".
Proof.
  unfold extraDiskMountPoint. case_bool_decide as He; simpl; [discriminate|exact He].
Qed.

(** X26: the state a plan aims at needs no further plan. Once a device to
    provision is observed mounted at its expected mount point, or a device
    not to provision is observed unmounted, the planner answers no-op; in
    particular the expected mount point is never the empty path. *)
Theorem needUpdateMountPoint_settles (bd : BlockDevice) (fs : FileSystemInfo) :
  fsi_MountPoint fs =
    (if SpecFS_Provisioned (dev_SpecFS bd) then extraDiskMountPoint bd else "") ->
  needUpdateMountPoint bd (Some fs) = NeedMountUpdateNoOp.
Proof.
  intros Hmp. unfold needUpdateMountPoint.
  destruct (SpecFS_Provisioned (dev_SpecFS bd)).
  - rewrite bool_decide_eq_false_2
      by (rewrite Hmp; apply extraDiskMountPoint_nonempty).
    by rewrite (bool_decide_eq_true_2 _ Hmp).
  - by rewrite (bool_decide_eq_true_2 _ Hmp).
Qed.

Lemma needUpdateMountPoint_settles_witness :
  let d := device0 true None ProvisionPhaseProvisioned
             (status0 (details0 "0x5000" "" "") false (Some 5)) in
  needUpdateMountPoint d (Some (mkFileSystemInfo "ext4" false "/var/lib/harvester/extra-disks/d1"))
    = NeedMountUpdateNoOp.
Proof.
  intros d.
  apply (needUpdateMountPoint_settles d
           (mkFileSystemInfo "ext4" false "/var/lib/harvester/extra-disks/d1")).
  reflexivity.
Defined.

(** ** The helper [removeUnNeeded] *)

Lemma removeUnNeeded_loop_filter {T} `{EqDecision T} (x y result : list T) :
  removeUnNeeded_loop x y result = (result ++ filter (fun item => item ∉ y) x)%list.
Proof.
  revert result. induction x as [|item x IH]; intros result; simpl.
  - by rewrite app_nil_r.
  - rewrite IH, filter_cons. case_bool_decide as Hin; simpl.
    + by rewrite decide_False by (intros Hn; by apply Hn).
    + rewrite decide_True by exact Hin. by rewrite <- app_assoc.
Qed.

(** X27: [removeUnNeeded x y] is never the nil slice; it holds, in the order
    of [x] and as often as in [x], exactly the items of [x] that are not in
    [y]. Taking [y] out a second time changes nothing, and nothing is left of
    a slice taken out of itself. *)
Theorem removeUnNeeded_spec {T} `{EqDecision T} (x y : GoSlice T) :
  removeUnNeeded x y = Some (filter (fun item => item ∉ elems y) (elems x)) /\
  (forall item, item ∈ elems (removeUnNeeded x y) <-> item ∈ elems x /\ item ∉ elems y) /\
  removeUnNeeded (removeUnNeeded x y) y = removeUnNeeded x y /\
  removeUnNeeded x x = Some [].
Proof.
  assert (Heq : forall a b : GoSlice T,
            removeUnNeeded a b = Some (filter (fun item => item ∉ elems b) (elems a))).
  { intros a b. unfold removeUnNeeded. by rewrite removeUnNeeded_loop_filter. }
  split; [apply Heq|]. split; [|split].
  - intros item. rewrite Heq. simpl. rewrite list_elem_of_filter. tauto.
  - rewrite !Heq. simpl. f_equal.
    apply list_filter_filter_l. intros item Hin. exact Hin.
  - rewrite Heq. f_equal. apply elem_of_nil_inv.
    intros item Hin. apply list_elem_of_filter in Hin as [Hn Hin]. contradiction.
Qed.

(** ** The jittered delay *)

(** The delay of a re-enqueue is the number drawn plus five, in
    seconds, whatever error the random source reports along with it; for a
    number in the range of a 32-bit draw nothing wraps, so the delay is at
    least five seconds. *)
Theorem jitterEnqueueDelay_value
    {W Disk Partition : Type} (ext : Externals W Disk Partition)
    (st : ProcState W) (rand : Z) (e : option error) (w1 : W) :
  ext_GenRandNumber ext 2 (world st) = ((rand, e), w1) ->
  0 <= rand < 2 ^ 32 ->
  jitterEnqueueDelay ext st =
    (Ret ((rand + 5) * Second),
     mkProcState w1 (sem st) (CacheDiskTags st) (trace st ++ [EvGenRandNumber 2])%list) /\
  5 * Second <= (rand + 5) * Second.
Proof.
  intros Hrand Hrange.
  unfold jitterEnqueueDelay, GenRandNumber, call, mbind, M_bind, mret, M_ret.
  rewrite Hrand. simpl.
  assert (Hw : forall z, - 2 ^ 63 <= z < 2 ^ 63 -> wrap64 z = z).
  { intros z Hz. unfold wrap64. rewrite Z.mod_small; lia. }
  unfold Second in *.
  rewrite (Hw (rand + 5)) by lia. rewrite Hw by lia.
  split; [reflexivity|lia].
Qed.

Lemma jitterEnqueueDelay_value_witness :
  (jitterEnqueueDelay (canned_ext canned0) (state0 1 ∅)).1 = Ret 6000000000.
Proof.
  rewrite (proj1 (jitterEnqueueDelay_value (canned_ext canned0) (state0 1 ∅) 1 None tt
                    eq_refl ltac:(lia))).
  reflexivity.
Defined.

(** ** The delete handler *)

Section DeleteProofs.

Context {W Disk Partition : Type}.
Variable ext : Externals W Disk Partition.
Variable c : Controller.
Variable list_ : string -> string -> string -> W -> (list BlockDevice + error) * W.
Variable delete_ : string -> string -> W -> option error * W.

Lemma deleteChildren_frame bds (st : ProcState W) :
  exists err w',
    deleteChildren c delete_ bds st =
      (Ret err, mkProcState w' (sem st) (CacheDiskTags st) (trace st)).
Proof.
  revert st. induction bds as [|bd bds IH]; intros st; simpl.
  - exists None, (world st). by destruct st.
  - unfold mbind, M_bind, lift.
    destruct (delete_ (Namespace c) (Name bd) (world st)) as [[e|] w1]; simpl.
    + eauto.
    + destruct (IH (mkProcState w1 (sem st) (CacheDiskTags st) (trace st)))
        as (err & w' & ->). eauto.
Qed.



End DeleteProofs.

(** The delete handler first asks for the tag cache: while it is not
    initialized every event, a nil device included, is answered with the
    error [CacheDiskTags is not initialized]; once it is, a nil device is
    answered [(nil, nil)]. Neither makes a call or touches any state. *)
Theorem OnBlockDeviceDelete_guards
    {W Disk Partition : Type} (ext : Externals W Disk Partition) (c : Controller)
    (list_ : string -> string -> string -> W -> (list BlockDevice + error) * W)
    (delete_ : string -> string -> W -> option error * W) (notFoundNode : option Node)
    (key : string) (device : option BlockDevice) (st : ProcState W) :
  match initialized (CacheDiskTags st), device with
  | false, _ =>
      OnBlockDeviceDelete ext c list_ delete_ notFoundNode key device st =
        (Ret (None, Some (mkError ErrOther "CacheDiskTags is not initialized")), st)
  | true, None =>
      OnBlockDeviceDelete ext c list_ delete_ notFoundNode key device st =
        (Ret (None, None), st)
  | true, Some _ => True
  end.
Proof.
  unfold OnBlockDeviceDelete, Initialized, mbind, M_bind.
  destruct (initialized (CacheDiskTags st)); [|reflexivity].
  by destruct device.
Qed.

(** X28: when the listing of the children fails, the handler returns its
    error with the device; when there are no children it returns
    [(nil, nil)]. In both cases the node is neither read nor written, nothing
    is unmounted, and the tag cache keeps what it holds, the tags of the
    deleted device included. *)
Theorem OnBlockDeviceDelete_without_children
    {W Disk Partition : Type} (ext : Externals W Disk Partition) (c : Controller)
    (list_ : string -> string -> string -> W -> (list BlockDevice + error) * W)
    (delete_ : string -> string -> W -> option error * W) (notFoundNode : option Node)
    (key : string) (device : BlockDevice) (st : ProcState W)
    (r : list BlockDevice + error) (w1 : W) :
  initialized (CacheDiskTags st) = true ->
  list_ (Namespace c) (NodeName c) (Name device) (world st) = (r, w1) ->
  match r with inl (_ :: _) => False | _ => True end ->
  OnBlockDeviceDelete ext c list_ delete_ notFoundNode key (Some device) st =
    (Ret (match r with inr err => (Some device, Some err) | inl _ => (None, None) end),
     mkProcState w1 (sem st) (CacheDiskTags st) (trace st)).
Proof.
  intros Hinit Hlist Hr.
  unfold OnBlockDeviceDelete, Initialized, lift, mbind, M_bind.
  rewrite Hinit. simpl. rewrite Hlist.
  destruct r as [[|bd bds]|err]; [reflexivity|contradiction|reflexivity].
Qed.

Lemma OnBlockDeviceDelete_without_children_witness :
  let d := device0 false (Some ["ssd"]) ProvisionPhaseProvisioned
             (status0 (details0 "0x5000" "" "") false (Some 5)) in
  let st := state0 1 {[ "d1" := Some ["ssd"] ]} in
  OnBlockDeviceDelete (canned_ext canned0) ctl (fun _ _ _ w => (inl [], w))
    (fun _ _ w => (None, w)) None "d1" (Some d) st = (Ret (None, None), st).
Proof.
  intros d st.
  apply (OnBlockDeviceDelete_without_children (canned_ext canned0) ctl
           (fun _ _ _ w => (inl [], w)) (fun _ _ w => (None, w)) None "d1" d st (inl []) tt);
    [reflexivity|reflexivity|exact I].
Defined.

(** X29: when deleting one of the children fails, the handler stops there
    and returns that error with the device: the node is neither read nor
    written, nothing is unmounted and the tag cache is untouched. *)
Theorem OnBlockDeviceDelete_child_delete_failure
    {W Disk Partition : Type} (ext : Externals W Disk Partition) (c : Controller)
    (list_ : string -> string -> string -> W -> (list BlockDevice + error) * W)
    (delete_ : string -> string -> W -> option error * W) (notFoundNode : option Node)
    (key : string) (device : BlockDevice) (st st2 : ProcState W)
    (bds : list BlockDevice) (w1 : W) (e : error) :
  initialized (CacheDiskTags st) = true ->
  list_ (Namespace c) (NodeName c) (Name device) (world st) = (inl bds, w1) ->
  deleteChildren c delete_ bds (mkProcState w1 (sem st) (CacheDiskTags st) (trace st)) =
    (Ret (Some e), st2) ->
  OnBlockDeviceDelete ext c list_ delete_ notFoundNode key (Some device) st =
    (Ret (Some device, Some e), st2) /\
  trace st2 = trace st /\ CacheDiskTags st2 = CacheDiskTags st /\ sem st2 = sem st.
Proof.
  intros Hinit Hlist Hdel.
  destruct (deleteChildren_frame c delete_ bds
              (mkProcState w1 (sem st) (CacheDiskTags st) (trace st))) as (err & w' & Hfr).
  rewrite Hdel in Hfr. simplify_eq. split; [|auto].
  unfold OnBlockDeviceDelete, Initialized, lift, mbind, M_bind.
  rewrite Hinit. simpl. rewrite Hlist.
  destruct bds as [|bd bds]; [discriminate|].
  rewrite bool_decide_eq_false_2 by discriminate.
  fold (@mbind (M W) _). unfold mbind, M_bind. 
  by rewrite Hdel.
Qed.

Lemma OnBlockDeviceDelete_child_delete_failure_witness :
  let d := device0 false None ProvisionPhaseProvisioned
             (status0 (details0 "0x5000" "" "") false (Some 5)) in
  let part := mkBlockDevice "d1p1" None (Spec d) (Status d) in
  let st := state0 1 {[ "d1" := Some ["ssd"] ]} in
  OnBlockDeviceDelete (canned_ext canned0) ctl (fun _ _ _ w => (inl [part], w))
    (fun _ _ w => (Some (mkError ErrOther "forbidden"), w)) None "d1" (Some d) st =
    (Ret (Some d, Some (mkError ErrOther "forbidden")), st).
Proof.
  intros d part st.
  apply (OnBlockDeviceDelete_child_delete_failure (canned_ext canned0) ctl
           (fun _ _ _ w => (inl [part], w))
           (fun _ _ w => (Some (mkError ErrOther "forbidden"), w)) None "d1" d st st
           [part] tt (mkError ErrOther "forbidden")); reflexivity.
Defined.


